(** * Verification model of the travel-search tool server

    The development embeds the response-normalisation and resolution
    pipeline of the server (validator, normaliser, location service and
    search service) and settles the specification's statements against it.

    Layout:
    - [PyRuntime]: the values a decoded JSON payload is made of, and the
      interpreter operations the source applies to them (truthiness, [or],
      [.get], [in], [int()], [float()], [str()], comparisons);
    - [Effects]: exceptions, the logger and the upstream client as a state
      and error monad;
    - [Models], [Validator], [Normalizer], [PositionService],
      [SearchService]: one module per source file, definition by definition;
    - the statements, grouped by the function they are about. *)

From Stdlib Require Import ZArith List String Ascii Bool Lia.
From Stdlib Require Import SpecFloat DecimalString.
Import ListNotations.

#[local] Set Warnings "-register-all".

Local Open Scope string_scope.
Local Open Scope list_scope.
Local Open Scope Z_scope.

(* ================================================================== *)
(** * The interpreter's values and built-in operations                *)
(* ================================================================== *)

Module PyRuntime.

(** A decoded JSON document.  [response.json()] yields [None], booleans,
    integers of any size, binary64 floats, strings, lists, and dictionaries
    with string keys that keep their insertion order.  A character is one
    [ascii] code point; a float payload is a canonical binary64 value. *)
Inductive pyval : Type :=
| PNone
| PBool (b : bool)
| PInt (n : Z)
| PFloat (x : spec_float)
| PStr (s : string)
| PList (items : list pyval)
| PDict (entries : list (string * pyval)).

(** Exceptions: the interpreter's own classes (their messages are not
    modelled), the data-model library's [ValidationError], and the classes of
    [core/exceptions.py], which carry their message and, for
    [InvalidInputError], the optional hint. *)
Inductive exn : Type :=
| TypeError
| AttributeError
| KeyError
| IndexError
| OverflowError
| ValidationError
| ValueError (message : string)
| InvalidInputError (message : string) (hint : option string)
| UpstreamApiError (message : string)
| LocationResolutionError (message : string).

Inductive outcome (A : Type) : Type :=
| Ok (a : A)
| Raise (e : exn).

Arguments Ok {A} a.
Arguments Raise {A} e.

Definition obind {A B : Type} (m : outcome A) (k : A -> outcome B) : outcome B :=
  match m with
  | Ok a => k a
  | Raise e => Raise e
  end.

(** A comprehension or a loop without logging: the elements in order, the
    first exception ending it. *)
Fixpoint ofold {A S : Type} (f : S -> A -> outcome S) (xs : list A) (acc : S)
  : outcome S :=
  match xs with
  | [] => Ok acc
  | x :: rest => obind (f acc x) (ofold f rest)
  end.

Definition omap {A B : Type} (f : A -> outcome B) (xs : list A) : outcome (list B) :=
  ofold (fun acc x => obind (f x) (fun y => Ok (acc ++ [y]))) xs [].

(** ** Binary64 arithmetic *)

Definition prec : Z := 53.
Definition emax : Z := 1024.

Definition float_of_Z (n : Z) : spec_float := binary_normalize prec emax n 0 false.

Definition float_is_zero (x : spec_float) : bool :=
  match x with
  | S754_zero _ => true
  | _ => false
  end.

Definition float_is_inf (x : spec_float) : bool :=
  match x with
  | S754_infinity _ => true
  | _ => false
  end.

Definition float_div (x y : spec_float) : spec_float := SFdiv prec emax x y.
Definition float_add (x y : spec_float) : spec_float := SFadd prec emax x y.

(** [int(x)] on a float truncates towards zero. *)
Definition float_trunc (x : spec_float) : outcome Z :=
  match x with
  | S754_zero _ => Ok 0
  | S754_infinity _ => Raise OverflowError
  | S754_nan => Raise (ValueError "cannot convert float NaN to integer")
  | S754_finite s m e =>
      let a := if 0 <=? e then Zpos m * 2 ^ e else Zpos m / 2 ^ (- e) in
      Ok (if s then - a else a)
  end.

(** Numbers: [bool] is a subclass of [int]. *)
Inductive num : Type :=
| NInt (n : Z)
| NFloat (x : spec_float).

Definition as_num (v : pyval) : option num :=
  match v with
  | PBool b => Some (NInt (if b then 1 else 0))
  | PInt n => Some (NInt n)
  | PFloat x => Some (NFloat x)
  | _ => None
  end.

(** Comparison of an integer with a float is exact (no conversion of the
    integer to binary64). *)
Definition compare_Z_float (n : Z) (x : spec_float) : option comparison :=
  match x with
  | S754_nan => None
  | S754_infinity s => Some (if s then Gt else Lt)
  | S754_zero _ => Some (n ?= 0)
  | S754_finite s m e =>
      let sm := if s then Zneg m else Zpos m in
      Some (if 0 <=? e then n ?= sm * 2 ^ e else n * 2 ^ (- e) ?= sm)
  end.

Definition num_compare (a b : num) : option comparison :=
  match a, b with
  | NInt m, NInt n => Some (m ?= n)
  | NInt m, NFloat y => compare_Z_float m y
  | NFloat x, NInt n => option_map CompOpp (compare_Z_float n x)
  | NFloat x, NFloat y => SFcompare x y
  end.

Definition num_eqb (a b : num) : bool :=
  match num_compare a b with
  | Some Eq => true
  | _ => false
  end.

Definition num_ltb (a b : num) : bool :=
  match num_compare a b with
  | Some Lt => true
  | _ => false
  end.

(** ** Strings *)

(** Whitespace as [str.strip] and [str.isspace] see it. *)
Definition is_space (c : ascii) : bool :=
  let n := nat_of_ascii c in
  (((9 <=? n) && (n <=? 13)) || ((28 <=? n) && (n <=? 32))
   || (n =? 133) || (n =? 160))%nat.

(** Whitespace that [int()] accepts around a literal: the separators 28 to
    31 are not part of it. *)
Definition is_literal_space (c : ascii) : bool :=
  let n := nat_of_ascii c in
  (((9 <=? n) && (n <=? 13)) || (n =? 32) || (n =? 133) || (n =? 160))%nat.

Fixpoint lstrip_with (space : ascii -> bool) (s : string) : string :=
  match s with
  | EmptyString => EmptyString
  | String c s' => if space c then lstrip_with space s' else s
  end.

Definition rev_string (s : string) : string :=
  string_of_list_ascii (rev (list_ascii_of_string s)).

Definition strip_with (space : ascii -> bool) (s : string) : string :=
  rev_string (lstrip_with space (rev_string (lstrip_with space s))).

(** [s.strip()] *)
Definition strip (s : string) : string := strip_with is_space s.

Definition str_is_empty (s : string) : bool :=
  match s with
  | EmptyString => true
  | String _ _ => false
  end.

(** [len(s)] *)
Definition len_str (s : string) : Z := Z.of_nat (String.length s).

(** [needle in s] for two strings. *)
Definition str_contains (needle s : string) : bool :=
  match index 0 needle s with
  | Some _ => true
  | None => false
  end.

Definition string_of_Z (n : Z) : string := NilZero.string_of_int (Z.to_int n).

Fixpoint join (sep : string) (l : list string) : string :=
  match l with
  | [] => ""
  | [s] => s
  | s :: rest => (s ++ sep ++ join sep rest)%string
  end.

Definition digit_of (c : ascii) : option Z :=
  let n := nat_of_ascii c in
  if ((48 <=? n) && (n <=? 57))%nat then Some (Z.of_nat (n - 48)) else None.

(** Decimal digits, single underscores allowed between two digits; returns
    the value and the number of digits read. *)
Fixpoint parse_digits (s : string) (acc : Z) (count : nat) (after_digit : bool)
  : option (Z * nat) :=
  match s with
  | EmptyString => if after_digit then Some (acc, count) else None
  | String c s' =>
      match digit_of c with
      | Some d => parse_digits s' (10 * acc + d) (S count) true
      | None =>
          if (Ascii.eqb c "_" && after_digit)%bool
          then parse_digits s' acc count false
          else None
      end
  end.

(** The interpreter's default limit on the digits of an integer literal
    converted from text. *)
Definition int_max_str_digits : nat := 4300.

Definition parse_unsigned (s : string) : option Z :=
  match parse_digits s 0 0%nat false with
  | Some (n, count) => if (count <=? int_max_str_digits)%nat then Some n else None
  | None => None
  end.

(** [int(s)] for a string, base ten: surrounding whitespace, one optional
    sign, digits. *)
Definition int_of_str (s : string) : option Z :=
  match strip_with is_literal_space s with
  | String "+" r => parse_unsigned r
  | String "-" r => option_map Z.opp (parse_unsigned r)
  | t => parse_unsigned t
  end.

(** ** Dictionaries (insertion-ordered, string keys) *)

Fixpoint lookup {A : Type} (k : string) (d : list (string * A)) : option A :=
  match d with
  | [] => None
  | (k', v) :: d' => if String.eqb k k' then Some v else lookup k d'
  end.

Definition has_key {A : Type} (k : string) (d : list (string * A)) : bool :=
  match lookup k d with
  | Some _ => true
  | None => false
  end.

(** [d[k] = v]: an existing key keeps its position, a new key goes last. *)
Fixpoint assign {A : Type} (k : string) (v : A) (d : list (string * A))
  : list (string * A) :=
  match d with
  | [] => [(k, v)]
  | (k', v') :: d' =>
      if String.eqb k k' then (k, v) :: d' else (k', v') :: assign k v d'
  end.

Definition keys {A : Type} (d : list (string * A)) : list string := map fst d.

(** ** Truthiness, [or], [.get], [in] *)

(** [bool(v)], the test behind [if v], [not v] and [v or w]. *)
Definition truthy (v : pyval) : bool :=
  match v with
  | PNone => false
  | PBool b => b
  | PInt n => negb (n =? 0)
  | PFloat x => negb (float_is_zero x)
  | PStr s => negb (str_is_empty s)
  | PList items => match items with [] => false | _ :: _ => true end
  | PDict entries => match entries with [] => false | _ :: _ => true end
  end.

(** [a or b] *)
Definition py_or (a b : pyval) : pyval := if truthy a then a else b.

Definition is_dict (v : pyval) : bool :=
  match v with
  | PDict _ => true
  | _ => false
  end.

(** [v.get(k, default)]: only dictionaries have the method. *)
Definition py_get_default (v : pyval) (k : string) (default : pyval) : outcome pyval :=
  match v with
  | PDict entries =>
      match lookup k entries with
      | Some w => Ok w
      | None => Ok default
      end
  | _ => Raise AttributeError
  end.

(** [v.get(k)] *)
Definition py_get (v : pyval) (k : string) : outcome pyval :=
  py_get_default v k PNone.

(** [v.keys()], evaluated inside log messages. *)
Definition py_keys (v : pyval) : outcome (list string) :=
  match v with
  | PDict entries => Ok (keys entries)
  | _ => Raise AttributeError
  end.

Definition is_str_eq (k : string) (v : pyval) : bool :=
  match v with
  | PStr s => String.eqb s k
  | _ => false
  end.

(** [k in v] for a string [k]: key membership on a dictionary, element
    membership on a list, substring test on a string; other values are not
    iterable. *)
Definition py_contains_str (k : string) (v : pyval) : outcome bool :=
  match v with
  | PDict entries => Ok (has_key k entries)
  | PList items => Ok (existsb (is_str_eq k) items)
  | PStr s => Ok (str_contains k s)
  | _ => Raise TypeError
  end.

(** [v[k]] for a string [k]. *)
Definition py_getitem_str (v : pyval) (k : string) : outcome pyval :=
  match v with
  | PDict entries =>
      match lookup k entries with
      | Some w => Ok w
      | None => Raise KeyError
      end
  | _ => Raise TypeError
  end.

(** [k in d] for a dictionary built with string keys and any value [k]:
    lists and dictionaries are unhashable, and no other value equals a
    string. *)
Definition dict_contains {A : Type} (d : list (string * A)) (k : pyval)
  : outcome bool :=
  match k with
  | PStr s => Ok (has_key s d)
  | PList _ | PDict _ => Raise TypeError
  | _ => Ok false
  end.

(** [d[k]] on such a dictionary. *)
Definition dict_getitem {A : Type} (d : list (string * A)) (k : string)
  : outcome A :=
  match lookup k d with
  | Some v => Ok v
  | None => Raise KeyError
  end.

(** [v.items()] *)
Definition py_items (v : pyval) : outcome (list (string * pyval)) :=
  match v with
  | PDict entries => Ok entries
  | _ => Raise AttributeError
  end.

(** [len(v)] *)
Definition py_len (v : pyval) : outcome Z :=
  match v with
  | PStr s => Ok (len_str s)
  | PList items => Ok (Z.of_nat (List.length items))
  | PDict entries => Ok (Z.of_nat (List.length entries))
  | _ => Raise TypeError
  end.

(** Iteration order of [for x in v]: list elements, dictionary keys, the
    characters of a string. *)
Definition py_iter (v : pyval) : outcome (list pyval) :=
  match v with
  | PList items => Ok items
  | PDict entries => Ok (map PStr (keys entries))
  | PStr s => Ok (map (fun c => PStr (String c EmptyString)) (list_ascii_of_string s))
  | _ => Raise TypeError
  end.

(** ** Equality and order *)

(** [a == b]; it never raises on JSON values. *)
Fixpoint py_eq (v w : pyval) {struct v} : bool :=
  match v, w with
  | PNone, PNone => true
  | PStr s, PStr t => String.eqb s t
  | PList xs, PList ys =>
      (fix all2 (xs ys : list pyval) {struct xs} : bool :=
         match xs, ys with
         | [], [] => true
         | x :: xs', y :: ys' => py_eq x y && all2 xs' ys'
         | _, _ => false
         end) xs ys
  | PDict d1, PDict d2 =>
      (List.length d1 =? List.length d2)%nat &&
      (fix all1 (d : list (string * pyval)) {struct d} : bool :=
         match d with
         | [] => true
         | (k, x) :: d' =>
             match lookup k d2 with
             | Some y => py_eq x y && all1 d'
             | None => false
             end
         end) d1
  | PBool b, _ =>
      match as_num w with
      | Some n => num_eqb (NInt (if b then 1 else 0)) n
      | None => false
      end
  | PInt m, _ =>
      match as_num w with
      | Some n => num_eqb (NInt m) n
      | None => false
      end
  | PFloat x, _ =>
      match as_num w with
      | Some n => num_eqb (NFloat x) n
      | None => false
      end
  | _, _ => false
  end.

(** [v < w]: numbers among themselves, strings by code point, lists
    lexicographically; every other pairing is unsupported. *)
Fixpoint py_lt (v w : pyval) {struct v} : outcome bool :=
  match v, w with
  | PStr s, PStr t => Ok (String.ltb s t)
  | PList xs, PList ys =>
      (fix lex (xs ys : list pyval) {struct xs} : outcome bool :=
         match xs, ys with
         | [], [] => Ok false
         | [], _ :: _ => Ok true
         | _ :: _, [] => Ok false
         | x :: xs', y :: ys' => if py_eq x y then lex xs' ys' else py_lt x y
         end) xs ys
  | _, _ =>
      match as_num v, as_num w with
      | Some a, Some b => Ok (num_ltb a b)
      | _, _ => Raise TypeError
      end
  end.

(** [v > w] *)
Definition py_gt (v w : pyval) : outcome bool := py_lt w v.

(** [v == n] for an integer literal [n]. *)
Definition py_eq_int (v : pyval) (n : Z) : bool := py_eq v (PInt n).

(** ** Conversions *)

(** [int(v)] *)
Definition py_int (v : pyval) : outcome Z :=
  match v with
  | PBool b => Ok (if b then 1 else 0)
  | PInt n => Ok n
  | PFloat x => float_trunc x
  | PStr s =>
      match int_of_str s with
      | Some n => Ok n
      | None => Raise (ValueError "invalid literal for int() with base 10")
      end
  | _ => Raise TypeError
  end.

(** ** [datetime] *)

(** A [datetime.datetime]: the proleptic Gregorian ordinal of its day
    (0001-01-01 is day 1), the microseconds since midnight, and the UTC
    offset in microseconds when the value is offset-aware. *)
Record datetime : Type := {
  ordinal : Z;
  microsecond_of_day : Z;
  utcoffset : option Z
}.

Definition is_leap (y : Z) : bool :=
  (y mod 4 =? 0) && (negb (y mod 100 =? 0) || (y mod 400 =? 0)).

Definition days_in_month (y m : Z) : Z :=
  if m =? 2 then (if is_leap y then 29 else 28)
  else if (m =? 4) || (m =? 6) || (m =? 9) || (m =? 11) then 30
  else 31.

Definition days_before_year (y : Z) : Z :=
  let p := y - 1 in p * 365 + p / 4 - p / 100 + p / 400.

Fixpoint days_before_month_from (y : Z) (months : nat) (m : Z) : Z :=
  match months with
  | O => 0
  | S k => if 1 <? m
           then days_in_month y (m - 1) + days_before_month_from y k (m - 1)
           else 0
  end.

Definition days_before_month (y m : Z) : Z := days_before_month_from y 12 m.

Definition ymd_to_ordinal (y m d : Z) : Z :=
  days_before_year y + days_before_month y m + d.

Definition microseconds_per_day : Z := 86400 * 1000000.

(** [datetime(y, m, d, hh, mm, ss)], [None] standing for the [ValueError]
    of a field out of range. *)
Definition make_datetime (y m d hh mm ss : Z) : option datetime :=
  if (1 <=? y) && (y <=? 9999) && (1 <=? m) && (m <=? 12)
     && (1 <=? d) && (d <=? days_in_month y m)
     && (hh <=? 23) && (mm <=? 59) && (ss <=? 59)
  then Some {| ordinal := ymd_to_ordinal y m d;
               microsecond_of_day := ((hh * 60 + mm) * 60 + ss) * 1000000;
               utcoffset := None |}
  else None.

(** [(a - b).days]: the difference of two naive or two aware values,
    rounded down to whole days; a naive and an aware value do not
    subtract. *)
Definition timedelta_days (a b : datetime) : outcome Z :=
  let instant (t : datetime) (off : Z) :=
    ordinal t * microseconds_per_day + microsecond_of_day t - off in
  match utcoffset a, utcoffset b with
  | None, None => Ok ((instant a 0 - instant b 0) / microseconds_per_day)
  | Some oa, Some ob => Ok ((instant a oa - instant b ob) / microseconds_per_day)
  | _, _ => Raise TypeError
  end.

Definition num2 (a b : ascii) : option Z :=
  match digit_of a, digit_of b with
  | Some x, Some y => Some (10 * x + y)
  | _, _ => None
  end.

Definition num4 (a b c d : ascii) : option Z :=
  match num2 a b, num2 c d with
  | Some x, Some y => Some (100 * x + y)
  | _, _ => None
  end.

(** The conversions whose exact output is the interpreter's business and
    on which no statement below depends: reading a float from text, the
    [repr] of a float and of a string, and the ISO 8601 spellings of a date
    and time beyond the two that every version reads alike (see
    [fromisoformat]). *)
Class Interpreter : Type := {
  float_of_str : string -> option spec_float;
  repr_float : spec_float -> string;
  repr_str : string -> string;
  iso_extended : string -> option datetime
}.

Section WithInterpreter.
Context {interp : Interpreter}.

(** [float(v)] *)
Definition py_float (v : pyval) : outcome spec_float :=
  match v with
  | PBool b => Ok (float_of_Z (if b then 1 else 0))
  | PInt n =>
      let x := float_of_Z n in
      if float_is_inf x then Raise OverflowError else Ok x
  | PFloat x => Ok x
  | PStr s =>
      match float_of_str s with
      | Some x => Ok x
      | None => Raise (ValueError "could not convert string to float")
      end
  | _ => Raise TypeError
  end.

(** [repr(v)] *)
Fixpoint py_repr (v : pyval) : string :=
  match v with
  | PNone => "None"
  | PBool true => "True"
  | PBool false => "False"
  | PInt n => string_of_Z n
  | PFloat x => repr_float x
  | PStr s => repr_str s
  | PList items => ("[" ++ join ", " (map py_repr items) ++ "]")%string
  | PDict entries =>
      ("{" ++ join ", "
         (map (fun kv : string * pyval =>
                 let (k, x) := kv in (repr_str k ++ ": " ++ py_repr x)%string)
              entries)
       ++ "}")%string
  end.

(** [str(v)] *)
Definition py_str (v : pyval) : string :=
  match v with
  | PStr s => s
  | _ => py_repr v
  end.

(** [datetime.fromisoformat(s)], [None] standing for its [ValueError].
    [YYYY-MM-DD], [YYYY-MM-DDTHH:MM:SS] and [YYYY-MM-DD HH:MM:SS] are read
    here; every other spelling is the interpreter's. *)
Definition fromisoformat (s : string) : option datetime :=
  match list_ascii_of_string s with
  | y1 :: y2 :: y3 :: y4 :: "-"%char :: m1 :: m2 :: "-"%char :: d1 :: d2 :: rest =>
      match num4 y1 y2 y3 y4, num2 m1 m2, num2 d1 d2 with
      | Some y, Some m, Some d =>
          match rest with
          | [] => make_datetime y m d 0 0 0
          | [sep; h1; h2; ":"%char; i1; i2; ":"%char; s1; s2] =>
              match num2 h1 h2, num2 i1 i2, num2 s1 s2 with
              | Some hh, Some mm, Some ss =>
                  if (Ascii.eqb sep "T" || Ascii.eqb sep " ")%bool
                  then make_datetime y m d hh mm ss
                  else iso_extended s
              | _, _, _ => iso_extended s
              end
          | _ => iso_extended s
          end
      | _, _, _ => iso_extended s
      end
  | _ => iso_extended s
  end.

(** [a + v] where [a] is a number: the running totals of the summaries. *)
Definition num_add (a : num) (v : pyval) : outcome num :=
  match a, as_num v with
  | _, None => Raise TypeError
  | NInt m, Some (NInt n) => Ok (NInt (m + n))
  | NInt m, Some (NFloat y) =>
      let x := float_of_Z m in
      if float_is_inf x then Raise OverflowError else Ok (NFloat (float_add x y))
  | NFloat x, Some (NInt n) =>
      let y := float_of_Z n in
      if float_is_inf y then Raise OverflowError else Ok (NFloat (float_add x y))
  | NFloat x, Some (NFloat y) => Ok (NFloat (float_add x y))
  end.

End WithInterpreter.

(** [x / 100] on a float. *)
Definition cents_to_units (x : spec_float) : spec_float :=
  float_div x (float_of_Z 100).

(** The format specification [:.2f] applied to a float or to [None]. *)
Definition format_2f (x : option spec_float) : outcome unit :=
  match x with
  | Some _ => Ok tt
  | None => Raise TypeError
  end.

(** ** [list.sort(key=...)]

    The sort is stable.  It is written as an insertion from the left, each
    element going after the elements it is not smaller than; a comparison
    that raises aborts the sort.  On keys that [<] orders totally (the
    timestamp strings of a payload) every stable sort returns this list. *)
Fixpoint insert_by_key {A : Type} (kx : pyval * A) (sorted : list (pyval * A))
  : outcome (list (pyval * A)) :=
  match sorted with
  | [] => Ok [kx]
  | ky :: rest =>
      obind (py_lt (fst kx) (fst ky)) (fun smaller =>
      if smaller then Ok (kx :: ky :: rest)
      else obind (insert_by_key kx rest) (fun r => Ok (ky :: r)))
  end.

Fixpoint sort_keyed {A : Type} (l sorted : list (pyval * A))
  : outcome (list (pyval * A)) :=
  match l with
  | [] => Ok sorted
  | kx :: rest => obind (insert_by_key kx sorted) (sort_keyed rest)
  end.

Definition sort_by_key {A : Type} (l : list (pyval * A)) : outcome (list A) :=
  obind (sort_keyed l []) (fun s => Ok (map snd s)).

End PyRuntime.

(* ================================================================== *)
(** * Effects: exceptions, the logger, the upstream client            *)
(* ================================================================== *)

Module Effects.
Import PyRuntime.

Inductive level : Type :=
| DEBUG
| INFO
| WARNING
| ERROR.

(** One upstream GET: the endpoint and the query parameters. *)
Record request : Type := {
  endpoint : string;
  query : list (string * pyval)
}.

(** What a call can observe and change besides its arguments: the records
    the logger has received and the requests sent upstream.  A log record
    keeps the level and the fixed text of the message; the interpolated
    values are evaluated where that can raise, and not rendered. *)
Record world : Type := {
  logs : list (level * string);
  requests : list request
}.

Definition Py (A : Type) : Type := world -> outcome A * world.

Definition ret {A : Type} (a : A) : Py A := fun w => (Ok a, w).

Definition raise {A : Type} (e : exn) : Py A := fun w => (Raise e, w).

Definition bind {A B : Type} (m : Py A) (k : A -> Py B) : Py B :=
  fun w =>
    match m w with
    | (Ok a, w') => k a w'
    | (Raise e, w') => (Raise e, w')
    end.

(** An interpreter operation that touches neither the logger nor the
    network. *)
Definition lift {A : Type} (o : outcome A) : Py A := fun w => (o, w).

(** [try: m  except ... : handler]; the handler re-raises what it does
    not catch. *)
Definition try_except {A : Type} (m : Py A) (handler : exn -> Py A) : Py A :=
  fun w =>
    match m w with
    | (Ok a, w') => (Ok a, w')
    | (Raise e, w') => handler e w'
    end.

(** [logger.<level>(text)] *)
Definition log (l : level) (text : string) : Py unit :=
  fun w => (Ok tt, {| logs := (l, text) :: logs w; requests := requests w |}).

(** [for x in xs: ...] with the loop variables threaded as [acc]. *)
Fixpoint for_each {A S : Type} (xs : list A) (body : S -> A -> Py S) (acc : S)
  : Py S :=
  match xs with
  | [] => ret acc
  | x :: rest => bind (body acc x) (for_each rest body)
  end.

Definition result_of {A : Type} (r : outcome A * world) : outcome A := fst r.

End Effects.

Declare Scope py_scope.
Delimit Scope py_scope with py.
Notation "x <- m ;; k" := (Effects.bind m (fun x => k))
  (at level 61, m at next level, right associativity) : py_scope.
Notation "' p <- m ;; k" := (Effects.bind m (fun x => let p := x in k))
  (at level 61, p pattern, m at next level, right associativity) : py_scope.
Notation "m ;; k" := (Effects.bind m (fun _ => k))
  (at level 61, right associativity) : py_scope.

Local Open Scope py_scope.

(* ================================================================== *)
(** * schemas/models.py                                               *)
(* ================================================================== *)

Module Models.
Import PyRuntime Effects.

(** Field validation of the data-model library for a [str] field and for an
    [Optional[str]] field: any other value fails the construction of the
    record with [ValidationError]. *)
Definition validate_str (v : pyval) : outcome string :=
  match v with
  | PStr s => Ok s
  | _ => Raise ValidationError
  end.

Definition validate_opt_str (v : pyval) : outcome (option string) :=
  match v with
  | PNone => Ok None
  | PStr s => Ok (Some s)
  | _ => Raise ValidationError
  end.

Record Position : Type := {
  id : Z;
  name : string;
  type : string;
  country_code : option string
}.

(** [Position(id=..., name=..., type=..., countryCode=...)] *)
Definition make_Position (position_id : Z) (name type country_code : pyval)
  : outcome Position :=
  obind (validate_str name) (fun n =>
  obind (validate_str type) (fun t =>
  obind (validate_opt_str country_code) (fun c =>
  Ok {| id := position_id; name := n; type := t; country_code := c |}))).

Record AutocompleteParams : Type := {
  term : string;
  ac_locale : string;
  limit : Z
}.

Record AutocompleteResponse : Type := {
  best_guess : option Position;
  alternatives : list Position
}.

Record ResolvePositionsParams : Type := {
  rp_from_term : string;
  rp_to_term : string;
  rp_locale : string;
  limit_each : Z
}.

Record ResolvedPositionInfo : Type := {
  user_term : string;
  best_match : option Position;
  ranked_candidates : list Position
}.

Record ResolvePositionsSuggestion : Type := {
  sg_from_id : option Z;
  sg_to_id : option Z
}.

Record ResolvePositionsResponse : Type := {
  origin : ResolvedPositionInfo;
  destination : ResolvedPositionInfo;
  suggestion : ResolvePositionsSuggestion
}.

Record TimeInfo : Type := {
  datetime : string;
  tz : option string
}.

(** [TimeInfo(datetime=..., tz=...)] *)
Definition make_TimeInfo (datetime tz : pyval) : outcome TimeInfo :=
  obind (validate_str datetime) (fun d =>
  obind (validate_opt_str tz) (fun z =>
  Ok {| datetime := d; tz := z |})).

Record Itinerary : Type := {
  from_term : string;
  to_term : string;
  mode : string;
  stable_id : string;
  price_from : spec_float;
  currency : string;
  duration : string;
  departure : TimeInfo;
  arrival : TimeInfo;
  carrier : option string
}.

(** [Itinerary(from_term=..., ..., carrier=...)] *)
Definition make_Itinerary (from_term to_term mode : pyval) (stableId : string)
  (priceFrom : spec_float) (currency : pyval) (duration : string)
  (departure arrival : TimeInfo) (carrier : pyval) : outcome Itinerary :=
  obind (validate_str from_term) (fun f =>
  obind (validate_str to_term) (fun t =>
  obind (validate_str mode) (fun m =>
  obind (validate_str currency) (fun c =>
  obind (validate_opt_str carrier) (fun k =>
  Ok {| from_term := f; to_term := t; mode := m; stable_id := stableId;
        price_from := priceFrom; currency := c; duration := duration;
        departure := departure; arrival := arrival; carrier := k |}))))).

(** The attributes of an [Itinerary] instance are its field names.
    [stableId] and [priceFrom] are aliases: the constructor takes them, the
    instance has no attribute of that name. *)
Definition Itinerary_fields : list string :=
  ["from_term"; "to_term"; "mode"; "stable_id"; "price_from"; "currency";
   "duration"; "departure"; "arrival"; "carrier"].

(** [itinerary.<name>], evaluated for a log message. *)
Definition getattr_Itinerary (it : Itinerary) (name : string) : outcome unit :=
  if existsb (String.eqb name) Itinerary_fields then Ok tt
  else Raise AttributeError.

(** [BaseSearchParams]: the fields the search service reads. *)
Record BaseSearchParams : Type := {
  from_id : option Z;
  to_id : option Z;
  sp_from_term : option string;
  sp_to_term : option string;
  adults : string;
  children : string;
  infants : string;
  modes : list string;
  locale : string;
  sp_currency : string
}.

Record SearchDayResultsParams : Type := {
  base : BaseSearchParams;
  date_out : string;
  date_return : option string
}.

Record SearchDayResultsResponse : Type := {
  resolved_from_id : Z;
  resolved_to_id : Z;
  results : list Itinerary;
  note : string
}.

End Models.

(* ================================================================== *)
(** * utils/normalizer.py                                             *)
(* ================================================================== *)

Module Normalizer.
Import PyRuntime Effects Models.

(** [a or <rest>], the right operand evaluated only when [a] is falsy. *)
Definition or_else (a : pyval) (rest : outcome pyval) : outcome pyval :=
  if truthy a then Ok a else rest.

(** [v[0]] *)
Definition py_first (v : pyval) : outcome pyval :=
  match v with
  | PList (x :: _) => Ok x
  | PList [] => Raise IndexError
  | PStr (String c _) => Ok (PStr (String c EmptyString))
  | PStr EmptyString => Raise IndexError
  | PDict _ => Raise KeyError
  | _ => Raise TypeError
  end.

(** ** normalize_positions *)

(** [int(pos["positionId"])] under [except (TypeError, ValueError)]:
    [None] stands for the handled failure. *)
Definition parse_position_id (pos : pyval) : Py (option Z) :=
  try_except
    (v <- lift (py_getitem_str pos "positionId");;
     n <- lift (py_int v);;
     ret (Some n))
    (fun e =>
       match e with
       | TypeError | ValueError _ =>
           log WARNING "[Normalizer1] Invalid positionId at index {idx}";;
           ret None
       | _ => raise e
       end).

(** The body of [for idx, pos in enumerate(raw_positions)], on the loop
    variables [positions] and [skipped_count]. *)
Definition normalize_positions_body (acc : list Position * Z) (pos : pyval)
  : Py (list Position * Z) :=
  let '(positions, skipped_count) := acc in
  if negb (truthy pos) then
    log DEBUG "[Normalizer1] Skipping empty position at index {idx}";;
    ret (positions, skipped_count + 1)
  else
    has_id <- lift (py_contains_str "positionId" pos);;
    if negb has_id then
      _ <- lift (py_keys pos);;
      log DEBUG "[Normalizer1] Skipping position at index {idx}: missing 'positionId'";;
      ret (positions, skipped_count + 1)
    else
      name <- lift (obind (py_get pos "displayName") (fun a =>
                    or_else a (obind (py_get pos "defaultName") (fun b =>
                    or_else b (py_get pos "name")))));;
      if negb (truthy name) then
        _ <- lift (py_keys pos);;
        log DEBUG "[Normalizer1] Skipping position at index {idx}: no name field found";;
        ret (positions, skipped_count + 1)
      else
        parsed <- parse_position_id pos;;
        match parsed with
        | None => ret (positions, skipped_count + 1)
        | Some position_id =>
            position_type <- lift (py_get_default pos "type" (PStr "unknown"));;
            country_code <- lift (py_get pos "countryCode");;
            log DEBUG "[Normalizer1] Position {idx}";;
            p <- lift (make_Position position_id name position_type country_code);;
            ret (positions ++ [p], skipped_count)
        end.

(** The loop of [normalize_positions], returning the list built and the
    number of records skipped. *)
Definition normalize_positions_loop (items : list pyval) : Py (list Position * Z) :=
  for_each items normalize_positions_body ([], 0).

Definition normalize_positions (raw_positions : pyval) : Py (list Position) :=
  _ <- lift (py_len raw_positions);;
  log DEBUG "[Normalizer1] normalize_positions called";;
  if negb (truthy raw_positions) then
    log WARNING "[Normalizer1] Empty raw_positions list received";;
    ret []
  else
    _ <- lift (py_first raw_positions);;
    log DEBUG "[Normalizer1] First raw position sample";;
    items <- lift (py_iter raw_positions);;
    '(positions, skipped_count) <- normalize_positions_loop items;;
    log INFO "[Normalizer1] Normalized {n} positions (skipped {k} invalid entries)";;
    ret positions.

Section WithInterpreter.
Context {interp : Interpreter}.

(** ** shape_day_results *)

(** [{str(c.get("id")): c.get("name") or c.get("code") or str(c.get("id"))
     for c in raw_data.get("carriers", [])}] *)
Definition build_carriers_map (raw_data : pyval) : outcome (list (string * pyval)) :=
  obind (py_get_default raw_data "carriers" (PList [])) (fun carriers =>
  obind (py_iter carriers) (fun items =>
  ofold (fun acc c =>
           obind (py_get c "id") (fun cid =>
           obind (py_get c "name") (fun cname =>
           obind (or_else cname
                    (obind (py_get c "code") (fun code =>
                     or_else code
                       (obind (py_get c "id") (fun i => Ok (PStr (py_str i)))))))
                 (fun display => Ok (assign (py_str cid) display acc)))))
        items [])).

(** [{str(p.get("id")): p.get("name") or str(p.get("id"))
     for p in raw_data.get("positions", [])}] *)
Definition build_positions_map (raw_data : pyval) : outcome (list (string * pyval)) :=
  obind (py_get_default raw_data "positions" (PList [])) (fun positions =>
  obind (py_iter positions) (fun items =>
  ofold (fun acc p =>
           obind (py_get p "id") (fun pid =>
           obind (py_get p "name") (fun pname =>
           obind (or_else pname
                    (obind (py_get p "id") (fun i => Ok (PStr (py_str i)))))
                 (fun display => Ok (assign (py_str pid) display acc)))))
        items [])).

(** [{str(s.get("id")): s for s in raw_data.get("segments", [])}] *)
Definition build_segments_map (raw_data : pyval) : outcome (list (string * pyval)) :=
  obind (py_get_default raw_data "segments" (PList [])) (fun segments =>
  obind (py_iter segments) (fun items =>
  ofold (fun acc s =>
           obind (py_get s "id") (fun sid => Ok (assign (py_str sid) s acc)))
        items [])).

Definition schedule_keys : list string :=
  ["combinedSchedules"; "outboundSchedules"; "inboundSchedules"].

(** [for key in schedule_keys: all_schedules.extend(raw_data.get(key, []) or [])] *)
Definition collect_schedules (raw_data : pyval) : outcome (list pyval) :=
  ofold (fun all_schedules key =>
           obind (py_get_default raw_data key (PList [])) (fun found =>
           obind (py_iter (py_or found (PList []))) (fun schedules =>
           Ok (all_schedules ++ schedules))))
        schedule_keys [].

(** [[str(sid) for sid in sched.get("segmentIDs") or [] if sid in segments_map]] *)
Definition resolve_segment_ids (segments_map : list (string * pyval)) (sched : pyval)
  : outcome (list string) :=
  obind (py_get sched "segmentIDs") (fun ids =>
  obind (py_iter (py_or ids (PList []))) (fun sids =>
  ofold (fun acc sid =>
           obind (dict_contains segments_map sid) (fun known =>
           Ok (if known then acc ++ [py_str sid] else acc)))
        sids [])).

(** [segments_data], after
    [segments_data.sort(key=lambda s: s.get("departureDateTime") or "")]. *)
Definition sorted_segments (segments_map : list (string * pyval))
  (segment_ids : list string) : outcome (list pyval) :=
  obind (omap (dict_getitem segments_map) segment_ids) (fun segments_data =>
  obind (omap (fun s => obind (py_get s "departureDateTime")
                          (fun d => Ok (py_or d (PStr ""), s)))
              segments_data) (fun keyed =>
  sort_by_key keyed)).

(** [d.get(k, default)] on a dictionary the function built itself. *)
Definition map_get (d : list (string * pyval)) (k : string) (default : pyval) : pyval :=
  match lookup k d with
  | Some v => v
  | None => default
  end.

(** The body of the [try] for one schedule that is a dictionary: from the
    segment ids to the constructed [Itinerary]. *)
Definition shape_schedule (raw_data : pyval)
  (carriers_map positions_map segments_map : list (string * pyval))
  (sched : pyval) : outcome Itinerary :=
  obind (resolve_segment_ids segments_map sched) (fun segment_ids =>
  obind (sorted_segments segments_map segment_ids) (fun segments_data =>
  let first_seg := match segments_data with s :: _ => s | [] => PDict [] end in
  obind (obind (py_get first_seg "departureDateTime") (fun a =>
         or_else a (py_get sched "departureAt"))) (fun dep_info =>
  obind (obind (py_get first_seg "arrivalDateTime") (fun a =>
         or_else a (py_get sched "arrivalAt"))) (fun arr_info =>
  obind (py_get first_seg "departureTimeZone") (fun dtz =>
  let dep_tz := py_or dtz (PStr "UTC") in
  obind (py_get first_seg "arrivalTimeZone") (fun atz =>
  let arr_tz := py_or atz (PStr "UTC") in
  obind (make_TimeInfo dep_info dep_tz) (fun dep =>
  obind (make_TimeInfo arr_info arr_tz) (fun arr =>
  obind (obind (py_get first_seg "departurePositionId") (fun a =>
         or_else a (obind (py_get raw_data "fromPosId") (fun b =>
         or_else b (Ok (PStr "")))))) (fun from_pos =>
  let from_pos_id := py_str from_pos in
  obind (obind (py_get first_seg "arrivalPositionId") (fun a =>
         or_else a (obind (py_get raw_data "toPosId") (fun b =>
         or_else b (Ok (PStr "")))))) (fun to_pos =>
  let to_pos_id := py_str to_pos in
  obind (obind (py_get first_seg "travelMode") (fun a =>
         or_else a (obind (py_get sched "travelMode") (fun b =>
         or_else b (Ok (PStr "unknown")))))) (fun mode =>
  obind (obind (py_get sched "id") (fun a =>
         or_else a (obind (py_get first_seg "id") (fun b =>
         or_else b (Ok (PStr "")))))) (fun stable =>
  obind (py_get_default sched "priceCents" (PInt 0)) (fun cents =>
  obind (py_float cents) (fun price =>
  obind (obind (py_get sched "currency") (fun a =>
         or_else a (Ok (PStr "EUR")))) (fun currency =>
  obind (obind (py_get first_seg "durationMinutes") (fun a =>
         or_else a (obind (py_get sched "duration") (fun b =>
         or_else b (Ok (PInt 0)))))) (fun duration =>
  obind (py_get first_seg "carrierId") (fun carrier_id =>
  let carrier :=
    if truthy carrier_id then map_get carriers_map (py_str carrier_id) PNone
    else PNone in
  make_Itinerary
    (map_get positions_map from_pos_id (PStr "Unknown"))
    (map_get positions_map to_pos_id (PStr "Unknown"))
    mode (py_str stable) (cents_to_units price) currency (py_str duration)
    dep arr carrier))))))))))))))))).

(** The values that the message of [logger.debug] after the append reads
    from the itinerary, in order. *)
Definition processed_line (itinerary : Itinerary) : outcome unit :=
  obind (getattr_Itinerary itinerary "from_term") (fun _ =>
  obind (getattr_Itinerary itinerary "to_term") (fun _ =>
  obind (getattr_Itinerary itinerary "mode") (fun _ =>
  obind (getattr_Itinerary itinerary "priceFrom") (fun _ =>
  getattr_Itinerary itinerary "currency")))).

(** The body of [for idx, sched in enumerate(all_schedules)], on the loop
    variables [shaped_results] and [errors_count].  The source has one
    [try] with one [except Exception]; the handler sees the list as it is
    when the exception is raised, so the part of the [try] that follows
    [shaped_results.append(itinerary)] is written with the longer list. *)
Definition shape_day_results_body (raw_data : pyval)
  (carriers_map positions_map segments_map : list (string * pyval))
  (acc : list Itinerary * Z) (sched : pyval) : Py (list Itinerary * Z) :=
  let '(shaped_results, errors_count) := acc in
  let failed (shaped_results : list Itinerary) (_ : exn) :=
    log ERROR "[Normalizer3] Failed to process itinerary {idx}";;
    log DEBUG "[Normalizer3] Problematic schedule data";;
    ret (shaped_results, errors_count + 1) in
  try_except
    (if negb (is_dict sched) then
       log WARNING "[Normalizer3] Itinerary {idx} skipped: expected dict";;
       ret (shaped_results, errors_count + 1)
     else
       itinerary <- lift (shape_schedule raw_data carriers_map positions_map
                            segments_map sched);;
       let shaped_results := shaped_results ++ [itinerary] in
       try_except
         (_ <- lift (processed_line itinerary);;
          log DEBUG "[Normalizer3] Itinerary {idx} processed";;
          ret (shaped_results, errors_count))
         (failed shaped_results))
    (failed shaped_results).

(** The function up to its last log line: the itineraries and the number
    of schedules counted as errors. *)
Definition shape_day_results_counted (raw_data : pyval) : Py (list Itinerary * Z) :=
  log DEBUG "[Normalizer3] shape_day_results called";;
  carriers_map <- lift (build_carriers_map raw_data);;
  positions_map <- lift (build_positions_map raw_data);;
  segments_map <- lift (build_segments_map raw_data);;
  all_schedules <- lift (collect_schedules raw_data);;
  for_each all_schedules
    (shape_day_results_body raw_data carriers_map positions_map segments_map)
    ([], 0).

Definition shape_day_results (raw_data : pyval) : Py (list Itinerary) :=
  '(shaped_results, errors_count) <- shape_day_results_counted raw_data;;
  log INFO "[Normalizer3] Shaped {n} itineraries ({k} errors)";;
  ret shaped_results.

(** ** normalize_calendar_day_results *)

Definition is_none (v : pyval) : bool :=
  match v with
  | PNone => true
  | _ => false
  end.

(** One entry of the normalised ["calendar"] list. *)
Record NormalizedDay : Type := {
  nd_date : pyval;
  nd_priceCents : spec_float;
  nd_currency : pyval
}.

(** The ["stats"] entry of the result. *)
Record CalendarStats : Type := {
  min_price_cents : option pyval;
  max_price_cents : option pyval;
  min_price : option spec_float;
  max_price : option spec_float;
  total_days : Z
}.

(** The returned dictionary; the early return for an empty price list has
    no ["stats"] entry. *)
Record CalendarResult : Type := {
  requestId : pyval;
  fromPosId : pyval;
  toPosId : pyval;
  cal_currency : pyval;
  calendar : list NormalizedDay;
  stats : option CalendarStats
}.

(** The loop variables of the calendar loop. *)
Record CalendarAcc : Type := {
  normalized_days : list NormalizedDay;
  acc_min : option pyval;
  acc_max : option pyval
}.

(** [if m is None or price_cents < m: m = price_cents] *)
Definition update_min (m : option pyval) (price_cents : pyval) : outcome (option pyval) :=
  match m with
  | None => Ok (Some price_cents)
  | Some cur =>
      obind (py_lt price_cents cur) (fun smaller =>
      Ok (Some (if smaller then price_cents else cur)))
  end.

(** [if m is None or price_cents > m: m = price_cents] *)
Definition update_max (m : option pyval) (price_cents : pyval) : outcome (option pyval) :=
  match m with
  | None => Ok (Some price_cents)
  | Some cur =>
      obind (py_gt price_cents cur) (fun larger =>
      Ok (Some (if larger then price_cents else cur)))
  end.

(** The body of [for idx, day in enumerate(price_days)]. *)
Definition calendar_body (currency : pyval) (acc : CalendarAcc) (day : pyval)
  : Py CalendarAcc :=
  date <- lift (py_get day "date");;
  price_cents <- lift (py_get day "priceCents");;
  if is_none date || is_none price_cents then
    log WARNING "[Normalizer] Skipping day {idx}: missing date or priceCents";;
    ret acc
  else
    new_min <- lift (update_min (acc_min acc) price_cents);;
    new_max <- lift (update_max (acc_max acc) price_cents);;
    price <- lift (py_float price_cents);;
    log DEBUG "[Normalizer] Day {idx}";;
    ret {| normalized_days :=
             normalized_days acc ++
             [{| nd_date := date; nd_priceCents := price; nd_currency := currency |}];
           acc_min := new_min;
           acc_max := new_max |}.

(** [float(m) / 100 if m else None] *)
Definition cents_stat (m : option pyval) : outcome (option spec_float) :=
  match m with
  | None => Ok None
  | Some v =>
      if truthy v then obind (py_float v) (fun x => Ok (Some (cents_to_units x)))
      else Ok None
  end.

Definition normalize_calendar_day_results (data : pyval) : Py (CalendarResult * Z) :=
  log DEBUG "[Normalizer] normalize_calendar_day_results called";;
  _ <- lift (py_keys data);;
  log DEBUG "[Normalizer] Input data keys";;
  request_id <- lift (py_get data "requestId");;
  from_pos_id <- lift (py_get data "fromPosId");;
  to_pos_id <- lift (py_get data "toPosId");;
  currency <- lift (py_get_default data "currency" (PStr "EUR"));;
  log INFO "[Normalizer] Calendar request";;
  price_days <- lift (py_get_default data "prices" (PList []));;
  if negb (truthy price_days) then
    log WARNING "[Normalizer] No prices found in API response";;
    ret ({| requestId := request_id; fromPosId := from_pos_id;
            toPosId := to_pos_id; cal_currency := currency;
            calendar := []; stats := None |}, 0)
  else
    _ <- lift (py_len price_days);;
    log DEBUG "[Normalizer] Processing {n} price entries";;
    days <- lift (py_iter price_days);;
    acc <- for_each days (calendar_body currency)
             {| normalized_days := []; acc_min := None; acc_max := None |};;
    lo <- lift (cents_stat (acc_min acc));;
    hi <- lift (cents_stat (acc_max acc));;
    let total := Z.of_nat (List.length (normalized_days acc)) in
    let result :=
      {| requestId := request_id; fromPosId := from_pos_id;
         toPosId := to_pos_id; cal_currency := currency;
         calendar := normalized_days acc;
         stats := Some {| min_price_cents := acc_min acc;
                          max_price_cents := acc_max acc;
                          min_price := lo; max_price := hi;
                          total_days := total |} |} in
    _ <- lift (format_2f lo);;
    _ <- lift (format_2f hi);;
    log INFO "[Normalizer] Normalized {n} calendar days. Price range: {lo:.2f} - {hi:.2f}";;
    ret (result, total).

(** ** normalize_cheapest_summary_results *)

(** [stats["by_mode"][mode]] *)
Record ModeStats : Type := {
  count : Z;
  ms_total_results : num;
  ms_min_price : option spec_float;
  ms_max_price : option spec_float
}.

(** The [stats] dictionary. *)
Record CheapestStats : Type := {
  total_dates : Z;
  total_modes : Z;
  total_results : num;
  by_mode : list (string * ModeStats);
  min_price_overall : option spec_float;
  max_price_overall : option spec_float;
  cheapest_date : option string;
  cheapest_mode : option string
}.

(** [date_prices[mode]] *)
Record PriceEntry : Type := {
  pe_min_price : spec_float;
  pe_price_cents : pyval;
  pe_currency : string;
  pe_number_of_results : pyval;
  pe_last_updated_at : pyval
}.

Record CheapestResult : Type := {
  summary : list (string * list (string * PriceEntry));
  cs_currency : string;
  errors : pyval;
  cs_stats : option CheapestStats
}.

Definition initial_stats : CheapestStats :=
  {| total_dates := 0; total_modes := 0; total_results := NInt 0;
     by_mode := []; min_price_overall := None; max_price_overall := None;
     cheapest_date := None; cheapest_mode := None |}.

Definition initial_mode_stats : ModeStats :=
  {| count := 0; ms_total_results := NInt 0;
     ms_min_price := None; ms_max_price := None |}.

(** [m is None or x < m] and [m is None or x > m] on floats. *)
Definition below (x : spec_float) (m : option spec_float) : bool :=
  match m with
  | None => true
  | Some cur => SFltb x cur
  end.

Definition above (x : spec_float) (m : option spec_float) : bool :=
  match m with
  | None => true
  | Some cur => SFltb cur x
  end.

(** The statistics updates for one kept [(date, mode)] pair, lines 340 to
    368 of the source. *)
Definition record_price (date mode : string) (min_price : spec_float)
  (num_results : pyval) (st : CheapestStats) : outcome CheapestStats :=
  obind (num_add (total_results st) num_results) (fun total =>
  let per_mode :=
    match lookup mode (by_mode st) with
    | Some ms => ms
    | None => initial_mode_stats
    end in
  obind (num_add (ms_total_results per_mode) num_results) (fun mode_total =>
  let mode_stats :=
    {| count := count per_mode + 1;
       ms_total_results := mode_total;
       ms_min_price := if below min_price (ms_min_price per_mode)
                       then Some min_price else ms_min_price per_mode;
       ms_max_price := if above min_price (ms_max_price per_mode)
                       then Some min_price else ms_max_price per_mode |} in
  let cheaper := below min_price (min_price_overall st) in
  Ok {| total_dates := total_dates st;
        total_modes := total_modes st + 1;
        total_results := total;
        by_mode := assign mode mode_stats (by_mode st);
        min_price_overall := if cheaper then Some min_price else min_price_overall st;
        max_price_overall := if above min_price (max_price_overall st)
                             then Some min_price else max_price_overall st;
        cheapest_date := if cheaper then Some date else cheapest_date st;
        cheapest_mode := if cheaper then Some mode else cheapest_mode st |})).

(** The body of [for mode, price_info in modes_data.items()], on
    [stats] and [date_prices]. *)
Definition cheapest_mode_body (currency date : string)
  (acc : CheapestStats * list (string * PriceEntry)) (item : string * pyval)
  : Py (CheapestStats * list (string * PriceEntry)) :=
  let '(st, date_prices) := acc in
  let '(mode, price_info) := item in
  if negb (is_dict price_info) then ret acc
  else
    price_cents <- lift (py_get_default price_info "priceCents" (PInt 0));;
    num_results <- lift (py_get_default price_info "numberOfResults" (PInt 0));;
    last_updated <- lift (py_get price_info "lastUpdatedAt");;
    if py_eq_int price_cents 0 || py_eq_int num_results 0 then
      log DEBUG "[Normalizer] Skipping {date} - {mode}: no prices/results";;
      ret acc
    else
      x <- lift (py_float price_cents);;
      let min_price := cents_to_units x in
      st' <- lift (record_price date mode min_price num_results st);;
      log DEBUG "[Normalizer] {date} - {mode}: {min_price:.2f} {currency}";;
      ret (st',
           assign mode
             {| pe_min_price := min_price; pe_price_cents := price_cents;
                pe_currency := currency; pe_number_of_results := num_results;
                pe_last_updated_at := last_updated |}
             date_prices).

(** The body of [for date, modes_data in price_data.items()], on [stats]
    and [summary_by_date]. *)
Definition cheapest_date_body (currency : string)
  (acc : CheapestStats * list (string * list (string * PriceEntry)))
  (item : string * pyval)
  : Py (CheapestStats * list (string * list (string * PriceEntry))) :=
  let '(st, summary_by_date) := acc in
  let '(date, modes_data) := item in
  if negb (is_dict modes_data) then
    log WARNING "[Normalizer] Invalid data format for date {date}";;
    ret acc
  else
    let counted :=
      {| total_dates := total_dates st + 1; total_modes := total_modes st;
         total_results := total_results st; by_mode := by_mode st;
         min_price_overall := min_price_overall st;
         max_price_overall := max_price_overall st;
         cheapest_date := cheapest_date st;
         cheapest_mode := cheapest_mode st |} in
    entries <- lift (py_items modes_data);;
    '(st', date_prices) <- for_each entries (cheapest_mode_body currency date)
                             (counted, []);;
    ret (st',
         match date_prices with
         | [] => summary_by_date
         | _ :: _ => assign date date_prices summary_by_date
         end).

Definition normalize_cheapest_summary_results (data : pyval) (currency : string)
  : Py (CheapestResult * CheapestStats) :=
  log DEBUG "[Normalizer] normalize_cheapest_summary_results called";;
  _ <- lift (py_keys data);;
  log DEBUG "[Normalizer] Input data keys";;
  price_data <- lift (py_get_default data "data" (PDict []));;
  errors <- lift (py_get data "errors");;
  (if truthy errors then log WARNING "[Normalizer] API returned errors" else ret tt);;
  if negb (truthy price_data) then
    log WARNING "[Normalizer] No price data found in API response";;
    ret ({| summary := []; cs_currency := currency; errors := errors;
            cs_stats := None |},
         initial_stats)
  else
    _ <- lift (py_len price_data);;
    log INFO "[Normalizer] Processing {n} dates";;
    dates <- lift (py_items price_data);;
    '(st, summary_by_date) <- for_each dates (cheapest_date_body currency)
                                (initial_stats, []);;
    let result :=
      {| summary := summary_by_date; cs_currency := currency; errors := errors;
         cs_stats := Some st |} in
    _ <- lift (format_2f (min_price_overall st));;
    _ <- lift (format_2f (max_price_overall st));;
    log INFO "[Normalizer] Normalized {n} dates with {m} transport modes";;
    (match cheapest_date st, cheapest_mode st with
     | Some d, Some m =>
         if negb (str_is_empty d) && negb (str_is_empty m)
         then log INFO "[Normalizer] Cheapest option"
         else ret tt
     | _, _ => ret tt
     end);;
    ret (result, st).

(** ** normalize_fastest_summary_results *)

(** [date_summary[mode]] *)
Record FastestEntry : Type := {
  fastest_duration : string;
  fastest_price : spec_float;
  cheapest_price : option spec_float;
  fe_currency : string
}.

Record FastestResult : Type := {
  fs_summary : list (string * list (string * FastestEntry));
  fs_currency : string
}.

(** [float(cents) / 100 if cents > 0 else None] *)
Definition positive_price (cents : pyval) : outcome (option spec_float) :=
  obind (py_gt cents (PInt 0)) (fun positive =>
  if positive then obind (py_float cents) (fun x => Ok (Some (cents_to_units x)))
  else Ok None).

(** Truthiness of a float or [None]. *)
Definition price_truthy (p : option spec_float) : bool :=
  match p with
  | Some x => negb (float_is_zero x)
  | None => false
  end.

(** The body of [for mode, mode_info in modes_data.items()]. *)
Definition fastest_mode_body (currency : string)
  (date_summary : list (string * FastestEntry)) (item : string * pyval)
  : Py (list (string * FastestEntry)) :=
  let '(mode, mode_info) := item in
  if negb (is_dict mode_info) then ret date_summary
  else
    num_results <- lift (py_get_default mode_info "numberOfResults" (PInt 0));;
    if py_eq_int num_results 0 then ret date_summary
    else
      cheapest_info <- lift (py_get_default mode_info "cheapest" (PDict []));;
      fastest_info <- lift (py_get_default mode_info "fastest" (PDict []));;
      cheapest_price_cents <- lift (py_get_default cheapest_info "priceCents" (PInt 0));;
      _ <- lift (py_get_default cheapest_info "durationMinutes" (PInt 0));;
      fastest_price_cents <- lift (py_get_default fastest_info "priceCents" (PInt 0));;
      fastest_duration_min <- lift (py_get_default fastest_info "durationMinutes" (PInt 0));;
      if py_eq_int cheapest_price_cents 0 && py_eq_int fastest_price_cents 0 then
        ret date_summary
      else
        cheapest <- lift (positive_price cheapest_price_cents);;
        fastest <- lift (positive_price fastest_price_cents);;
        log DEBUG "[Normalizer] {date} - {mode}: fastest, cheapest";;
        ret (assign mode
               {| fastest_duration := py_str fastest_duration_min;
                  fastest_price :=
                    match fastest with
                    | Some x => if price_truthy fastest then x else S754_zero false
                    | None => S754_zero false
                    end;
                  cheapest_price := if price_truthy cheapest then cheapest else None;
                  fe_currency := currency |}
               date_summary).

(** The body of [for date, modes_data in price_data.items()]. *)
Definition fastest_date_body (currency : string)
  (summary_by_date : list (string * list (string * FastestEntry)))
  (item : string * pyval) : Py (list (string * list (string * FastestEntry))) :=
  let '(date, modes_data) := item in
  if negb (is_dict modes_data) then ret summary_by_date
  else
    entries <- lift (py_items modes_data);;
    date_summary <- for_each entries (fastest_mode_body currency) [];;
    ret (match date_summary with
         | [] => summary_by_date
         | _ :: _ => assign date date_summary summary_by_date
         end).

Definition normalize_fastest_summary_results (data : pyval) (currency : string)
  : Py FastestResult :=
  log DEBUG "[Normalizer] normalize_fastest_summary_results called";;
  price_data <- lift (py_get_default data "data" (PDict []));;
  if negb (truthy price_data) then
    log WARNING "[Normalizer] No price data found in API response";;
    ret {| fs_summary := []; fs_currency := currency |}
  else
    _ <- lift (py_len price_data);;
    log DEBUG "[Normalizer] Processing {n} dates";;
    dates <- lift (py_items price_data);;
    summary_by_date <- for_each dates (fastest_date_body currency) [];;
    log INFO "[Normalizer] Normalized {n} dates";;
    ret {| fs_summary := summary_by_date; fs_currency := currency |}.

End WithInterpreter.

End Normalizer.

(* ================================================================== *)
(** * utils/validator.py                                              *)
(* ================================================================== *)

Module Validator.
Import PyRuntime Effects Models.

Definition validate_autocomplete_params (params : AutocompleteParams) : outcome unit :=
  if str_is_empty (strip (term params)) then
    Raise (ValueError "Autocomplete term cannot be empty.")
  else if len_str (term params) <? 2 then
    Raise (ValueError "Autocomplete term must contain at least 2 characters.")
  else Ok tt.

Definition validate_resolve_params (params : ResolvePositionsParams) : outcome unit :=
  if str_is_empty (strip (rp_from_term params))
     || str_is_empty (strip (rp_to_term params)) then
    Raise (ValueError "Both 'from_term' and 'to_term' must be provided.")
  else Ok tt.

Definition invalid_date_format : exn :=
  InvalidInputError "Invalid date format. Use YYYY-MM-DD." None.

Definition range_exceeded (max_days : Z) : exn :=
  InvalidInputError
    ("Date range exceeds the maximum of " ++ string_of_Z max_days ++ " days.")%string
    (Some "Please provide a smaller range between date_start and date_end.").

Section WithInterpreter.
Context {interp : Interpreter}.

Definition validate_date_range (start_str end_str : string) (max_days : Z)
  : outcome unit :=
  match fromisoformat start_str, fromisoformat end_str with
  | Some start_date, Some end_date =>
      obind (timedelta_days end_date start_date) (fun days =>
      if days >? max_days then Raise (range_exceeded max_days) else Ok tt)
  | _, _ => Raise invalid_date_format
  end.

End WithInterpreter.

End Validator.

(* ================================================================== *)
(** * core/config.py and http/discovery_client.py                     *)
(* ================================================================== *)

Module Settings.

Definition POSITION_ENDPOINT : string := "/nemo/position/suggest".
Definition SEARCH_DAY_RESULTS_ENDPOINT : string := "/v2/discovery/results".

End Settings.

Module DiscoveryClient.
Import PyRuntime Effects.

(** [await client.get(endpoint, params=params)]: the request is recorded
    and the answer is the upstream's, which may depend on the requests it
    has already served.  An HTTP status of 400 or more and a transport
    failure are answers of the form [Raise (UpstreamApiError _)]. *)
Definition get (upstream : list request -> request -> outcome pyval)
  (endpoint : string) (params : list (string * pyval)) : Py pyval :=
  fun w =>
    let r := {| endpoint := endpoint; query := params |} in
    (upstream (requests w) r,
     {| logs := logs w; requests := requests w ++ [r] |}).

End DiscoveryClient.

(* ================================================================== *)
(** * services/position_service.py                                    *)
(* ================================================================== *)

Module PositionService.
Import PyRuntime Effects Models Validator Normalizer.

(** [next((p for p in candidates if p.type == "location"),
          candidates[0] if candidates else None)] *)
Definition pick_best (candidates : list Position) : option Position :=
  match find (fun p => String.eqb (type p) "location") candidates with
  | Some p => Some p
  | None => hd_error candidates
  end.

(** [[p for p in candidates if not best_guess or p.id != best_guess.id]] *)
Definition others (best_guess : option Position) (candidates : list Position)
  : list Position :=
  match best_guess with
  | None => candidates
  | Some b => filter (fun p => negb (id p =? id b)) candidates
  end.

Section WithUpstream.
Variable upstream : list request -> request -> outcome pyval.

(** The extraction of the raw list from a dictionary answer:
    [raw.get("positions") or raw.get("results") or raw.get("data")
     or raw.get("items") or raw.get("locations") or []] *)
Definition extract_positions (raw : pyval) : outcome pyval :=
  obind (py_get raw "positions") (fun a => or_else a
  (obind (py_get raw "results") (fun b => or_else b
  (obind (py_get raw "data") (fun c => or_else c
  (obind (py_get raw "items") (fun d => or_else d
  (obind (py_get raw "locations") (fun e => or_else e
  (Ok (PList []))))))))))).

Definition positions_autocomplete (params : AutocompleteParams)
  : Py AutocompleteResponse :=
  log INFO "[Autocomplete] Received term";;
  try_except
    (lift (validate_autocomplete_params params);;
     log DEBUG "[Autocomplete] Parameters validation passed")
    (fun e =>
       log ERROR "[Autocomplete] Parameters validation failed";;
       raise e);;
  let endpoint := Settings.POSITION_ENDPOINT in
  log DEBUG "[Autocomplete] Using endpoint";;
  let request_params :=
    [("term", PStr (term params)); ("locale", PStr (ac_locale params));
     ("limit", PInt (limit params))] in
  log DEBUG "[Autocomplete] API request params";;
  raw <- try_except
           (r <- DiscoveryClient.get upstream endpoint request_params;;
            log DEBUG "[Autocomplete] API response received";;
            ret r)
           (fun e =>
              log ERROR "[Autocomplete] API request failed";;
              raise e);;
  (match raw with
   | PDict entries =>
       log DEBUG "[Autocomplete] Response is dict with keys";;
       for_each entries
         (fun (_ : unit) (kv : string * pyval) =>
            match snd kv with
            | PList _ => log DEBUG "[Autocomplete] Key contains list"
            | _ => ret tt
            end) tt
   | PList _ => log DEBUG "[Autocomplete] Response is list"
   | _ => log WARNING "[Autocomplete] Unexpected response type"
   end);;
  log DEBUG "[Autocomplete] Raw response preview";;
  positions_data <-
    match raw with
    | PList _ =>
        log DEBUG "[Autocomplete] Using raw list directly";;
        ret raw
    | PDict _ =>
        found <- lift (extract_positions raw);;
        _ <- lift (py_len found);;
        log DEBUG "[Autocomplete] Extracted items from dict";;
        (if negb (truthy found) && truthy raw
         then log WARNING "[Autocomplete] Could not find positions in response"
         else ret tt);;
        ret found
    | _ =>
        log ERROR "[Autocomplete] Cannot extract positions";;
        ret (PList [])
    end;;
  _ <- lift (py_len positions_data);;
  log DEBUG "[Autocomplete] Normalizing raw positions";;
  candidates <- normalize_positions positions_data;;
  log INFO "[Autocomplete] Retrieved candidates";;
  log DEBUG "[Autocomplete] Searching for best match (type='location')";;
  let best_guess := pick_best candidates in
  let alternatives := others best_guess candidates in
  log DEBUG "[Autocomplete] Found alternative positions";;
  (match best_guess with
   | Some _ => log INFO "[Autocomplete] Best match"
   | None => log WARNING "[Autocomplete] No valid match found"
   end);;
  log DEBUG "[Autocomplete] Returning response";;
  ret {| best_guess := best_guess; alternatives := alternatives |}.

(** One side of [resolve_positions]: the autocomplete call for a term, the
    candidate list [[best_guess] + alternatives] and the selected match. *)
Definition resolve_side (side term locale : string) (limit_each : Z)
  : Py (list Position * option Position) :=
  log DEBUG ("[Resolve] Resolving " ++ side)%string;;
  autocomplete <-
    try_except
      (r <- positions_autocomplete
              {| term := term; ac_locale := locale; limit := limit_each |};;
       log DEBUG ("[Resolve] Autocomplete returned for " ++ side)%string;;
       ret r)
      (fun e =>
         log ERROR ("[Resolve] Failed to autocomplete " ++ side)%string;;
         raise e);;
  let candidates :=
    match best_guess autocomplete with
    | Some b => [b]
    | None => []
    end ++ alternatives autocomplete in
  log DEBUG ("[Resolve] Total candidates for " ++ side)%string;;
  let best := pick_best candidates in
  (match best with
   | Some _ => log DEBUG ("[Resolve] Selected " ++ side)%string
   | None => log WARNING ("[Resolve] No suitable match for " ++ side)%string
   end);;
  ret (candidates, best).

Definition resolve_positions (params : ResolvePositionsParams)
  : Py ResolvePositionsResponse :=
  log INFO "[Resolve] Resolving positions";;
  try_except
    (lift (validate_resolve_params params);;
     log DEBUG "[Resolve] Parameters validation passed")
    (fun e =>
       log ERROR "[Resolve] Parameters validation failed";;
       raise e);;
  '(origin_candidates, origin_best) <-
    resolve_side "origin" (rp_from_term params) (rp_locale params) (limit_each params);;
  '(dest_candidates, dest_best) <-
    resolve_side "destination" (rp_to_term params) (rp_locale params) (limit_each params);;
  (match origin_best, dest_best with
   | Some _, Some _ => log INFO "[Resolve] Successfully resolved"
   | _, _ => log ERROR "[Resolve] Resolution failed"
   end);;
  let response :=
    {| origin := {| user_term := rp_from_term params; best_match := origin_best;
                    ranked_candidates := origin_candidates |};
       destination := {| user_term := rp_to_term params; best_match := dest_best;
                         ranked_candidates := dest_candidates |};
       suggestion := {| sg_from_id := option_map id origin_best;
                        sg_to_id := option_map id dest_best |} |} in
  log DEBUG "[Resolve] Returning response";;
  ret response.

End WithUpstream.

End PositionService.

(* ================================================================== *)
(** * services/search_service.py                                      *)
(* ================================================================== *)

Module SearchService.
Import PyRuntime Effects Models Normalizer PositionService.

(** Truthiness of an [Optional[int]] and of an [Optional[str]] field. *)
Definition given_id (o : option Z) : bool :=
  match o with
  | Some n => negb (n =? 0)
  | None => false
  end.

Definition given_term (o : option string) : bool :=
  match o with
  | Some s => negb (str_is_empty s)
  | None => false
  end.

(** The integer held by a field that was found truthy. *)
Definition id_value (o : option Z) : Z :=
  match o with
  | Some n => n
  | None => 0
  end.

(** The text of an optional string, as an f-string and a keyword argument
    see it. *)
Definition text (o : option string) : string :=
  match o with
  | Some s => s
  | None => "None"
  end.

Definition could_not_resolve (params : BaseSearchParams) : exn :=
  LocationResolutionError
    ("Could not resolve locations for '" ++ text (sp_from_term params)
     ++ "' → '" ++ text (sp_to_term params) ++ "'")%string.

Definition missing_input : exn :=
  LocationResolutionError
    "Must provide either (from_id, to_id) or (from_term, to_term)".

(** [prepare_common_api_params] of the normaliser, on validated
    parameters ([modes] is a list). *)
Definition prepare_common_api_params (params : BaseSearchParams) (from_id to_id : Z)
  : Py (list (string * pyval)) :=
  log DEBUG "[Normalizer2] Preparing API params";;
  log DEBUG "[Normalizer2] Input params";;
  let modes_str := join "," (modes params) in
  log DEBUG "[Normalizer2] Converted modes list to string";;
  let api_params :=
    [("fromId", PInt from_id); ("toId", PInt to_id);
     ("adults", PStr (adults params)); ("children", PStr (children params));
     ("infants", PStr (infants params)); ("travelModes", PStr modes_str);
     ("locale", PStr (locale params)); ("currency", PStr (sp_currency params))] in
  log DEBUG "[Normalizer2] Prepared API params";;
  ret api_params.

Section WithUpstream.
Context {interp : Interpreter}.
Variable upstream : list request -> request -> outcome pyval.

(** The second branch of [_ensure_position_ids]: both terms are given. *)
Definition resolve_by_terms (params : BaseSearchParams) : Py (Z * Z) :=
  log INFO "[Search] Resolving positions";;
  try_except
    (resolved <- resolve_positions upstream
                   {| rp_from_term := text (sp_from_term params);
                      rp_to_term := text (sp_to_term params);
                      rp_locale := locale params;
                      limit_each := 20 |};;
     let found := suggestion resolved in
     if negb (given_id (sg_from_id found)) || negb (given_id (sg_to_id found)) then
       raise (could_not_resolve params)
     else
       log INFO "[Search] Resolved";;
       ret (id_value (sg_from_id found), id_value (sg_to_id found)))
    (fun _ =>
       log ERROR "[Search] Failed to resolve positions";;
       raise (could_not_resolve params)).

Definition _ensure_position_ids (params : BaseSearchParams) : Py (Z * Z) :=
  if given_id (from_id params) && given_id (to_id params) then
    log DEBUG "[Search] Using provided IDs";;
    ret (id_value (from_id params), id_value (to_id params))
  else if given_term (sp_from_term params) && given_term (sp_to_term params) then
    resolve_by_terms params
  else raise missing_input.

Definition estimate_note : string :=
  "Prices are estimates and subject to change. Times are local to departure/arrival cities.".

Definition search_day_results (params : SearchDayResultsParams)
  : Py SearchDayResultsResponse :=
  log INFO "[Search] Starting 'search_day_results'";;
  '(from_id, to_id) <- _ensure_position_ids (base params);;
  log DEBUG "[Search] Resolved positions";;
  common <- prepare_common_api_params (base params) from_id to_id;;
  let with_out := assign "outboundDate" (PStr (date_out params)) common in
  let api_params :=
    if given_term (date_return params)
    then assign "inboundDate" (PStr (text (date_return params))) with_out
    else with_out in
  let endpoint := Settings.SEARCH_DAY_RESULTS_ENDPOINT in
  raw_data <- try_except
                (log DEBUG "[Search] Sending GET request";;
                 DiscoveryClient.get upstream endpoint api_params)
                (fun e =>
                   match e with
                   | UpstreamApiError _ =>
                       log ERROR "[Search] Upstream API error";;
                       raise e
                   | _ => raise e
                   end);;
  results <- shape_day_results raw_data;;
  log INFO "[Search] Retrieved {n}";;
  _ <- lift (match results with
             | first :: _ => Ok first
             | [] => Raise IndexError
             end);;
  log INFO "[Search] Retrieved {first}";;
  ret {| resolved_from_id := from_id; resolved_to_id := to_id;
         results := results; note := estimate_note |}.

End WithUpstream.

End SearchService.

(* ================================================================== *)
(** * services/search_service.py: the searches over a date range      *)
(* ================================================================== *)

Module RangeSearches.
Import PyRuntime Effects Models Normalizer Validator PositionService SearchService.

(** [schemas/enums.py] *)
Inductive JourneyType : Type :=
| ONE_WAY
| ROUND_TRIP.

(** [journey_type.value] *)
Definition value (j : JourneyType) : string :=
  match j with
  | ONE_WAY => "ONE_WAY"
  | ROUND_TRIP => "ROUND_TRIP"
  end.

(** [SearchCalendarPricesParams]: the fields the service reads. *)
Record SearchCalendarPricesParams : Type := {
  cp_base : BaseSearchParams;
  cp_date_start : string;
  cp_date_end : string;
  journey_type : JourneyType
}.

Record SearchSummaryParams : Type := {
  ss_base : BaseSearchParams;
  ss_date_start : string;
  ss_date_end : string
}.

Record CalendarDay : Type := {
  cd_date : string;
  cd_priceCents : option spec_float;
  cd_currency : option string
}.

(** [CalendarDay(date=..., priceCents=..., currency=...)], the price being
    a float already. *)
Definition make_CalendarDay (date : pyval) (priceCents : spec_float)
  (currency : pyval) : outcome CalendarDay :=
  obind (validate_str date) (fun d =>
  obind (validate_opt_str currency) (fun c =>
  Ok {| cd_date := d; cd_priceCents := Some priceCents; cd_currency := c |})).

Record SearchCalendarPricesResponse : Type := {
  cr_resolved_from_id : Z;
  cr_resolved_to_id : Z;
  cr_calendar : list CalendarDay;
  cr_note : string
}.

Record CheapestPriceInfo : Type := {
  cpi_min_price : spec_float;
  cpi_currency : string
}.

Record SearchCheapestSummaryResponse : Type := {
  sc_resolved_from_id : Z;
  sc_resolved_to_id : Z;
  sc_summary : list (string * list (string * CheapestPriceInfo));
  insight : option string
}.

Record FastestVsCheapestInfo : Type := {
  fv_fastest_duration : string;
  fv_fastest_price : spec_float;
  fv_cheapest_price : option spec_float;
  fv_currency : string
}.

Record SearchFastestSummaryResponse : Type := {
  sf_resolved_from_id : Z;
  sf_resolved_to_id : Z;
  sf_summary : list (string * list (string * FastestVsCheapestInfo));
  sf_note : string
}.

Definition plain_note : string :=
  "Prices represent the lowest available fares within selected period.".

Definition no_pricing_data : string :=
  "No pricing data available for the selected date range and routes.".

Definition trade_off_note : string :=
  "This summary helps compare the trade-offs between speed and cost for different modes of transport.".

(** [core/config.py] *)
Definition SEARCH_CALENDAR_PRICES_ENDPOINT : string := "/v2/discovery/price-calendar".
Definition DISCOVERY_CHEAPEST_SUMMARY_ENDPOINT : string :=
  "/v2/discovery/results/summary/cheapest".
Definition DISCOVERY_FASTEST_SUMMARY_ENDPOINT : string :=
  "/v2/discovery/results/summary/fastest".

Section WithUpstream.
Context {interp : Interpreter}.
Variable upstream : list request -> request -> outcome pyval.

(** The text of a float under the format specification [:.2f]. *)
Variable fixed2 : spec_float -> string.

(** [f"{x:.2f}"] for a float or [None]. *)
Definition format_fixed2 (x : option spec_float) : outcome string :=
  match x with
  | Some v => Ok (fixed2 v)
  | None => Raise TypeError
  end.

(** [str(a)] for a running total. *)
Definition str_num (a : num) : string :=
  match a with
  | NInt n => string_of_Z n
  | NFloat x => repr_float x
  end.

(** The request with its [try] and [except UpstreamApiError]; [keys_logged]
    tells whether the log line after the call reads [raw_data.keys()]. *)
Definition fetch (endpoint : string) (api_params : list (string * pyval))
  (keys_logged : bool) : Py pyval :=
  try_except
    (log DEBUG "[Search] Sending GET request";;
     raw_data <- DiscoveryClient.get upstream endpoint api_params;;
     _ <- lift (if keys_logged then py_keys raw_data else Ok []);;
     log DEBUG "[Search] response";;
     ret raw_data)
    (fun e =>
       match e with
       | UpstreamApiError _ =>
           log ERROR "[Search] Upstream API error";;
           raise e
       | _ => raise e
       end).

(** The body of [for item in normalized["calendar"]], with its [try]. *)
Definition calendar_day_body (calendar_days : list CalendarDay)
  (item : NormalizedDay) : Py (list CalendarDay) :=
  try_except
    (calendar_day <- lift (make_CalendarDay (nd_date item) (nd_priceCents item)
                             (nd_currency item));;
     ret (calendar_days ++ [calendar_day]))
    (fun _ =>
       log ERROR "[Search] Failed to create CalendarDay";;
       ret calendar_days).

Definition search_calendar_prices (params : SearchCalendarPricesParams)
  : Py SearchCalendarPricesResponse :=
  log INFO "[Search] Starting 'search_calendar_prices'";;
  lift (validate_date_range (cp_date_start params) (cp_date_end params) 31);;
  '(from_id, to_id) <- _ensure_position_ids upstream (cp_base params);;
  log DEBUG "[Search] Resolved positions";;
  common <- prepare_common_api_params (cp_base params) from_id to_id;;
  let api_params :=
    assign "journeyType" (PStr (value (journey_type params)))
      (assign "calendarDateEnd" (PStr (cp_date_end params))
         (assign "calendarDateStart" (PStr (cp_date_start params)) common)) in
  raw_data <- fetch SEARCH_CALENDAR_PRICES_ENDPOINT api_params false;;
  '(normalized, count) <- normalize_calendar_day_results raw_data;;
  log INFO "[Search] Normalized {count} calendar days";;
  calendar_days <- for_each (calendar normalized) calendar_day_body [];;
  log DEBUG "[Search] Created {n} CalendarDay objects";;
  let min_price := match stats normalized with
                   | Some s => min_price s
                   | None => None
                   end in
  let max_price := match stats normalized with
                   | Some s => max_price s
                   | None => None
                   end in
  note <- lift (if price_truthy min_price && price_truthy max_price then
                  obind (format_fixed2 min_price) (fun lo =>
                  obind (format_fixed2 max_price) (fun hi =>
                  Ok (plain_note ++ " Range: " ++ lo ++ " - " ++ hi ++ " "
                      ++ py_str (cal_currency normalized))%string))
                else Ok plain_note);;
  ret {| cr_resolved_from_id := from_id; cr_resolved_to_id := to_id;
         cr_calendar := calendar_days; cr_note := note |}.

(** [summary_dict] of the cheapest summary: the price and the currency of
    every entry. *)
Definition cheapest_summary_dict (summary : list (string * list (string * PriceEntry)))
  : list (string * list (string * CheapestPriceInfo)) :=
  fold_left
    (fun summary_dict (entry : string * list (string * PriceEntry)) =>
       assign (fst entry)
         (fold_left
            (fun by_mode (m : string * PriceEntry) =>
               assign (fst m)
                 {| cpi_min_price := pe_min_price (snd m);
                    cpi_currency := pe_currency (snd m) |}
                 by_mode)
            (snd entry) [])
         summary_dict)
    summary [].

(** One line of the breakdown by mode. *)
Definition mode_line (currency : string) (entry : string * ModeStats)
  : outcome string :=
  obind (format_fixed2 (ms_min_price (snd entry))) (fun lo =>
  obind (format_fixed2 (ms_max_price (snd entry))) (fun hi =>
  Ok (fst entry ++ ": " ++ string_of_Z (count (snd entry)) ++ " dates, "
      ++ lo ++ "-" ++ hi ++ " " ++ currency)%string)).

(** The insight of the cheapest summary. *)
Definition cheapest_insight (currency : string) (st : CheapestStats)
  : outcome string :=
  if given_term (cheapest_date st) && given_term (cheapest_mode st) then
    obind (format_fixed2 (min_price_overall st)) (fun lo =>
    obind (format_fixed2 (max_price_overall st)) (fun hi =>
    let headline :=
      ("Best deal: " ++ text (cheapest_date st) ++ " via " ++ text (cheapest_mode st)
       ++ " at " ++ lo ++ " " ++ currency ++ ". "
       ++ "Price range: " ++ lo ++ " - " ++ hi ++ " " ++ currency ++ ". "
       ++ "Total " ++ str_num (total_results st) ++ " options across "
       ++ string_of_Z (total_dates st) ++ " dates.")%string in
    obind (omap (mode_line currency) (by_mode st)) (fun mode_info =>
    Ok (match mode_info with
        | [] => headline
        | _ :: _ => (headline ++ " Breakdown: " ++ join "; " mode_info ++ ".")%string
        end))))
  else Ok no_pricing_data.

Definition search_cheapest_summary (params : SearchSummaryParams)
  : Py SearchCheapestSummaryResponse :=
  log INFO "[Search] Starting 'search_cheapest_summary'";;
  lift (validate_date_range (ss_date_start params) (ss_date_end params) 30);;
  '(from_id, to_id) <- _ensure_position_ids upstream (ss_base params);;
  log DEBUG "[Search] Resolved positions";;
  common <- prepare_common_api_params (ss_base params) from_id to_id;;
  let api_params :=
    assign "inboundDateEnd" (PStr (ss_date_end params))
      (assign "outboundDateStart" (PStr (ss_date_start params)) common) in
  raw_data <- fetch DISCOVERY_CHEAPEST_SUMMARY_ENDPOINT api_params true;;
  '(normalized, st) <- normalize_cheapest_summary_results raw_data
                         (sp_currency (ss_base params));;
  log INFO "[Search] Cheapest summary retrieved";;
  let summary_dict := cheapest_summary_dict (summary normalized) in
  insight <- lift (cheapest_insight (sp_currency (ss_base params)) st);;
  log DEBUG "[Search] Generated insight";;
  ret {| sc_resolved_from_id := from_id; sc_resolved_to_id := to_id;
         sc_summary := summary_dict; insight := Some insight |}.

(** [summary_dict] of the fastest summary. *)
Definition fastest_summary_dict (summary : list (string * list (string * FastestEntry)))
  : list (string * list (string * FastestVsCheapestInfo)) :=
  fold_left
    (fun summary_dict (entry : string * list (string * FastestEntry)) =>
       assign (fst entry)
         (fold_left
            (fun by_mode (m : string * FastestEntry) =>
               assign (fst m)
                 {| fv_fastest_duration := fastest_duration (snd m);
                    fv_fastest_price := fastest_price (snd m);
                    fv_cheapest_price := cheapest_price (snd m);
                    fv_currency := fe_currency (snd m) |}
                 by_mode)
            (snd entry) [])
         summary_dict)
    summary [].

Definition search_fastest_summary (params : SearchSummaryParams)
  : Py SearchFastestSummaryResponse :=
  log INFO "[Search] Starting 'search_fastest_summary'";;
  lift (validate_date_range (ss_date_start params) (ss_date_end params) 30);;
  '(from_id, to_id) <- _ensure_position_ids upstream (ss_base params);;
  log DEBUG "[Search] Resolved positions";;
  common <- prepare_common_api_params (ss_base params) from_id to_id;;
  let api_params :=
    assign "inboundDateEnd" (PStr (ss_date_end params))
      (assign "outboundDateStart" (PStr (ss_date_start params)) common) in
  raw_data <- fetch DISCOVERY_FASTEST_SUMMARY_ENDPOINT api_params true;;
  normalized <- normalize_fastest_summary_results raw_data
                  (sp_currency (ss_base params));;
  log INFO "[Search] Normalized {n} dates";;
  let summary_dict := fastest_summary_dict (fs_summary normalized) in
  log INFO "[Search] Fastest summary retrieved successfully";;
  ret {| sf_resolved_from_id := from_id; sf_resolved_to_id := to_id;
         sf_summary := summary_dict; sf_note := trade_off_note |}.

End WithUpstream.

End RangeSearches.

(* ================================================================== *)
(** * core/exceptions.py and utils/metrics.py                         *)
(* ================================================================== *)

Module Metrics.
Import PyRuntime Effects Models Normalizer Validator PositionService SearchService.

(** [type(exc).__name__] *)
Definition class_name (e : exn) : string :=
  match e with
  | TypeError => "TypeError"
  | AttributeError => "AttributeError"
  | KeyError => "KeyError"
  | IndexError => "IndexError"
  | OverflowError => "OverflowError"
  | ValidationError => "ValidationError"
  | ValueError _ => "ValueError"
  | InvalidInputError _ _ => "InvalidInputError"
  | UpstreamApiError _ => "UpstreamApiError"
  | LocationResolutionError _ => "LocationResolutionError"
  end.

(** [exc.to_dict()] of the three classes of [core/exceptions.py] that have
    the method. *)
Definition to_dict (e : exn) : option (list (string * pyval)) :=
  match e with
  | InvalidInputError message hint =>
      let error_body :=
        [("error_type", PStr "bad_input"); ("message", PStr message)] in
      Some (if given_term hint
            then assign "hint" (PStr (text hint)) error_body
            else error_body)
  | UpstreamApiError message =>
      Some [("error_type", PStr "upstream_unavailable");
            ("message",
             PStr "The external travel data provider is currently unavailable.");
            ("hint",
             PStr "This is a temporary issue. Please try your request again in a few moments.");
            ("details", PStr message)]
  | LocationResolutionError message =>
      Some [("error_type", PStr "resolution_failed");
            ("message", PStr message);
            ("hint",
             PStr "Could not find a match for the provided location. Try being more specific or check for typos.")]
  | _ => None
  end.

(** The error types that the docstrings of the tools announce. *)
Definition documented_error_types : list string :=
  ["bad_input"; "upstream_unavailable"; "no_results"; "range_exceeded"].

(** A document of the metrics collection; the duration and the timestamp,
    read from the clock, are left out. *)
Inductive metric : Type :=
| Success (tool_name : string) (context : pyval) (result_count : pyval)
| Failure (tool_name : string) (context : pyval) (error_type error_message : string).

(** [result.get("result_count") if isinstance(result, dict) else None] *)
Definition result_count_of (result : pyval) : pyval :=
  match result with
  | PDict d => match lookup "result_count" d with
               | Some count => count
               | None => PNone
               end
  | _ => PNone
  end.

(** A tool of [mcp/tools]: it logs its call, awaits the service and dumps
    the response. *)
Definition tool {A : Type} (service : Py A) (model_dump : A -> pyval) : Py pyval :=
  log INFO "[MCP TOOL] called";;
  result <- service;;
  ret (model_dump result).

Section WithCollection.

(** The answer of the database to [insert_one], given the documents it
    holds. *)
Variable insert_one : list metric -> metric -> outcome unit.

(** [str(exc)] *)
Variable message_text : exn -> string.

(** A traced call observes and changes the world and the collection. *)
Definition traced (A : Type) : Type :=
  world * list metric -> outcome A * (world * list metric).

Definition save_metric_to_mongo (data : metric) : traced unit :=
  fun s =>
    match insert_one (snd s) data with
    | Ok _ => (Ok tt, (fst s, snd s ++ [data]))
    | Raise e => (Raise e, s)
    end.

(** [{"error": {"type": type(exc).__name__, "message": str(exc)}}] *)
Definition envelope (exc : exn) : pyval :=
  PDict [("error", PDict [("type", PStr (class_name exc));
                          ("message", PStr (message_text exc))])].

(** The [except Exception as exc] branch of [wrapped]. *)
Definition on_failure (tool_name : string) (context_dict : pyval) (exc : exn)
  : traced pyval :=
  fun s =>
    match save_metric_to_mongo
            (Failure tool_name context_dict (class_name exc) (message_text exc)) s with
    | (Ok _, (w, collection)) =>
        match log ERROR "[MCP TOOL FAILURE]" w with
        | (_, w') => (Ok (envelope exc), (w', collection))
        end
    | (Raise e, s') => (Raise e, s')
    end.

(** [trace_tool(fn)(params)], for the tool [fn] applied to its parameters,
    whose dump is [context_dict]. *)
Definition trace_tool (tool_name : string) (context_dict : pyval) (fn : Py pyval)
  : traced pyval :=
  fun s =>
    match fn (fst s) with
    | (Ok result, w1) =>
        match save_metric_to_mongo
                (Success tool_name context_dict (result_count_of result))
                (w1, snd s) with
        | (Ok _, (w2, collection)) =>
            match log INFO "[MCP TOOL SUCCESS]" w2 with
            | (_, w3) => (Ok result, (w3, collection))
            end
        | (Raise exc, s') => on_failure tool_name context_dict exc s'
        end
    | (Raise exc, w1) => on_failure tool_name context_dict exc (w1, snd s)
    end.

End WithCollection.

End Metrics.

(* ================================================================== *)
(** * Reasoning about runs                                            *)
(* ================================================================== *)

Import PyRuntime Effects Models Validator Normalizer.

(** A computation is world-independent when what it returns or raises is
    the same from every state of the logger and of the request history. *)
Definition world_independent {A : Type} (m : Py A) : Prop :=
  forall w1 w2, result_of (m w1) = result_of (m w2).

(** A computation is offline when it sends nothing upstream. *)
Definition offline {A : Type} (m : Py A) : Prop :=
  forall w, requests (snd (m w)) = requests w.

Lemma wi_ret {A : Type} (a : A) : world_independent (ret a).
Proof. intros w1 w2. reflexivity. Qed.

Lemma wi_raise {A : Type} (e : exn) : world_independent (@raise A e).
Proof. intros w1 w2. reflexivity. Qed.

Lemma wi_lift {A : Type} (o : outcome A) : world_independent (lift o).
Proof. intros w1 w2. reflexivity. Qed.

Lemma wi_log (l : level) (text : string) : world_independent (log l text).
Proof. intros w1 w2. reflexivity. Qed.

Lemma wi_bind {A B : Type} (m : Py A) (k : A -> Py B) :
  world_independent m -> (forall a, world_independent (k a)) ->
  world_independent (bind m k).
Proof.
  intros Hm Hk w1 w2. unfold bind, result_of in *.
  specialize (Hm w1 w2).
  destruct (m w1) as [[a1 | e1] u1], (m w2) as [[a2 | e2] u2];
    simpl in Hm; try discriminate.
  - injection Hm as ->. apply Hk.
  - injection Hm as ->. reflexivity.
Qed.

Lemma wi_try_except {A : Type} (m : Py A) (handler : exn -> Py A) :
  world_independent m -> (forall e, world_independent (handler e)) ->
  world_independent (try_except m handler).
Proof.
  intros Hm Hh w1 w2. unfold try_except, result_of in *.
  specialize (Hm w1 w2).
  destruct (m w1) as [[a1 | e1] u1], (m w2) as [[a2 | e2] u2];
    simpl in Hm; try discriminate.
  - exact Hm.
  - injection Hm as ->. apply Hh.
Qed.

Lemma wi_for_each {A S : Type} (body : S -> A -> Py S) (xs : list A) :
  (forall acc x, world_independent (body acc x)) ->
  forall acc, world_independent (for_each xs body acc).
Proof.
  intros Hb. induction xs as [| x rest IH]; intros acc; simpl.
  - apply wi_ret.
  - apply wi_bind; [apply Hb | exact IH].
Qed.

(** The structure of a computation decides its independence: one rule per
    constructor, conditionals and pattern matches by cases. *)
Ltac wi_step :=
  match goal with
  | |- world_independent (bind _ _) => apply wi_bind; [| intros ?]
  | |- world_independent (try_except _ _) => apply wi_try_except; [| intros ?]
  | |- world_independent (for_each _ _ _) => apply wi_for_each; intros ? ?
  | |- world_independent (ret _) => apply wi_ret
  | |- world_independent (raise _) => apply wi_raise
  | |- world_independent (lift _) => apply wi_lift
  | |- world_independent (log _ _) => apply wi_log
  | |- world_independent (if ?b then _ else _) => destruct b
  | |- world_independent (match ?x with _ => _ end) => destruct x
  | |- world_independent (let (_, _) := ?x in _) => destruct x
  end.

Ltac wi_auto := repeat wi_step.

Lemma offline_ret {A : Type} (a : A) : offline (ret a).
Proof. intros w. reflexivity. Qed.

Lemma offline_raise {A : Type} (e : exn) : offline (@raise A e).
Proof. intros w. reflexivity. Qed.

Lemma offline_lift {A : Type} (o : outcome A) : offline (lift o).
Proof. intros w. reflexivity. Qed.

Lemma offline_log (l : level) (text : string) : offline (log l text).
Proof. intros w. reflexivity. Qed.

Lemma offline_bind {A B : Type} (m : Py A) (k : A -> Py B) :
  offline m -> (forall a, offline (k a)) -> offline (bind m k).
Proof.
  intros Hm Hk w. unfold bind. specialize (Hm w).
  destruct (m w) as [[a | e] u]; simpl in *.
  - rewrite Hk. exact Hm.
  - exact Hm.
Qed.

Lemma offline_try_except {A : Type} (m : Py A) (handler : exn -> Py A) :
  offline m -> (forall e, offline (handler e)) -> offline (try_except m handler).
Proof.
  intros Hm Hh w. unfold try_except. specialize (Hm w).
  destruct (m w) as [[a | e] u]; simpl in *.
  - exact Hm.
  - rewrite Hh. exact Hm.
Qed.

(** A loop that returns went through its elements one step at a time. *)
Inductive steps {A S : Type} (step : S -> A -> S -> Prop) : S -> list A -> S -> Prop :=
| steps_nil : forall acc, steps step acc [] acc
| steps_cons : forall acc x mid rest final,
    step acc x mid -> steps step mid rest final ->
    steps step acc (x :: rest) final.

Lemma for_each_steps {A S : Type} (body : S -> A -> Py S)
  (step : S -> A -> S -> Prop) :
  (forall acc x w a w', body acc x w = (Ok a, w') -> step acc x a) ->
  forall xs acc w final w',
    for_each xs body acc w = (Ok final, w') -> steps step acc xs final.
Proof.
  intros Hbody. induction xs as [| x rest IH]; intros acc w final w' H; simpl in H.
  - unfold ret in H. injection H as <- _. constructor.
  - unfold bind in H. destruct (body acc x w) as [[mid | e] u] eqn:E.
    + econstructor; [eapply Hbody; exact E | eapply IH; exact H].
    + discriminate.
Qed.

(** A loop whose body returns on every element returns. *)
Lemma for_each_returns {A S : Type} (body : S -> A -> Py S) (good : A -> Prop) :
  (forall acc x w, good x -> exists a w', body acc x w = (Ok a, w')) ->
  forall xs, Forall good xs ->
  forall acc w, exists final w', for_each xs body acc w = (Ok final, w').
Proof.
  intros Hbody xs Hall. induction Hall as [| x rest Hx _ IH]; intros acc w; simpl.
  - eexists _, _. reflexivity.
  - unfold bind. destruct (Hbody acc x w Hx) as (a & u & ->). apply IH.
Qed.

(** The result of a loop whose body has a world-free description. *)
Lemma for_each_result {A S : Type} (body : S -> A -> Py S)
  (step : S -> A -> outcome S) :
  (forall acc x w, result_of (body acc x w) = step acc x) ->
  forall xs acc w, result_of (for_each xs body acc w) = ofold step xs acc.
Proof.
  intros Hbody. induction xs as [| x rest IH]; intros acc w; simpl.
  - reflexivity.
  - unfold bind. specialize (Hbody acc x w). unfold result_of in *.
    destruct (body acc x w) as [[mid | e] u]; simpl in Hbody; rewrite <- Hbody; simpl.
    + apply IH.
    + reflexivity.
Qed.

Definition fresh_world : world := {| logs := []; requests := [] |}.

(** An interpreter for closed examples.  No example reaches one of its
    fields: their payloads hold no float, no numeric text and no date with a
    time zone. *)
Definition example_interpreter : Interpreter :=
  {| float_of_str := fun _ => None;
     repr_float := fun _ => "";
     repr_str := fun s => s;
     iso_extended := fun _ => None |}.

(* ================================================================== *)
(** * normalize_positions                                             *)
(* ================================================================== *)

(** ** The specification's reading of one raw record *)

(** [d.get(k)] *)
Definition field (d : list (string * pyval)) (k : string) : pyval :=
  match lookup k d with
  | Some v => v
  | None => PNone
  end.

(** The first of displayName, defaultName, name that holds a value. *)
Definition first_name (d : list (string * pyval)) : pyval :=
  py_or (field d "displayName") (py_or (field d "defaultName") (field d "name")).

(** The type, ["unknown"] when the record has none. *)
Definition type_or_unknown (d : list (string * pyval)) : pyval :=
  match lookup "type" d with
  | Some t => t
  | None => PStr "unknown"
  end.

(** The positionId does not parse as an integer. *)
Definition id_unparsable (v : pyval) : bool :=
  match py_int v with
  | Raise TypeError | Raise (ValueError _) => true
  | _ => false
  end.

(** The four reasons to skip a record: it is empty, it lacks a positionId
    key, it lacks all of displayName, defaultName and name, or its positionId
    does not parse as an integer. *)
Definition skip_rule (pos : pyval) : bool :=
  match pos with
  | PDict d =>
      negb (truthy pos) || negb (has_key "positionId" d)
      || negb (truthy (first_name d))
      || id_unparsable (field d "positionId")
  | _ => negb (truthy pos)
  end.

(** What becomes of one record: it is skipped, it yields a position, or it
    ends the whole call with an exception (a record that is not a
    dictionary, a positionId that is an infinite float, a name, type or
    country code that is not text). *)
Inductive verdict : Type :=
| Skipped
| Kept (p : Position)
| Fails (e : exn).

Definition verdict_of (pos : pyval) : verdict :=
  if skip_rule pos then Skipped
  else
    match pos with
    | PDict d =>
        match py_int (field d "positionId") with
        | Ok n =>
            match make_Position n (first_name d) (type_or_unknown d)
                    (field d "countryCode") with
            | Ok p => Kept p
            | Raise e => Fails e
            end
        | Raise e => Fails e
        end
    | PStr _ | PList _ => Fails AttributeError
    | _ => Fails TypeError
    end.

Definition after (acc : list Position * Z) (v : verdict) : outcome (list Position * Z) :=
  match v with
  | Skipped => Ok (fst acc, snd acc + 1)
  | Kept p => Ok (fst acc ++ [p], snd acc)
  | Fails e => Raise e
  end.

(** The positions of the records that are kept, in input order. *)
Definition kept_positions (raw : list pyval) : list Position :=
  flat_map (fun pos => match verdict_of pos with Kept p => [p] | _ => [] end) raw.

(** The number of records a skip rule applies to. *)
Definition skipped_count (raw : list pyval) : Z :=
  Z.of_nat (List.length (filter skip_rule raw)).

(** The exception of the first record that ends the call, if any. *)
Fixpoint first_failure (raw : list pyval) : option exn :=
  match raw with
  | [] => None
  | pos :: rest =>
      match verdict_of pos with
      | Fails e => Some e
      | _ => first_failure rest
      end
  end.

Definition is_str (v : pyval) : bool :=
  match v with
  | PStr _ => true
  | _ => false
  end.

Definition is_opt_str (v : pyval) : bool :=
  match v with
  | PStr _ | PNone => true
  | _ => false
  end.

Definition is_infinite (v : pyval) : bool :=
  match v with
  | PFloat (S754_infinity _) => true
  | _ => false
  end.

(** A well-formed record is a dictionary which, unless a skip rule applies
    to it, has a textual name, a textual type if any, a textual or null
    country code if any, and a positionId that is not an infinite float. *)
Definition wellformed_record (pos : pyval) : bool :=
  match pos with
  | PDict d =>
      skip_rule pos
      || (is_str (first_name d) && is_str (type_or_unknown d)
          && is_opt_str (field d "countryCode")
          && negb (is_infinite (field d "positionId")))
  | _ => false
  end.

(** ** The loop body refines the reading *)

Lemma names_field d :
  obind (py_get (PDict d) "displayName")
    (fun a => or_else a (obind (py_get (PDict d) "defaultName")
       (fun b => or_else b (py_get (PDict d) "name")))) = Ok (first_name d).
Proof.
  unfold first_name, field, py_get, py_get_default, py_or, or_else, obind.
  destruct (lookup "displayName" d) as [a |]; simpl;
    [destruct (truthy a); [reflexivity |] |];
    (destruct (lookup "defaultName" d) as [b |]; simpl;
      [destruct (truthy b); [reflexivity |] |]);
    destruct (lookup "name" d); reflexivity.
Qed.

Lemma body_result acc pos w :
  result_of (normalize_positions_body acc pos w) = after acc (verdict_of pos).
Proof.
  destruct acc as [positions k]. unfold normalize_positions_body, verdict_of.
  destruct (truthy pos) eqn:T; cbn [negb].
  2:{ replace (skip_rule pos) with true; [reflexivity |].
      destruct pos; simpl in *; rewrite ?T; reflexivity. }
  destruct pos as [| b | n | x | s | items | d]; simpl in T; unfold skip_rule;
    cbn [truthy]; rewrite ?T; cbn [negb orb]; try reflexivity.
  - unfold bind, lift, result_of. cbn [py_contains_str].
    destruct (str_contains "positionId" s); reflexivity.
  - unfold bind, lift, result_of. cbn [py_contains_str].
    destruct (existsb (is_str_eq "positionId") items); reflexivity.
  - destruct d as [| kv d']; [discriminate |]. set (d := kv :: d') in *.
    cbn [negb orb]. unfold bind at 1. cbn [lift py_contains_str].
    destruct (has_key "positionId" d) eqn:K; cbn [negb orb].
    2:{ reflexivity. }
    unfold bind at 1. cbn [lift]. rewrite names_field.
    destruct (truthy (first_name d)) eqn:TN; cbn [negb orb].
    2:{ reflexivity. }
    unfold bind at 1, parse_position_id, try_except.
    unfold bind at 1. cbn [lift py_getitem_str].
    unfold has_key in K. unfold id_unparsable, field at 1 2.
    destruct (lookup "positionId" d) as [v |] eqn:L; [| discriminate].
    unfold bind at 1. cbn [lift].
    destruct (py_int v) as [n | e] eqn:PI.
    + cbn [ret]. unfold bind at 1. cbn [lift py_get_default].
      unfold bind at 1. cbn [lift py_get py_get_default].
      replace (match lookup "type" d with Some w0 => Ok w0 | None => Ok (PStr "unknown") end)
        with (Ok (type_or_unknown d))
        by (unfold type_or_unknown; destruct (lookup "type" d); reflexivity).
      replace (match lookup "countryCode" d with Some w0 => Ok w0 | None => Ok PNone end)
        with (Ok (field d "countryCode"))
        by (unfold field; destruct (lookup "countryCode" d); reflexivity).
      unfold bind, log, lift, ret, result_of.
      destruct (make_Position n (first_name d) (type_or_unknown d) (field d "countryCode"));
        reflexivity.
    + destruct e; reflexivity.
Qed.

Lemma ofold_verdicts raw : forall positions k,
  ofold (fun acc pos => after acc (verdict_of pos)) raw (positions, k) =
  match first_failure raw with
  | Some e => Raise e
  | None => Ok (positions ++ kept_positions raw, k + skipped_count raw)
  end.
Proof.
  unfold skipped_count, kept_positions.
  induction raw as [| pos rest IH]; intros positions k; simpl.
  - rewrite app_nil_r, Z.add_0_r. reflexivity.
  - unfold verdict_of at 1 3 4. destruct (skip_rule pos) eqn:R; simpl.
    + rewrite IH. destruct (first_failure rest); [reflexivity |].
      f_equal. f_equal. lia.
    + destruct (verdict_of pos) as [| p | e] eqn:V; unfold verdict_of in V;
        rewrite R in V; rewrite V; simpl.
      * destruct pos; try discriminate;
          repeat match type of V with
                 | match ?x with _ => _ end = _ => destruct x; try discriminate
                 end.
      * rewrite IH. destruct (first_failure rest); [reflexivity |].
        rewrite <- app_assoc. reflexivity.
      * reflexivity.
Qed.

Lemma loop_result raw w :
  result_of (normalize_positions_loop raw w) =
  match first_failure raw with
  | Some e => Raise e
  | None => Ok (kept_positions raw, skipped_count raw)
  end.
Proof.
  unfold normalize_positions_loop.
  rewrite (for_each_result _ _ body_result). apply ofold_verdicts.
Qed.

(** The whole function on a list: the call fails with the first record's
    exception, or returns the kept positions. *)
Lemma normalize_positions_result raw w :
  result_of (normalize_positions (PList raw) w) =
  match first_failure raw with
  | Some e => Raise e
  | None => Ok (kept_positions raw)
  end.
Proof.
  destruct raw as [| pos rest]; [reflexivity |].
  set (raw := pos :: rest).
  unfold normalize_positions. unfold bind at 1. cbn [lift py_len].
  unfold bind at 1. cbn [log]. cbn [truthy negb raw].
  unfold bind at 1. cbn [lift py_first]. unfold bind at 1. cbn [log].
  unfold bind at 1. cbn [lift py_iter]. unfold bind at 1. fold raw.
  match goal with
  | |- context [normalize_positions_loop raw ?u] =>
      pose proof (loop_result raw u) as L;
      destruct (normalize_positions_loop raw u) as [[[ps k] | e] u']
  end; unfold result_of in *; cbn [fst] in L;
    destruct (first_failure raw); try discriminate L.
  - injection L as -> _. reflexivity.
  - injection L as ->. reflexivity.
Qed.

Lemma verdict_skipped pos : verdict_of pos = Skipped <-> skip_rule pos = true.
Proof.
  unfold verdict_of. destruct (skip_rule pos); split; intros H;
    try reflexivity; try discriminate.
  destruct pos; try discriminate;
    repeat match type of H with
           | match ?x with _ => _ end = _ => destruct x; try discriminate
           end.
Qed.

Lemma kept_and_skipped raw :
  first_failure raw = None ->
  Z.of_nat (List.length (kept_positions raw)) + skipped_count raw
  = Z.of_nat (List.length raw).
Proof.
  unfold kept_positions, skipped_count.
  induction raw as [| pos rest IH]; intros H; simpl in *; [reflexivity |].
  destruct (verdict_of pos) as [| p | e] eqn:V; try discriminate.
  - apply verdict_skipped in V. rewrite V. specialize (IH H).
    cbn [app List.length]. rewrite Nat2Z.inj_succ. lia.
  - destruct (skip_rule pos) eqn:R.
    + apply verdict_skipped in R. congruence.
    + specialize (IH H). cbn [app List.length]. rewrite Nat2Z.inj_succ. lia.
Qed.

Lemma py_int_failure v e :
  py_int v = Raise e ->
  e = TypeError \/ (exists m, e = ValueError m) \/ is_infinite v = true.
Proof.
  destruct v as [| b | n | x | s | items | d]; simpl; intros H;
    try discriminate; try (injection H as <-; auto; fail).
  - destruct x; simpl in H; try discriminate;
      injection H as <-; eauto.
  - destruct (int_of_str s); [discriminate |]. injection H as <-. eauto.
Qed.

Lemma wellformed_no_failure pos :
  wellformed_record pos = true -> forall e, verdict_of pos <> Fails e.
Proof.
  intros W e. unfold verdict_of.
  destruct (skip_rule pos) eqn:R; [discriminate |].
  destruct pos as [| | | | | | d]; try discriminate.
  unfold wellformed_record in W. rewrite R in W. cbn [orb] in W.
  apply andb_prop in W as [W Hid]. apply andb_prop in W as [W Hcc].
  apply andb_prop in W as [Hname Htype].
  unfold skip_rule in R. apply orb_false_elim in R as [_ Hparse].
  destruct (py_int (field d "positionId")) as [n | e'] eqn:PI.
  - unfold make_Position.
    destruct (first_name d); try discriminate.
    destruct (type_or_unknown d); try discriminate.
    destruct (field d "countryCode"); try discriminate; simpl; discriminate.
  - exfalso. unfold id_unparsable in Hparse. rewrite PI in Hparse.
    destruct (py_int_failure _ _ PI) as [-> | [[m ->] | Hinf]]; try discriminate.
    rewrite Hinf in Hid. discriminate.
Qed.

Lemma wellformed_list_no_failure raw :
  Forall (fun pos => wellformed_record pos = true) raw -> first_failure raw = None.
Proof.
  induction 1 as [| pos rest Hpos _ IH]; simpl; [reflexivity |].
  pose proof (wellformed_no_failure pos Hpos) as N.
  destruct (verdict_of pos) as [| p | e]; try exact IH.
  exfalso. apply (N e). reflexivity.
Qed.

(** After well-formed records, the next record decides. *)
Lemma first_failure_after before pos rest :
  Forall (fun pos => wellformed_record pos = true) before ->
  first_failure (before ++ pos :: rest)
  = match verdict_of pos with
    | Fails e => Some e
    | _ => first_failure rest
    end.
Proof.
  induction 1 as [| x before Hx _ IH]; [reflexivity |].
  cbn [app first_failure]. pose proof (wellformed_no_failure x Hx) as N.
  destruct (verdict_of x) as [| p | e]; try exact IH.
  exfalso. apply (N e). reflexivity.
Qed.

(** A dictionary that is not well-formed cannot be built into a
    [Position]: its positionId is an infinite float, which [int()] refuses
    with [OverflowError], or its name, type or country code is rejected by
    the validation of the record. *)
Lemma unbuildable_record d :
  wellformed_record (PDict d) = false ->
  verdict_of (PDict d)
  = Fails (if is_infinite (field d "positionId") then OverflowError
           else ValidationError).
Proof.
  unfold wellformed_record, verdict_of. intros W.
  apply orb_false_elim in W as [R W]. rewrite R.
  unfold skip_rule in R. apply orb_false_elim in R as [_ Hparse].
  unfold id_unparsable in Hparse.
  destruct (py_int (field d "positionId")) as [n | e] eqn:PI.
  - assert (Hfin : is_infinite (field d "positionId") = false).
    { destruct (field d "positionId") as [| | | x | | |]; try reflexivity.
      destruct x; try reflexivity. discriminate PI. }
    rewrite Hfin in *. rewrite andb_true_r in W. unfold make_Position.
    destruct (first_name d); try reflexivity.
    destruct (type_or_unknown d); try reflexivity.
    destruct (field d "countryCode"); try reflexivity; discriminate W.
  - destruct (py_int_failure _ _ PI) as [-> | [[m ->] | Hinf]]; try discriminate.
    rewrite Hinf. f_equal.
    destruct (field d "positionId") as [| | | x | | |]; try discriminate.
    destruct x; try discriminate. cbn in PI. congruence.
Qed.

Definition sample_positions : list pyval :=
  [PDict [("positionId", PStr "7"); ("displayName", PStr "");
          ("defaultName", PStr "Berlin Hbf"); ("type", PStr "station")];
   PDict [];
   PDict [("positionId", PStr "x1"); ("name", PStr "Paris")];
   PDict [("positionId", PInt 12); ("name", PStr "Paris");
          ("countryCode", PStr "FR")]].

(** A record whose positionId is the float infinity, and a record whose
    type is a number. *)
Definition infinite_id_record : list (string * pyval) :=
  [("positionId", PFloat (S754_infinity false)); ("name", PStr "Paris")].

Definition numeric_type_record : list (string * pyval) :=
  [("positionId", PInt 3); ("name", PStr "Lyon"); ("type", PInt 7)].

(** C8, as the code has it.  A record is skipped when it is empty, has no
    positionId key, holds no value under any of displayName, defaultName and
    name (a name that is present and empty counts as lacking), or has a
    positionId that [int()] rejects with [TypeError] or [ValueError].  On a
    list of well-formed records [normalize_positions] returns; whenever it
    returns, its output is the positions of the records that are not
    skipped, in input order, the output length plus the number of skipped
    records is the input length, and that number is the [skipped_count] the
    loop ends with.  But a record does fail the whole batch: after
    well-formed records, a dictionary that no rule skips and that is not
    well-formed ends the call, with [OverflowError] when its positionId is an
    infinite float and with [ValidationError] when its name, type or country
    code is not text, and nothing is returned for the records before it. *)
Theorem normalize_positions_partition (raw : list pyval) (w : world) :
  (Forall (fun pos => wellformed_record pos = true) raw ->
   exists positions,
     result_of (normalize_positions (PList raw) w) = Ok positions) /\
  (forall positions,
     result_of (normalize_positions (PList raw) w) = Ok positions ->
     positions = kept_positions raw /\
     Z.of_nat (List.length positions) + skipped_count raw
     = Z.of_nat (List.length raw) /\
     forall w',
       result_of (normalize_positions_loop raw w')
       = Ok (positions, skipped_count raw)) /\
  (forall before d rest,
     raw = before ++ PDict d :: rest ->
     Forall (fun pos => wellformed_record pos = true) before ->
     wellformed_record (PDict d) = false ->
     result_of (normalize_positions (PList raw) w)
     = Raise (if is_infinite (field d "positionId") then OverflowError
              else ValidationError)).
Proof.
  rewrite normalize_positions_result. split; [| split].
  - intros W. rewrite (wellformed_list_no_failure raw W). eexists. reflexivity.
  - intros positions H.
    destruct (first_failure raw) eqn:F; [discriminate |].
    injection H as <-. split; [reflexivity |]. split.
    + apply kept_and_skipped. exact F.
    + intros w'. rewrite loop_result, F. reflexivity.
  - intros before d rest -> Hbefore Hd.
    rewrite (first_failure_after before (PDict d) rest Hbefore).
    rewrite (unbuildable_record d Hd). reflexivity.
Qed.

Lemma normalize_positions_partition_witness :
  (Forall (fun pos => wellformed_record pos = true) sample_positions /\
   result_of (normalize_positions (PList sample_positions) fresh_world)
   = Ok [{| id := 7; name := "Berlin Hbf"; type := "station"; country_code := None |};
         {| id := 12; name := "Paris"; type := "unknown"; country_code := Some "FR" |}] /\
   Z.of_nat 2 + skipped_count sample_positions = Z.of_nat 4) /\
  result_of (normalize_positions (PList [PDict infinite_id_record]) fresh_world)
  = Raise OverflowError /\
  result_of (normalize_positions
               (PList (sample_positions ++ [PDict numeric_type_record])) fresh_world)
  = Raise ValidationError.
Proof.
  split; [| split].
  - split; [repeat constructor |]. split; [reflexivity |].
    apply (proj1 (proj2 (normalize_positions_partition sample_positions fresh_world))
             [{| id := 7; name := "Berlin Hbf"; type := "station";
                 country_code := None |};
              {| id := 12; name := "Paris"; type := "unknown";
                 country_code := Some "FR" |}]).
    reflexivity.
  - apply (proj2 (proj2 (normalize_positions_partition [PDict infinite_id_record]
                           fresh_world))
             [] infinite_id_record []); [reflexivity | constructor | reflexivity].
  - apply (proj2 (proj2 (normalize_positions_partition
                           (sample_positions ++ [PDict numeric_type_record])
                           fresh_world))
             sample_positions numeric_type_record []);
      [reflexivity | repeat constructor | reflexivity].
Defined.





(* ================================================================== *)
(** * Determinism of the normalisers                                  *)
(* ================================================================== *)




Section Determinism.
Context {interp : Interpreter}.

Lemma wi_shape_day_results raw : world_independent (shape_day_results raw).
Proof.
  unfold shape_day_results, shape_day_results_counted. wi_auto.
  unfold shape_day_results_body. wi_auto.
Qed.

Lemma wi_calendar_body currency acc day :
  world_independent (calendar_body currency acc day).
Proof. unfold calendar_body. wi_auto. Qed.

Lemma wi_normalize_calendar_day_results data :
  world_independent (normalize_calendar_day_results data).
Proof.
  unfold normalize_calendar_day_results. wi_auto. apply wi_calendar_body.
Qed.






End Determinism.

(* ================================================================== *)
(** * Stepping through a run                                          *)
(* ================================================================== *)

Definition field_or (d : list (string * pyval)) (k : string) (default : pyval) : pyval :=
  match lookup k d with
  | Some v => v
  | None => default
  end.

Lemma py_get_dict d k : py_get (PDict d) k = Ok (field d k).
Proof. unfold py_get, py_get_default, field. destruct (lookup k d); reflexivity. Qed.

Lemma py_get_default_dict d k default :
  py_get_default (PDict d) k default = Ok (field_or d k default).
Proof. unfold py_get_default, field_or. destruct (lookup k d); reflexivity. Qed.

Lemma run_lift_ok {A B : Type} (a : A) (k : A -> Py B) w :
  bind (lift (Ok a)) k w = k a w.
Proof. reflexivity. Qed.

Lemma run_lift_raise {A B : Type} (e : exn) (k : A -> Py B) w :
  bind (lift (Raise e)) k w = (Raise e, w).
Proof. reflexivity. Qed.

Lemma run_ret {A B : Type} (a : A) (k : A -> Py B) w : bind (ret a) k w = k a w.
Proof. reflexivity. Qed.

Lemma run_log {B : Type} l text (k : unit -> Py B) w :
  bind (log l text) k w
  = k tt {| logs := (l, text) :: logs w; requests := requests w |}.
Proof. reflexivity. Qed.

Ltac run_simpl :=
  cbv beta; cbn [logs requests truthy negb is_dict py_len py_iter py_keys py_items].

(** Runs the leading pure steps and log calls of a computation. *)
Ltac run :=
  run_simpl;
  repeat (first [rewrite run_lift_ok | rewrite run_log | rewrite run_ret
                | rewrite run_lift_raise];
          run_simpl).

(** A loop whose body leaves the loop variables as they are. *)
Lemma for_each_unchanged {A S : Type} (body : S -> A -> Py S) (xs : list A) :
  (forall acc x w, In x xs -> exists w', body acc x w = (Ok acc, w')) ->
  forall acc w, exists w', for_each xs body acc w = (Ok acc, w').
Proof.
  induction xs as [| x rest IH]; intros Hbody acc w; simpl.
  - eexists. reflexivity.
  - unfold bind. destruct (Hbody acc x w (or_introl eq_refl)) as [u ->].
    apply IH. intros acc' y w' Hy. apply Hbody. right. exact Hy.
Qed.

(** A loop whose body returns and keeps an invariant. *)
Lemma for_each_preserves {A S : Type} (body : S -> A -> Py S) (P : S -> Prop)
  (xs : list A) :
  (forall acc x w, In x xs -> P acc ->
     exists a w', body acc x w = (Ok a, w') /\ P a) ->
  forall acc w, P acc ->
    exists final w', for_each xs body acc w = (Ok final, w') /\ P final.
Proof.
  induction xs as [| x rest IH]; intros Hbody acc w HP; simpl.
  - eexists _, _. split; [reflexivity | exact HP].
  - unfold bind.
    destruct (Hbody acc x w (or_introl eq_refl) HP) as (a & u & -> & Ha).
    apply IH; [| exact Ha]. intros acc' y w' Hy. apply Hbody. right. exact Hy.
Qed.

(* ================================================================== *)
(** * Payloads whose every entry is skipped                           *)
(* ================================================================== *)

(** A calendar day that the loop skips: it has no date or no priceCents. *)
Definition skipped_day (day : pyval) : bool :=
  match day with
  | PDict d => is_none (field d "date") || is_none (field d "priceCents")
  | _ => false
  end.

(** A [(date, mode)] entry that the loop skips: it is not a dictionary, or
    its priceCents is 0, or its numberOfResults is 0, an absent field
    counting as 0. *)
Definition no_data (price_info : pyval) : bool :=
  match price_info with
  | PDict d =>
      py_eq_int (field_or d "priceCents" (PInt 0)) 0
      || py_eq_int (field_or d "numberOfResults" (PInt 0)) 0
  | _ => true
  end.

(** A date none of whose entries is kept. *)
Definition date_without_data (modes_data : pyval) : bool :=
  match modes_data with
  | PDict modes => forallb (fun item => no_data (snd item)) modes
  | _ => true
  end.

Definition calendar_without_prices : list (string * pyval) :=
  [("currency", PStr "EUR");
   ("prices", PList [PDict [("date", PStr "2024-06-01")];
                     PDict [("priceCents", PInt 1500)]])].

Definition summary_without_data : list (string * pyval) :=
  [("data", PDict [("2024-06-01",
                    PDict [("bus", PDict [("priceCents", PInt 0);
                                          ("numberOfResults", PInt 3)]);
                           ("train", PDict [("priceCents", PInt 1900);
                                            ("numberOfResults", PInt 0)])])])].

Section EverySkipped.
Context {interp : Interpreter}.

Lemma skipped_day_body currency acc day w :
  skipped_day day = true ->
  exists w', calendar_body currency acc day w = (Ok acc, w').
Proof.
  intros H. destruct day as [| | | | | | d]; try discriminate. simpl in H.
  unfold calendar_body. rewrite !py_get_dict. unfold bind, lift. rewrite H.
  eexists. reflexivity.
Qed.

Lemma skipped_calendar_raises entries days w :
  lookup "prices" entries = Some (PList days) ->
  days <> [] ->
  Forall (fun day => skipped_day day = true) days ->
  result_of (normalize_calendar_day_results (PDict entries) w) = Raise TypeError.
Proof.
  intros Hp Hne Hall. unfold normalize_calendar_day_results.
  rewrite !py_get_dict, !py_get_default_dict.
  unfold field_or at 2. rewrite Hp.
  destruct days as [| day rest]; [congruence |].
  run. unfold bind at 1.
  match goal with
  | |- context [for_each ?xs ?b ?a ?u] =>
      destruct (for_each_unchanged b xs) with (acc := a) (w := u) as [u' ->]
  end.
  - intros acc x w0 Hin. apply skipped_day_body.
    rewrite Forall_forall in Hall. apply Hall. exact Hin.
  - reflexivity.
Qed.

Lemma no_data_body currency date acc item w :
  no_data (snd item) = true ->
  exists w', cheapest_mode_body currency date acc item w = (Ok acc, w').
Proof.
  destruct acc as [st date_prices], item as [mode price_info]. cbn [snd]. intros H.
  unfold cheapest_mode_body.
  destruct price_info as [| | | | | | d]; try (eexists; reflexivity).
  cbn [is_dict negb]. rewrite py_get_dict, !py_get_default_dict. run.
  simpl in H. rewrite H. run. eexists. reflexivity.
Qed.

Lemma date_without_data_body currency st summary_by_date date modes_data w :
  date_without_data modes_data = true ->
  min_price_overall st = None ->
  exists st' w',
    cheapest_date_body currency (st, summary_by_date) (date, modes_data) w
    = (Ok (st', summary_by_date), w')
    /\ min_price_overall st' = None.
Proof.
  intros H Hmin. unfold cheapest_date_body.
  destruct modes_data as [| | | | | | modes];
    try (eexists _, _; split; [reflexivity | exact Hmin]).
  run. unfold bind at 1.
  match goal with
  | |- context [for_each ?xs ?b ?a ?u] =>
      destruct (for_each_unchanged b xs) with (acc := a) (w := u) as [u' ->]
  end.
  - intros acc x w0 Hin. apply no_data_body.
    simpl in H. rewrite forallb_forall in H. apply H. exact Hin.
  - eexists _, _. split; [reflexivity | exact Hmin].
Qed.

Lemma skipped_cheapest_raises entries dates currency w :
  lookup "data" entries = Some (PDict dates) ->
  dates <> [] ->
  Forall (fun item => date_without_data (snd item) = true) dates ->
  result_of (normalize_cheapest_summary_results (PDict entries) currency w)
  = Raise TypeError.
Proof.
  intros Hd Hne Hall. unfold normalize_cheapest_summary_results.
  rewrite py_get_dict, py_get_default_dict. unfold field_or. rewrite Hd.
  destruct dates as [| item rest]; [congruence |].
  run. unfold bind at 1.
  assert (L : forall u, exists u',
             (if truthy (field entries "errors")
              then log WARNING "[Normalizer] API returned errors"
              else ret tt) u = (Ok tt, u')).
  { intros u. destruct (truthy (field entries "errors")); eexists; reflexivity. }
  match goal with
  | |- context [(if _ then _ else _) ?u] => destruct (L u) as [u' ->]
  end.
  run. unfold bind at 1.
  match goal with
  | |- context [for_each ?xs ?b ?a ?u] =>
      destruct (for_each_preserves b
                  (fun acc => min_price_overall (fst acc) = None) xs)
        with (acc := a) (w := u) as ([st summ] & u'' & -> & Hmin)
  end.
  - intros [st summ] [date md] w0 Hin HP.
    rewrite Forall_forall in Hall. specialize (Hall _ Hin).
    destruct (date_without_data_body currency st summ date md w0 Hall HP)
      as (st' & w' & E & Hm).
    eexists _, _. split; [exact E | exact Hm].
  - reflexivity.
  - cbn [fst] in Hmin. rewrite Hmin. reflexivity.
Qed.

(** C1, where the code departs from it.  When the price list of a calendar
    payload is not empty and every day of it is skipped, and when the date
    map of a cheapest-summary payload is not empty and every entry of it is
    skipped, the two functions do not return: the last log line formats the
    absent minimum with [:.2f] and the call ends with [TypeError]. *)
Theorem every_entry_skipped_raises
  (calendar_payload summary_payload : list (string * pyval))
  (days : list pyval) (dates : list (string * pyval))
  (currency : string) (w : world) :
  lookup "prices" calendar_payload = Some (PList days) ->
  days <> [] ->
  Forall (fun day => skipped_day day = true) days ->
  lookup "data" summary_payload = Some (PDict dates) ->
  dates <> [] ->
  Forall (fun item => date_without_data (snd item) = true) dates ->
  result_of (normalize_calendar_day_results (PDict calendar_payload) w)
  = Raise TypeError /\
  result_of (normalize_cheapest_summary_results (PDict summary_payload) currency w)
  = Raise TypeError.
Proof.
  intros Hp Hdays Hskip Hd Hdates Hnone. split.
  - exact (skipped_calendar_raises _ _ _ Hp Hdays Hskip).
  - exact (skipped_cheapest_raises _ _ _ _ Hd Hdates Hnone).
Qed.

End EverySkipped.

Lemma every_entry_skipped_raises_witness :
  result_of (@normalize_calendar_day_results example_interpreter
               (PDict calendar_without_prices) fresh_world)
  = Raise TypeError /\
  result_of (@normalize_cheapest_summary_results example_interpreter
               (PDict summary_without_data) "EUR" fresh_world)
  = Raise TypeError.
Proof.
  apply (@every_entry_skipped_raises example_interpreter
           calendar_without_prices summary_without_data
           [PDict [("date", PStr "2024-06-01")]; PDict [("priceCents", PInt 1500)]]
           [("2024-06-01",
             PDict [("bus", PDict [("priceCents", PInt 0);
                                   ("numberOfResults", PInt 3)]);
                    ("train", PDict [("priceCents", PInt 1900);
                                     ("numberOfResults", PInt 0)])])]).
  - reflexivity.
  - discriminate.
  - repeat constructor.
  - reflexivity.
  - discriminate.
  - repeat constructor.
Defined.

(* ================================================================== *)
(** * shape_day_results                                               *)
(* ================================================================== *)

Definition is_ok {A : Type} (o : outcome A) : bool :=
  match o with
  | Ok _ => true
  | Raise _ => false
  end.



Section ShapeDayResults.
Context {interp : Interpreter}.

(** The itinerary a schedule contributes, if any: a schedule that is not a
    dictionary, or whose derivation raises, contributes none and is counted
    as an error. *)
Definition shaped_of (raw_data : pyval)
  (carriers_map positions_map segments_map : list (string * pyval))
  (sched : pyval) : option Itinerary :=
  if is_dict sched then
    match shape_schedule raw_data carriers_map positions_map segments_map sched with
    | Ok it => Some it
    | Raise _ => None
    end
  else None.

Definition shape_step (raw_data : pyval) (cm pm sm : list (string * pyval))
  (acc : list Itinerary * Z) (sched : pyval) : outcome (list Itinerary * Z) :=
  match shaped_of raw_data cm pm sm sched with
  | Some it => Ok (fst acc ++ [it], snd acc + 1)
  | None => Ok (fst acc, snd acc + 1)
  end.

Definition itineraries_of (raw_data : pyval) (cm pm sm : list (string * pyval))
  (all_schedules : list pyval) : list Itinerary :=
  flat_map (fun sched => match shaped_of raw_data cm pm sm sched with
                         | Some it => [it]
                         | None => []
                         end) all_schedules.

(** A schedule that shapes is appended, and then the message of the debug
    line asks the itinerary for [priceFrom]: the [AttributeError] is caught
    as every other exception of the body is. *)
Lemma processed_line_raises it : processed_line it = Raise AttributeError.
Proof. reflexivity. Qed.

Lemma shape_body_result raw_data cm pm sm acc sched w :
  result_of (shape_day_results_body raw_data cm pm sm acc sched w)
  = shape_step raw_data cm pm sm acc sched.
Proof.
  destruct acc as [shaped errors].
  unfold shape_day_results_body, shape_step, shaped_of, try_except.
  destruct (is_dict sched); cbn [negb].
  - unfold bind at 1. cbn [lift].
    destruct (shape_schedule raw_data cm pm sm sched) as [it | e]; [| reflexivity].
    unfold bind at 1. cbn [lift]. rewrite processed_line_raises. reflexivity.
  - reflexivity.
Qed.

Lemma ofold_shape raw_data cm pm sm all : forall shaped errors,
  ofold (shape_step raw_data cm pm sm) all (shaped, errors)
  = Ok (shaped ++ itineraries_of raw_data cm pm sm all,
        errors + Z.of_nat (List.length all)).
Proof.
  unfold itineraries_of.
  induction all as [| sched rest IH]; intros shaped errors.
  - cbn [ofold flat_map List.length]. rewrite app_nil_r, Z.add_0_r. reflexivity.
  - cbn [ofold flat_map]. unfold shape_step at 1.
    destruct (shaped_of raw_data cm pm sm sched) as [it |]; cbn [fst snd obind];
      rewrite IH; cbn [List.length]; rewrite Nat2Z.inj_succ;
      rewrite <- ?app_assoc; f_equal; f_equal; lia.
Qed.

(** The function is the three lookup tables, the concatenated schedule
    lists, and one itinerary per schedule that shapes; every schedule is
    counted as an error. *)
Lemma shape_day_results_counted_result raw_data w :
  result_of (shape_day_results_counted raw_data w)
  = obind (build_carriers_map raw_data) (fun cm =>
    obind (build_positions_map raw_data) (fun pm =>
    obind (build_segments_map raw_data) (fun sm =>
    obind (collect_schedules raw_data) (fun all =>
    Ok (itineraries_of raw_data cm pm sm all, Z.of_nat (List.length all)))))).
Proof.
  unfold shape_day_results_counted. rewrite run_log.
  destruct (build_carriers_map raw_data) as [cm |]; [| reflexivity]. rewrite run_lift_ok.
  destruct (build_positions_map raw_data) as [pm |]; [| reflexivity]. rewrite run_lift_ok.
  destruct (build_segments_map raw_data) as [sm |]; [| reflexivity]. rewrite run_lift_ok.
  destruct (collect_schedules raw_data) as [all |]; [| reflexivity]. rewrite run_lift_ok.
  cbv beta. rewrite (for_each_result _ _ (shape_body_result raw_data cm pm sm)).
  rewrite ofold_shape. reflexivity.
Qed.

Lemma shape_day_results_result raw_data w :
  result_of (shape_day_results raw_data w)
  = obind (build_carriers_map raw_data) (fun cm =>
    obind (build_positions_map raw_data) (fun pm =>
    obind (build_segments_map raw_data) (fun sm =>
    obind (collect_schedules raw_data) (fun all =>
    Ok (itineraries_of raw_data cm pm sm all))))).
Proof.
  assert (E : result_of (shape_day_results raw_data w)
              = obind (result_of (shape_day_results_counted raw_data w))
                  (fun p => Ok (fst p))).
  { unfold shape_day_results, bind, result_of.
    destruct (shape_day_results_counted raw_data w) as [[[shaped errors] | e] u];
      reflexivity. }
  rewrite E, shape_day_results_counted_result.
  destruct (build_carriers_map raw_data); [| reflexivity].
  destruct (build_positions_map raw_data); [| reflexivity].
  destruct (build_segments_map raw_data); [| reflexivity].
  destruct (collect_schedules raw_data); reflexivity.
Qed.





End ShapeDayResults.

(** One outbound schedule whose only segment id is unknown to the payload
    and which carries its own times; and the same schedule without them. *)
Definition unresolved_schedule : list (string * pyval) :=
  [("id", PStr "sched-1"); ("segmentIDs", PList [PStr "seg-404"]);
   ("departureAt", PStr "2024-06-01T10:00:00");
   ("arrivalAt", PStr "2024-06-01T12:30:00"); ("priceCents", PInt 2590)].

Definition unresolved_payload : list (string * pyval) :=
  [("segments", PList [PDict [("id", PStr "seg-1")]]);
   ("outboundSchedules", PList [PDict unresolved_schedule])].


Definition unresolved_itinerary : Itinerary :=
  {| from_term := "Unknown"; to_term := "Unknown"; mode := "unknown";
     stable_id := "sched-1";
     price_from := cents_to_units (float_of_Z 2590);
     currency := "EUR"; duration := "0";
     departure := {| datetime := "2024-06-01T10:00:00"; tz := Some "UTC" |};
     arrival := {| datetime := "2024-06-01T12:30:00"; tz := Some "UTC" |};
     carrier := None |}.



(* ================================================================== *)
(** * search_day_results                                              *)
(* ================================================================== *)

Import PositionService SearchService.

Lemma run_assoc {A B C : Type} (m : Py A) (k1 : A -> Py B) (k2 : B -> Py C) w :
  bind (bind m k1) k2 w = bind m (fun a => bind (k1 a) k2) w.
Proof. unfold bind. destruct (m w) as [[a | e] u]; reflexivity. Qed.

Lemma run_bind_eq {A B : Type} (m : Py A) (k : A -> Py B) w a w' :
  m w = (Ok a, w') -> bind m k w = k a w'.
Proof. intros H. unfold bind. rewrite H. reflexivity. Qed.

Lemma bind_ok_inv {A B : Type} (m : Py A) (k : A -> Py B) w b :
  result_of (bind m k w) = Ok b ->
  exists a w1, m w = (Ok a, w1) /\ result_of (k a w1) = Ok b.
Proof.
  unfold bind, result_of. destruct (m w) as [[a | e] w1]; intros H.
  - exists a, w1. split; [reflexivity | exact H].
  - discriminate.
Qed.

Lemma result_ok_run {A : Type} (m : Py A) w a :
  result_of (m w) = Ok a -> exists w', m w = (Ok a, w').
Proof.
  unfold result_of. destruct (m w) as [r w']. simpl. intros ->.
  eexists. reflexivity.
Qed.

(** The world after one log call. *)
Definition logged (l : level) (text : string) (w : world) : world :=
  {| logs := (l, text) :: logs w; requests := requests w |}.

(** The query of the day-results call: the common parameters, the outbound
    date, and the inbound date when a return date is given. *)
Definition day_results_query (params : SearchDayResultsParams) (f t : Z)
  : list (string * pyval) :=
  let common :=
    [("fromId", PInt f); ("toId", PInt t);
     ("adults", PStr (adults (base params)));
     ("children", PStr (children (base params)));
     ("infants", PStr (infants (base params)));
     ("travelModes", PStr (join "," (modes (base params))));
     ("locale", PStr (locale (base params)));
     ("currency", PStr (sp_currency (base params)))] in
  let with_out := assign "outboundDate" (PStr (date_out params)) common in
  if given_term (date_return params)
  then assign "inboundDate" (PStr (text (date_return params))) with_out
  else with_out.

Section SearchDayResults.
Context {interp : Interpreter}.
Variable upstream : list request -> request -> outcome pyval.

Lemma returned_results_not_empty params w resp :
  result_of (search_day_results upstream params w) = Ok resp ->
  results resp <> [].
Proof.
  unfold search_day_results. intros H.
  apply bind_ok_inv in H as (? & w1 & _ & H).
  apply bind_ok_inv in H as ([f t] & w2 & _ & H).
  apply bind_ok_inv in H as (? & w3 & _ & H).
  apply bind_ok_inv in H as (common & w4 & _ & H).
  apply bind_ok_inv in H as (raw_data & w5 & _ & H).
  apply bind_ok_inv in H as (shaped & w6 & _ & H).
  apply bind_ok_inv in H as (? & w7 & _ & H).
  apply bind_ok_inv in H as (? & w8 & Hfirst & H).
  apply bind_ok_inv in H as (? & w9 & _ & H).
  unfold ret, result_of in H. cbn [fst] in H. injection H as <-. cbn [results].
  destruct shaped; discriminate.
Qed.

Lemma empty_shape_raises params f t w2 raw_data w :
  _ensure_position_ids upstream (base params)
    (logged INFO "[Search] Starting 'search_day_results'" w)
  = (Ok (f, t), w2) ->
  upstream (requests w2)
    {| endpoint := Settings.SEARCH_DAY_RESULTS_ENDPOINT;
       query := day_results_query params f t |} = Ok raw_data ->
  result_of (shape_day_results raw_data w) = Ok [] ->
  result_of (search_day_results upstream params w) = Raise IndexError.
Proof.
  intros Hids Hup Hshape. unfold search_day_results. run.
  erewrite run_bind_eq; [| exact Hids]. cbv beta iota. run.
  unfold prepare_common_api_params. repeat (rewrite run_assoc; run).
  erewrite run_bind_eq.
  2:{ unfold try_except, bind, log, DiscoveryClient.get. cbn [requests logs].
      unfold day_results_query in Hup. rewrite Hup. reflexivity. }
  cbv beta.
  match goal with
  | |- result_of (bind _ _ ?u) = _ =>
      pose proof (wi_shape_day_results raw_data u w) as E; rewrite Hshape in E;
      apply result_ok_run in E as [u' E]
  end.
  erewrite run_bind_eq; [| exact E]. run. reflexivity.
Qed.

(** C9.  [search_day_results] never returns a response whose results list
    is empty; and when the position ids are obtained, the upstream answers
    and [shape_day_results] produces no itinerary from the answer, the call
    ends with the [IndexError] of [results[0]], evaluated for the log
    line. *)
Theorem search_day_results_never_empty
  (params : SearchDayResultsParams) (w : world) :
  (forall resp,
     result_of (search_day_results upstream params w) = Ok resp ->
     results resp <> []) /\
  (forall f t w2 raw_data,
     _ensure_position_ids upstream (base params)
       (logged INFO "[Search] Starting 'search_day_results'" w)
     = (Ok (f, t), w2) ->
     upstream (requests w2)
       {| endpoint := Settings.SEARCH_DAY_RESULTS_ENDPOINT;
          query := day_results_query params f t |} = Ok raw_data ->
     result_of (shape_day_results raw_data w) = Ok [] ->
     result_of (search_day_results upstream params w) = Raise IndexError).
Proof.
  split.
  - intros resp. apply returned_results_not_empty.
  - intros f t w2 raw_data. apply empty_shape_raises.
Qed.

End SearchDayResults.

(** A search by ids, and an upstream that answers every request with a
    payload that has no schedule. *)
Definition search_by_ids : SearchDayResultsParams :=
  {| base := {| from_id := Some 1; to_id := Some 2;
                sp_from_term := Some "Paris"; sp_to_term := Some "Berlin";
                adults := "1"; children := "0"; infants := "0";
                modes := ["bus"; "train"; "flight"];
                locale := "en"; sp_currency := "EUR" |};
     date_out := "2024-06-01"; date_return := None |}.

Definition no_schedule_upstream (history : list request) (r : request) : outcome pyval :=
  Ok (PDict [("outboundSchedules", PList [])]).

Lemma search_day_results_never_empty_witness :
  result_of (@shape_day_results example_interpreter
               (PDict [("outboundSchedules", PList [])]) fresh_world) = Ok []
  /\ result_of (@search_day_results example_interpreter no_schedule_upstream
                  search_by_ids fresh_world) = Raise IndexError.
Proof.
  split; [reflexivity |].
  apply (proj2 (@search_day_results_never_empty example_interpreter
                  no_schedule_upstream search_by_ids fresh_world)
           1 2
           (logged DEBUG "[Search] Using provided IDs"
              (logged INFO "[Search] Starting 'search_day_results'" fresh_world))
           (PDict [("outboundSchedules", PList [])])).
  - reflexivity.
  - reflexivity.
  - reflexivity.
Defined.

(* ================================================================== *)
(** * positions_autocomplete and its validation                       *)
(* ================================================================== *)

Lemma offline_for_each {A S : Type} (body : S -> A -> Py S) (xs : list A) :
  (forall acc x, offline (body acc x)) ->
  forall acc, offline (for_each xs body acc).
Proof.
  intros Hb. induction xs as [| x rest IH]; intros acc; simpl.
  - apply offline_ret.
  - apply offline_bind; [apply Hb | exact IH].
Qed.

Ltac offline_step :=
  match goal with
  | |- offline (bind _ _) => apply offline_bind; [| intros ?]
  | |- offline (try_except _ _) => apply offline_try_except; [| intros ?]
  | |- offline (for_each _ _ _) => apply offline_for_each; intros ? ?
  | |- offline (ret _) => apply offline_ret
  | |- offline (raise _) => apply offline_raise
  | |- offline (lift _) => apply offline_lift
  | |- offline (log _ _) => apply offline_log
  | |- offline (if ?b then _ else _) => destruct b
  | |- offline (match ?x with _ => _ end) => destruct x
  | |- offline (let (_, _) := ?x in _) => destruct x
  end.

Ltac offline_auto := repeat offline_step.

Lemma offline_normalize_positions raw : offline (normalize_positions raw).
Proof.
  unfold normalize_positions, normalize_positions_loop. offline_auto.
  unfold normalize_positions_body, parse_position_id. offline_auto.
Qed.

(** The one request an autocomplete call sends. *)
Definition autocomplete_request (params : AutocompleteParams) : request :=
  {| endpoint := Settings.POSITION_ENDPOINT;
     query := [("term", PStr (term params)); ("locale", PStr (ac_locale params));
               ("limit", PInt (limit params))] |}.

Definition term_empty : string := "Autocomplete term cannot be empty.".
Definition term_too_short : string :=
  "Autocomplete term must contain at least 2 characters.".

Section Autocomplete.
Variable upstream : list request -> request -> outcome pyval.

Lemma autocomplete_requests params w :
  requests (snd (positions_autocomplete upstream params w))
  = match validate_autocomplete_params params with
    | Ok _ => requests w ++ [autocomplete_request params]
    | Raise _ => requests w
    end.
Proof.
  unfold positions_autocomplete. run.
  destruct (validate_autocomplete_params params) as [[] | e] eqn:V.
  2:{ reflexivity. }
  erewrite run_bind_eq; [| reflexivity]. run.
  destruct (upstream (requests w) (autocomplete_request params)) as [raw | e] eqn:U.
  2:{ unfold bind at 1, try_except, bind at 1, DiscoveryClient.get.
      cbn [requests logs]. unfold autocomplete_request in U. rewrite U.
      reflexivity. }
  erewrite run_bind_eq.
  2:{ unfold try_except, bind, DiscoveryClient.get, log, ret.
      cbn [requests logs]. unfold autocomplete_request in U. rewrite U.
      reflexivity. }
  match goal with
  | |- requests (snd (?m ?u)) = _ =>
      assert (O : offline m); [| rewrite O; reflexivity]
  end.
  offline_auto. apply offline_normalize_positions.
Qed.

Lemma autocomplete_rejected params w e :
  validate_autocomplete_params params = Raise e ->
  result_of (positions_autocomplete upstream params w) = Raise e.
Proof.
  intros V. unfold positions_autocomplete. run. rewrite V. reflexivity.
Qed.

(** C3, as the code has it.  The validation of an autocomplete term fails
    exactly when the term is empty after trimming or the term, not trimmed,
    has fewer than 2 characters; it then fails with the interpreter's
    [ValueError], not with [InvalidInputError]; a call whose validation
    fails raises that error and sends nothing upstream, and a call whose
    validation passes sends its one request. *)
Theorem autocomplete_validation_as_coded (params : AutocompleteParams) (w : world) :
  validate_autocomplete_params params
  = (if str_is_empty (strip (term params)) then Raise (ValueError term_empty)
     else if len_str (term params) <? 2 then Raise (ValueError term_too_short)
     else Ok tt) /\
  (forall e,
     validate_autocomplete_params params = Raise e ->
     result_of (positions_autocomplete upstream params w) = Raise e
     /\ requests (snd (positions_autocomplete upstream params w)) = requests w) /\
  (validate_autocomplete_params params = Ok tt ->
   requests (snd (positions_autocomplete upstream params w))
   = requests w ++ [autocomplete_request params]).
Proof.
  split; [reflexivity |]. split.
  - intros e V. split; [exact (autocomplete_rejected params w e V) |].
    rewrite autocomplete_requests, V. reflexivity.
  - intros V. rewrite autocomplete_requests, V. reflexivity.
Qed.

End Autocomplete.

Definition one_letter : AutocompleteParams :=
  {| term := "a"; ac_locale := "en"; limit := 20 |}.

Definition padded_letter : AutocompleteParams :=
  {| term := " a"; ac_locale := "en"; limit := 20 |}.

Lemma autocomplete_validation_as_coded_witness :
  (result_of (positions_autocomplete no_schedule_upstream one_letter fresh_world)
   = Raise (ValueError term_too_short)
   /\ requests (snd (positions_autocomplete no_schedule_upstream one_letter
                       fresh_world)) = []) /\
  (len_str (strip (term padded_letter)) = 1
   /\ validate_autocomplete_params padded_letter = Ok tt
   /\ requests (snd (positions_autocomplete no_schedule_upstream padded_letter
                       fresh_world)) = [autocomplete_request padded_letter]).
Proof.
  split.
  - apply (proj1 (proj2 (autocomplete_validation_as_coded no_schedule_upstream
                           one_letter fresh_world))).
    reflexivity.
  - split; [reflexivity |]. split; [reflexivity |].
    apply (proj2 (proj2 (autocomplete_validation_as_coded no_schedule_upstream
                           padded_letter fresh_world))).
    reflexivity.
Defined.

(* ================================================================== *)
(** * _ensure_position_ids                                            *)
(* ================================================================== *)

(** The parameters of the resolution call made for two terms. *)
Definition resolve_request (params : BaseSearchParams) : ResolvePositionsParams :=
  {| rp_from_term := text (sp_from_term params);
     rp_to_term := text (sp_to_term params);
     rp_locale := locale params;
     limit_each := 20 |}.

Section EnsurePositionIds.
Variable upstream : list request -> request -> outcome pyval.

Lemma resolve_by_terms_result params w :
  result_of (resolve_by_terms upstream params w)
  = match resolve_positions upstream (resolve_request params)
            (logged INFO "[Search] Resolving positions" w) with
    | (Ok resolved, _) =>
        if given_id (sg_from_id (suggestion resolved))
           && given_id (sg_to_id (suggestion resolved))
        then Ok (id_value (sg_from_id (suggestion resolved)),
                 id_value (sg_to_id (suggestion resolved)))
        else Raise (could_not_resolve params)
    | (Raise _, _) => Raise (could_not_resolve params)
    end.
Proof.
  unfold resolve_by_terms. run. unfold try_except, bind at 1.
  fold (resolve_request params). unfold logged.
  destruct (resolve_positions upstream (resolve_request params) _)
    as [[resolved | e] u]; [| reflexivity].
  cbv zeta.
  destruct (given_id (sg_from_id (suggestion resolved)));
    destruct (given_id (sg_to_id (suggestion resolved))); reflexivity.
Qed.

(** C7, as amended.  When both numeric ids are given and are not zero,
    [_ensure_position_ids] returns them and sends nothing upstream, whatever
    the terms are.  Otherwise, when both terms are given and are not empty,
    it resolves them, returns the two resolved ids when both are present and
    not zero, and fails with [LocationResolutionError] when one is missing or
    when the resolution raises.  Otherwise it fails with
    [LocationResolutionError]. *)
Theorem ensure_position_ids_cases (params : BaseSearchParams) (w : world) :
  (given_id (from_id params) && given_id (to_id params) = true ->
   result_of (_ensure_position_ids upstream params w)
   = Ok (id_value (from_id params), id_value (to_id params))
   /\ requests (snd (_ensure_position_ids upstream params w)) = requests w) /\
  (given_id (from_id params) && given_id (to_id params) = false ->
   given_term (sp_from_term params) && given_term (sp_to_term params) = true ->
   result_of (_ensure_position_ids upstream params w)
   = match resolve_positions upstream (resolve_request params)
             (logged INFO "[Search] Resolving positions" w) with
     | (Ok resolved, _) =>
         if given_id (sg_from_id (suggestion resolved))
            && given_id (sg_to_id (suggestion resolved))
         then Ok (id_value (sg_from_id (suggestion resolved)),
                  id_value (sg_to_id (suggestion resolved)))
         else Raise (could_not_resolve params)
     | (Raise _, _) => Raise (could_not_resolve params)
     end) /\
  (given_id (from_id params) && given_id (to_id params) = false ->
   given_term (sp_from_term params) && given_term (sp_to_term params) = false ->
   result_of (_ensure_position_ids upstream params w) = Raise missing_input
   /\ requests (snd (_ensure_position_ids upstream params w)) = requests w).
Proof.
  unfold _ensure_position_ids. split; [| split].
  - intros ->. split; reflexivity.
  - intros -> ->. apply resolve_by_terms_result.
  - intros -> ->. split; reflexivity.
Qed.

End EnsurePositionIds.

(** Both ids, of which one is zero, and no term. *)
Definition zero_origin : BaseSearchParams :=
  {| from_id := Some 0; to_id := Some 2;
     sp_from_term := None; sp_to_term := None;
     adults := "1"; children := "0"; infants := "0";
     modes := ["bus"; "train"; "flight"]; locale := "en"; sp_currency := "EUR" |}.

(** Two terms and no id, and an upstream that knows one location. *)
Definition by_terms : BaseSearchParams :=
  {| from_id := None; to_id := None;
     sp_from_term := Some "Paris"; sp_to_term := Some "Berlin";
     adults := "1"; children := "0"; infants := "0";
     modes := ["bus"; "train"; "flight"]; locale := "en"; sp_currency := "EUR" |}.

Definition one_location_upstream (history : list request) (r : request)
  : outcome pyval :=
  Ok (PDict [("positions",
              PList [PDict [("positionId", PInt 7); ("name", PStr "Gare");
                            ("type", PStr "station")];
                     PDict [("positionId", PStr "42"); ("name", PStr "Ville");
                            ("type", PStr "location")]])]).

Lemma ensure_position_ids_cases_witness :
  (result_of (_ensure_position_ids no_schedule_upstream (base search_by_ids)
                fresh_world) = Ok (1, 2)
   /\ requests (snd (_ensure_position_ids no_schedule_upstream (base search_by_ids)
                       fresh_world)) = []) /\
  result_of (_ensure_position_ids one_location_upstream by_terms fresh_world)
  = Ok (42, 42) /\
  (result_of (_ensure_position_ids no_schedule_upstream zero_origin fresh_world)
   = Raise missing_input
   /\ requests (snd (_ensure_position_ids no_schedule_upstream zero_origin
                       fresh_world)) = []).
Proof.
  split; [| split].
  - apply (proj1 (ensure_position_ids_cases no_schedule_upstream
                    (base search_by_ids) fresh_world)).
    reflexivity.
  - rewrite (proj1 (proj2 (ensure_position_ids_cases one_location_upstream
                             by_terms fresh_world)) eq_refl eq_refl).
    reflexivity.
  - apply (proj2 (proj2 (ensure_position_ids_cases no_schedule_upstream
                           zero_origin fresh_world))); reflexivity.
Defined.

(** C7 as stated fails: with the ids 0 and 2 both supplied, the call does
    not return them; it fails for want of input. *)
Lemma zero_id_not_returned :
  from_id zero_origin = Some 0 /\ to_id zero_origin = Some 2 /\
  result_of (_ensure_position_ids no_schedule_upstream zero_origin fresh_world)
  = Raise missing_input /\
  ~ (forall upstream params w f t,
       from_id params = Some f -> to_id params = Some t ->
       result_of (_ensure_position_ids upstream params w) = Ok (f, t)).
Proof.
  split; [reflexivity |]. split; [reflexivity |]. split; [reflexivity |].
  intros H.
  specialize (H no_schedule_upstream zero_origin fresh_world 0 2 eq_refl eq_refl).
  discriminate H.
Qed.

(* ================================================================== *)
(** * validate_date_range                                             *)
(* ================================================================== *)

(** The specification's bound: a string that parses as an ISO calendar
    date, YYYY-MM-DD. *)
Definition iso_calendar_date (s : string) : option PyRuntime.datetime :=
  match list_ascii_of_string s with
  | [y1; y2; y3; y4; "-"%char; m1; m2; "-"%char; d1; d2] =>
      match num4 y1 y2 y3 y4, num2 m1 m2, num2 d1 d2 with
      | Some y, Some m, Some d => make_datetime y m d 0 0 0
      | _, _, _ => None
      end
  | _ => None
  end.

Lemma make_datetime_midnight y m d a :
  make_datetime y m d 0 0 0 = Some a ->
  microsecond_of_day a = 0 /\ utcoffset a = None.
Proof.
  unfold make_datetime. destruct (_ && _); [| discriminate].
  intros H. injection H as <-. split; reflexivity.
Qed.

Lemma calendar_date_midnight s a :
  iso_calendar_date s = Some a -> microsecond_of_day a = 0 /\ utcoffset a = None.
Proof.
  unfold iso_calendar_date. intros H.
  repeat match type of H with
         | match ?x with _ => _ end = _ => destruct x; try discriminate
         end;
    eapply make_datetime_midnight; exact H.
Qed.

Lemma timedelta_days_midnight a b :
  microsecond_of_day a = 0 -> utcoffset a = None ->
  microsecond_of_day b = 0 -> utcoffset b = None ->
  timedelta_days b a = Ok (ordinal b - ordinal a).
Proof.
  intros Ha Oa Hb Ob. unfold timedelta_days. rewrite Oa, Ob, Ha, Hb. f_equal.
  replace (ordinal b * microseconds_per_day + 0 - 0
           - (ordinal a * microseconds_per_day + 0 - 0))
    with ((ordinal b - ordinal a) * microseconds_per_day) by ring.
  apply Z.div_mul. discriminate.
Qed.

Section DateRange.
Context {interp : Interpreter}.

Lemma calendar_date_parses s a :
  iso_calendar_date s = Some a -> fromisoformat s = Some a.
Proof.
  unfold iso_calendar_date, fromisoformat. intros H.
  repeat match type of H with
         | match ?x with _ => _ end = _ => destruct x; try discriminate
         end;
    exact H.
Qed.

(** C5, as amended.  [validate_date_range] fails with the
    [InvalidInputError] that has no hint when [datetime.fromisoformat]
    rejects a bound.  For two bounds that are calendar dates it fails with
    the [InvalidInputError] that carries the hint exactly when the end is
    more than [max_days] days after the start, and succeeds otherwise; an
    end that is not after the start is accepted for every [max_days] that is
    not negative. *)
Theorem date_range_cases (start_str end_str : string) (max_days : Z) :
  (fromisoformat start_str = None \/ fromisoformat end_str = None ->
   validate_date_range start_str end_str max_days = Raise invalid_date_format) /\
  (forall a b,
     iso_calendar_date start_str = Some a ->
     iso_calendar_date end_str = Some b ->
     validate_date_range start_str end_str max_days
     = (if ordinal b - ordinal a >? max_days
        then Raise (range_exceeded max_days) else Ok tt)
     /\ (ordinal b <= ordinal a -> 0 <= max_days ->
         validate_date_range start_str end_str max_days = Ok tt)).
Proof.
  split.
  - unfold validate_date_range. intros [-> | H]; [reflexivity |].
    rewrite H. destruct (fromisoformat start_str); reflexivity.
  - intros a b Ha Hb.
    assert (E : validate_date_range start_str end_str max_days
                = (if ordinal b - ordinal a >? max_days
                   then Raise (range_exceeded max_days) else Ok tt)).
    { unfold validate_date_range.
      rewrite (calendar_date_parses _ _ Ha), (calendar_date_parses _ _ Hb).
      destruct (calendar_date_midnight _ _ Ha) as [Ma Oa].
      destruct (calendar_date_midnight _ _ Hb) as [Mb Ob].
      rewrite (timedelta_days_midnight a b Ma Oa Mb Ob). reflexivity. }
    split; [exact E |]. intros Hle Hmax. rewrite E.
    destruct (ordinal b - ordinal a >? max_days) eqn:G; [| reflexivity].
    apply Z.gtb_lt in G. lia.
Qed.

End DateRange.

Lemma date_range_cases_witness :
  @validate_date_range example_interpreter "2024-13-01" "2024-06-20" 31
  = Raise invalid_date_format /\
  @validate_date_range example_interpreter "2024-06-01" "2024-07-05" 31
  = Raise (range_exceeded 31) /\
  @validate_date_range example_interpreter "2024-06-01" "2024-06-20" 31 = Ok tt /\
  @validate_date_range example_interpreter "2024-06-20" "2024-06-01" 31 = Ok tt.
Proof.
  split; [| split; [| split]].
  - apply (proj1 (@date_range_cases example_interpreter
                    "2024-13-01" "2024-06-20" 31)).
    left. reflexivity.
  - rewrite (proj1 (proj2 (@date_range_cases example_interpreter
                             "2024-06-01" "2024-07-05" 31) _ _ eq_refl eq_refl)).
    reflexivity.
  - rewrite (proj1 (proj2 (@date_range_cases example_interpreter
                             "2024-06-01" "2024-06-20" 31) _ _ eq_refl eq_refl)).
    reflexivity.
  - apply (proj2 (proj2 (@date_range_cases example_interpreter
                           "2024-06-20" "2024-06-01" 31) _ _ eq_refl eq_refl)).
    + vm_compute. discriminate.
    + discriminate.
Defined.

(** C5 as stated fails: a bound with a time of day is not a calendar date,
    and the range it opens is accepted. *)
Lemma datetime_bound_accepted :
  iso_calendar_date "2024-06-01T10:00:00" = None /\
  @validate_date_range example_interpreter "2024-06-01T10:00:00" "2024-06-02" 31
  = Ok tt /\
  ~ (forall (interp : Interpreter) start_str end_str max_days,
       iso_calendar_date start_str = None \/ iso_calendar_date end_str = None ->
       validate_date_range start_str end_str max_days = Raise invalid_date_format).
Proof.
  split; [reflexivity |]. split; [reflexivity |]. intros H.
  specialize (H example_interpreter "2024-06-01T10:00:00" "2024-06-02" 31
                (or_introl eq_refl)).
  discriminate H.
Qed.

(* ================================================================== *)
(** * normalize_cheapest_summary_results                              *)
(* ================================================================== *)

Lemma bind_run_inv {A B : Type} (m : Py A) (k : A -> Py B) w b w' :
  bind m k w = (Ok b, w') ->
  exists a w1, m w = (Ok a, w1) /\ k a w1 = (Ok b, w').
Proof.
  unfold bind. destruct (m w) as [[a | e] w1]; intros H.
  - exists a, w1. split; [reflexivity | exact H].
  - discriminate.
Qed.

(** An entry that is kept. *)
Definition kept_entry (price_info : pyval) : bool := negb (no_data price_info).

(** [price_info.get("numberOfResults", 0)] *)
Definition results_of (price_info : pyval) : pyval :=
  match price_info with
  | PDict d => field_or d "numberOfResults" (PInt 0)
  | _ => PInt 0
  end.

(** The kept entries of one date. *)
Definition kept_of_date (modes_data : pyval) : list (string * pyval) :=
  match modes_data with
  | PDict modes => filter (fun item => kept_entry (snd item)) modes
  | _ => []
  end.

(** The kept [(date, mode)] pairs of the payload, with their entries. *)
Definition kept_pairs (dates : list (string * pyval)) : list (string * (string * pyval)) :=
  flat_map (fun item => map (pair (fst item)) (kept_of_date (snd item))) dates.

(** The dates whose value is a dictionary. *)
Definition dict_dates (dates : list (string * pyval)) : list (string * pyval) :=
  filter (fun item => is_dict (snd item)) dates.

(** The dates with at least one kept entry. *)
Definition dates_with_data (dates : list (string * pyval)) : list (string * pyval) :=
  filter (fun item => match kept_of_date (snd item) with [] => false | _ :: _ => true end)
         dates.

(** The sum of numberOfResults over a list of entries, from [start]. *)
Definition sum_results {K : Type} (entries : list (K * pyval)) (start : num) : outcome num :=
  ofold num_add (map (fun item => results_of (snd item)) entries) start.

Lemma ofold_app {A S : Type} (f : S -> A -> outcome S) (l1 l2 : list A) (a : S) :
  ofold f (l1 ++ l2) a = obind (ofold f l1 a) (ofold f l2).
Proof.
  revert a. induction l1 as [| x l1 IH]; intros a; simpl; [reflexivity |].
  destruct (f a x); simpl; [apply IH | reflexivity].
Qed.

(** [v] is an integer (or a boolean, which is one). *)
Definition is_integer (v : pyval) : bool :=
  match as_num v with
  | Some (NInt _) => true
  | _ => false
  end.

Definition is_int_total (a : num) : bool :=
  match a with
  | NInt _ => true
  | NFloat _ => false
  end.

(** The running totals are integers. *)
Definition integer_totals (st : CheapestStats) : bool :=
  is_int_total (total_results st)
  && forallb (fun kv => is_int_total (ms_total_results (snd kv))) (by_mode st).

(** Both extremes have been set. *)
Definition priced (st : CheapestStats) : bool :=
  match min_price_overall st, max_price_overall st with
  | Some _, Some _ => true
  | _, _ => false
  end.

Lemma num_add_integer a v :
  is_int_total a = true -> is_integer v = true ->
  exists k, num_add a v = Ok (NInt k).
Proof.
  unfold is_integer, num_add. destruct a; [| discriminate]. intros _.
  destruct (as_num v) as [[m | x] |]; try discriminate. intros _.
  eexists. reflexivity.
Qed.

Lemma lookup_forallb {A : Type} (P : string * A -> bool) (Q : A -> bool) k d v :
  (forall k' x, P (k', x) = Q x) ->
  forallb P d = true -> lookup k d = Some v -> Q v = true.
Proof.
  intros HPQ. induction d as [| [k' x] d IH]; simpl; [discriminate |].
  intros H L. apply andb_prop in H as [Hx Hd].
  destruct (String.eqb k k').
  - injection L as <-. rewrite <- (HPQ k'). exact Hx.
  - apply IH; assumption.
Qed.

Lemma assign_forallb {A : Type} (P : string * A -> bool) k v d :
  (forall k1 k2 x, P (k1, x) = P (k2, x)) ->
  P (k, v) = true -> forallb P d = true -> forallb P (assign k v d) = true.
Proof.
  intros Hk Hv. induction d as [| [k' x] d IH]; simpl; intros H.
  - rewrite Hv. reflexivity.
  - apply andb_prop in H as [Hx Hd]. destruct (String.eqb k k'); simpl.
    + rewrite Hv, Hd. reflexivity.
    + rewrite Hx, (IH Hd). reflexivity.
Qed.

Lemma record_price_returns date mode x n st :
  integer_totals st = true -> is_integer n = true ->
  exists st', record_price date mode x n st = Ok st'
              /\ integer_totals st' = true /\ priced st' = true.
Proof.
  unfold integer_totals. intros H Hn. apply andb_prop in H as [Ht Hm].
  unfold record_price.
  destruct (num_add_integer _ _ Ht Hn) as [k ->]. cbn [obind].
  set (per_mode := match lookup mode (by_mode st) with
                   | Some ms => ms
                   | None => initial_mode_stats
                   end).
  assert (Hp : is_int_total (ms_total_results per_mode) = true).
  { unfold per_mode. destruct (lookup mode (by_mode st)) as [ms |] eqn:L;
      [| reflexivity].
    apply (lookup_forallb (fun kv => is_int_total (ms_total_results (snd kv)))
             (fun ms => is_int_total (ms_total_results ms)) mode (by_mode st) ms);
      [reflexivity | exact Hm | exact L]. }
  destruct (num_add_integer _ _ Hp Hn) as [j ->]. cbn [obind].
  eexists. split; [reflexivity |]. split.
  - cbn [total_results by_mode is_int_total andb].
    apply assign_forallb; [reflexivity | reflexivity | exact Hm].
  - unfold priced. cbn [min_price_overall max_price_overall].
    unfold below, above.
    destruct (min_price_overall st) as [lo |], (max_price_overall st) as [hi |];
      repeat match goal with |- context [SFltb ?a ?b] => destruct (SFltb a b) end;
      reflexivity.
Qed.

Section CheapestSummary.
Context {interp : Interpreter}.

Definition mode_rel (acc : CheapestStats * list (string * PriceEntry))
  (item : string * pyval) (acc' : CheapestStats * list (string * PriceEntry)) : Prop :=
  if kept_entry (snd item) then
    total_dates (fst acc') = total_dates (fst acc)
    /\ total_modes (fst acc') = total_modes (fst acc) + 1
    /\ num_add (total_results (fst acc)) (results_of (snd item))
       = Ok (total_results (fst acc'))
    /\ has_key (fst item) (snd acc') = true
  else acc' = acc.

Lemma has_key_assign {A : Type} k (v : A) d : has_key k (assign k v d) = true.
Proof.
  unfold has_key. induction d as [| [k' v'] d IH]; simpl.
  - rewrite String.eqb_refl. reflexivity.
  - destruct (String.eqb k k') eqn:E; simpl.
    + rewrite String.eqb_refl. reflexivity.
    + rewrite E. exact IH.
Qed.

Lemma record_price_ok date mode x n st st' :
  record_price date mode x n st = Ok st' ->
  total_dates st' = total_dates st
  /\ total_modes st' = total_modes st + 1
  /\ num_add (total_results st) n = Ok (total_results st').
Proof.
  unfold record_price. destruct (num_add (total_results st) n) as [tot |]; [| discriminate].
  cbn [obind].
  destruct (num_add _ n) as [mt |]; [| discriminate].
  cbn [obind]. intros H. injection H as <-. cbn. auto.
Qed.

Lemma mode_body_step currency date acc item w acc' w' :
  cheapest_mode_body currency date acc item w = (Ok acc', w') ->
  mode_rel acc item acc'.
Proof.
  destruct acc as [st dp], item as [mode info]. unfold mode_rel, kept_entry. cbn [snd fst].
  unfold cheapest_mode_body.
  destruct info as [| | | | | | d]; cbn [is_dict negb no_data];
    try (unfold ret; intros H; injection H as <- _; reflexivity).
  rewrite py_get_dict, !py_get_default_dict. run.
  destruct (py_eq_int (field_or d "priceCents" (PInt 0)) 0
            || py_eq_int (field_or d "numberOfResults" (PInt 0)) 0).
  - run. unfold ret. intros H. injection H as <- _. reflexivity.
  - cbn [negb].
    destruct (py_float (field_or d "priceCents" (PInt 0))) as [x |]; [| discriminate].
    run.
    destruct (record_price date mode (cents_to_units x)
                (field_or d "numberOfResults" (PInt 0)) st) as [st1 |] eqn:R;
      [| discriminate].
    run. unfold ret. intros H. injection H as <- _. cbn [fst snd results_of].
    destruct (record_price_ok _ _ _ _ _ _ R) as (H1 & H2 & H3).
    repeat split; try assumption. apply has_key_assign.
Qed.

Lemma mode_steps acc entries final :
  steps mode_rel acc entries final ->
  total_dates (fst final) = total_dates (fst acc)
  /\ total_modes (fst final)
     = total_modes (fst acc)
       + Z.of_nat (List.length (filter (fun item => kept_entry (snd item)) entries))
  /\ sum_results (filter (fun item => kept_entry (snd item)) entries)
       (total_results (fst acc)) = Ok (total_results (fst final)).
Proof.
  unfold sum_results.
  induction 1 as [acc | acc x mid rest final Hstep _ IH]; simpl.
  - repeat split; try lia.
  - unfold mode_rel in Hstep. destruct (kept_entry (snd x)).
    + destruct Hstep as (H1 & H2 & H3 & _). destruct IH as (I1 & I2 & I3).
      cbn [map ofold List.length]. rewrite H3. cbn [obind].
      rewrite Nat2Z.inj_succ. repeat split; try lia; try congruence.
    + subst mid. exact IH.
Qed.

Definition date_rel (acc : CheapestStats * list (string * list (string * PriceEntry)))
  (item : string * pyval)
  (acc' : CheapestStats * list (string * list (string * PriceEntry))) : Prop :=
  if is_dict (snd item) then
    total_dates (fst acc') = total_dates (fst acc) + 1
    /\ total_modes (fst acc')
       = total_modes (fst acc) + Z.of_nat (List.length (kept_of_date (snd item)))
    /\ sum_results (kept_of_date (snd item)) (total_results (fst acc))
       = Ok (total_results (fst acc'))
  else acc' = acc.

Lemma date_body_step currency acc item w acc' w' :
  cheapest_date_body currency acc item w = (Ok acc', w') ->
  date_rel acc item acc'.
Proof.
  destruct acc as [st summ], item as [date md]. unfold date_rel. cbn [snd fst].
  unfold cheapest_date_body.
  destruct md as [| | | | | | modes]; cbn [is_dict negb];
    try (rewrite run_log; unfold ret; intros H; injection H as <- _; reflexivity).
  run. intros H. apply bind_run_inv in H as ([st1 dp] & w1 & Hloop & H).
  unfold ret in H. injection H as <- _. cbn [fst].
  apply (for_each_steps _ mode_rel (mode_body_step currency date)) in Hloop.
  apply mode_steps in Hloop. cbn [fst total_dates total_modes total_results] in Hloop.
  exact Hloop.
Qed.

Lemma map_snd_pair {A B : Type} (a : A) (l : list B) : map snd (map (pair a) l) = l.
Proof. induction l as [| x l IH]; simpl; [reflexivity | rewrite IH; reflexivity]. Qed.

Lemma kept_pairs_cons item rest :
  kept_pairs (item :: rest)
  = map (pair (fst item)) (kept_of_date (snd item)) ++ kept_pairs rest.
Proof. reflexivity. Qed.

Lemma date_steps acc dates final :
  steps date_rel acc dates final ->
  total_dates (fst final)
  = total_dates (fst acc) + Z.of_nat (List.length (dict_dates dates))
  /\ total_modes (fst final)
     = total_modes (fst acc) + Z.of_nat (List.length (kept_pairs dates))
  /\ sum_results (map snd (kept_pairs dates)) (total_results (fst acc))
     = Ok (total_results (fst final)).
Proof.
  induction 1 as [acc | acc x mid rest final Hstep _ IH].
  - cbn. repeat split; lia.
  - rewrite kept_pairs_cons. unfold dict_dates in *. cbn [filter].
    unfold date_rel in Hstep. destruct (is_dict (snd x)) eqn:D.
    + destruct Hstep as (H1 & H2 & H3). destruct IH as (I1 & I2 & I3).
      rewrite map_app, map_snd_pair, length_app, length_map.
      unfold sum_results in *. rewrite map_app, ofold_app, H3. cbn [obind List.length].
      rewrite Nat2Z.inj_succ, Nat2Z.inj_add. repeat split; try lia. exact I3.
    + subst mid. destruct x as [date md]. cbn [snd fst] in *.
      destruct md; try discriminate; cbn [kept_of_date map app]; exact IH.
Qed.

Lemma mode_body_rule currency date acc mode info w acc' w' :
  cheapest_mode_body currency date acc (mode, info) w = (Ok acc', w') ->
  if no_data info then acc' = acc
  else total_modes (fst acc') = total_modes (fst acc) + 1
       /\ has_key mode (snd acc') = true.
Proof.
  intros H. apply mode_body_step in H. unfold mode_rel, kept_entry in H.
  cbn [fst snd] in H. destruct (no_data info); cbn [negb] in H.
  - exact H.
  - destruct H as (_ & H2 & _ & H4). split; assumption.
Qed.

(** An entry the loop can handle: it is skipped, or its priceCents converts
    to a float and its numberOfResults is an integer. *)
Definition countable_entry (price_info : pyval) : bool :=
  no_data price_info
  || match price_info with
     | PDict d =>
         is_ok (py_float (field_or d "priceCents" (PInt 0)))
         && is_integer (field_or d "numberOfResults" (PInt 0))
     | _ => false
     end.

Definition countable_date (modes_data : pyval) : bool :=
  match modes_data with
  | PDict modes => forallb (fun item => countable_entry (snd item)) modes
  | _ => true
  end.

Lemma mode_body_returns currency date acc item w :
  countable_entry (snd item) = true ->
  integer_totals (fst acc) = true ->
  exists acc' w',
    cheapest_mode_body currency date acc item w = (Ok acc', w')
    /\ integer_totals (fst acc') = true
    /\ (priced (fst acc) || kept_entry (snd item) = true ->
        priced (fst acc') = true).
Proof.
  destruct acc as [st dp], item as [mode info]. cbn [fst snd].
  intros Hc Hi. unfold countable_entry in Hc. unfold kept_entry.
  destruct (no_data info) eqn:N.
  - destruct (no_data_body currency date (st, dp) (mode, info) w N) as [w' E].
    exists (st, dp), w'. split; [exact E |]. split; [exact Hi |].
    cbn [fst negb]. rewrite orb_false_r. auto.
  - cbn [orb] in Hc. destruct info as [| | | | | | d]; try discriminate.
    apply andb_prop in Hc as [Hf Hn].
    unfold cheapest_mode_body. cbn [is_dict negb].
    rewrite py_get_dict, !py_get_default_dict. run.
    simpl in N. rewrite N.
    destruct (py_float (field_or d "priceCents" (PInt 0))) as [x |];
      [| discriminate].
    run.
    destruct (record_price_returns date mode (cents_to_units x)
                (field_or d "numberOfResults" (PInt 0)) st Hi Hn)
      as (st' & -> & Hi' & Hp').
    run. eexists _, _. split; [reflexivity |]. cbn [fst]. auto.
Qed.

Lemma mode_loop_returns currency date entries : forall acc w,
  forallb (fun item => countable_entry (snd item)) entries = true ->
  integer_totals (fst acc) = true ->
  exists acc' w',
    for_each entries (cheapest_mode_body currency date) acc w = (Ok acc', w')
    /\ integer_totals (fst acc') = true
    /\ (priced (fst acc) || existsb (fun item => kept_entry (snd item)) entries = true ->
        priced (fst acc') = true).
Proof.
  induction entries as [| item rest IH]; intros acc w Hall Hi.
  - exists acc, w. split; [reflexivity |]. split; [exact Hi |].
    cbn [existsb]. rewrite orb_false_r. auto.
  - cbn [forallb] in Hall. apply andb_prop in Hall as [Hitem Hrest].
    destruct (mode_body_returns currency date acc item w Hitem Hi)
      as (mid & w1 & E & Hi1 & Hp1).
    destruct (IH mid w1 Hrest Hi1) as (acc' & w' & E' & Hi' & Hp').
    exists acc', w'. split.
    + cbn [for_each]. unfold bind. rewrite E. exact E'.
    + split; [exact Hi' |]. intros H. apply Hp'. cbn [existsb] in H.
      destruct (priced (fst mid)) eqn:P; [reflexivity |].
      destruct (priced (fst acc)); [discriminate (Hp1 eq_refl) |].
      destruct (kept_entry (snd item)); [discriminate (Hp1 eq_refl) |].
      exact H.
Qed.

Lemma existsb_as_filter {A : Type} (f : A -> bool) (l : list A) :
  existsb f l = match filter f l with [] => false | _ :: _ => true end.
Proof.
  induction l as [| x l IH]; simpl; [reflexivity |].
  destruct (f x); [reflexivity | exact IH].
Qed.

Lemma date_body_returns currency acc item w :
  countable_date (snd item) = true ->
  integer_totals (fst acc) = true ->
  exists acc' w',
    cheapest_date_body currency acc item w = (Ok acc', w')
    /\ integer_totals (fst acc') = true
    /\ (priced (fst acc) = true \/ kept_of_date (snd item) <> [] ->
        priced (fst acc') = true).
Proof.
  destruct acc as [st summ], item as [date md]. cbn [fst snd]. intros Hc Hi.
  unfold cheapest_date_body.
  destruct md as [| | | | | | modes]; cbn [is_dict negb kept_of_date];
    try (rewrite run_log; eexists _, _; split; [reflexivity |];
         split; [exact Hi |]; intros [H | H]; [exact H | congruence]).
  run. unfold bind at 1.
  match goal with
  | |- context [for_each modes ?b ?a ?u] =>
      destruct (mode_loop_returns currency date modes a u Hc Hi)
        as ([st' dp] & w' & -> & Hi' & Hp')
  end.
  eexists _, _. split; [reflexivity |]. cbn [fst] in *. split; [exact Hi' |].
  intros H. apply Hp'. rewrite existsb_as_filter.
  change (priced _) with (priced st).
  destruct H as [-> | H]; [reflexivity |].
  destruct (filter _ modes); [congruence | apply orb_true_r].
Qed.

Lemma date_loop_returns currency dates : forall acc w,
  Forall (fun item => countable_date (snd item) = true) dates ->
  integer_totals (fst acc) = true ->
  exists acc' w',
    for_each dates (cheapest_date_body currency) acc w = (Ok acc', w')
    /\ (priced (fst acc) = true \/ kept_pairs dates <> [] ->
        priced (fst acc') = true).
Proof.
  induction dates as [| item rest IH]; intros acc w Hall Hi.
  - exists acc, w. split; [reflexivity |].
    intros [H | H]; [exact H | exfalso; apply H; reflexivity].
  - inversion Hall as [| ? ? Hitem Hrest]; subst.
    destruct (date_body_returns currency acc item w Hitem Hi)
      as (mid & w1 & E & Hi1 & Hp1).
    destruct (IH mid w1 Hrest Hi1) as (acc' & w' & E' & Hp').
    exists acc', w'. split.
    + cbn [for_each]. unfold bind. rewrite E. exact E'.
    + intros H. apply Hp'. rewrite kept_pairs_cons in H.
      destruct H as [H | H]; [left; apply Hp1; left; exact H |].
      destruct (kept_of_date (snd item)) eqn:K.
      * right. exact H.
      * left. apply Hp1. right. discriminate.
Qed.

Lemma cheapest_summary_returns entries dates currency w :
  lookup "data" entries = Some (PDict dates) ->
  Forall (fun item => countable_date (snd item) = true) dates ->
  kept_pairs dates <> [] ->
  exists result st,
    result_of (normalize_cheapest_summary_results (PDict entries) currency w)
    = Ok (result, st).
Proof.
  intros Hd Hall Hk. unfold normalize_cheapest_summary_results.
  rewrite py_get_dict, py_get_default_dict. unfold field_or. rewrite Hd.
  destruct dates as [| item rest]; [exfalso; apply Hk; reflexivity |].
  run. unfold bind at 1.
  assert (L : forall u, exists u',
             (if truthy (field entries "errors")
              then log WARNING "[Normalizer] API returned errors"
              else ret tt) u = (Ok tt, u')).
  { intros u. destruct (truthy (field entries "errors")); eexists; reflexivity. }
  match goal with
  | |- context [(if _ then _ else _) ?u] => destruct (L u) as [u' ->]
  end.
  run. unfold bind at 1.
  match goal with
  | |- context [for_each ?xs ?b ?a ?u] =>
      destruct (date_loop_returns currency xs a u Hall eq_refl)
        as ([st summ] & u'' & -> & Hp)
  end.
  cbn [fst] in Hp. specialize (Hp (or_intror Hk)). unfold priced in Hp.
  cbv beta iota.
  destruct (min_price_overall st); [| discriminate].
  destruct (max_price_overall st); [| discriminate].
  cbn [format_2f]. run.
  destruct (cheapest_date st) as [cd |], (cheapest_mode st) as [cm |];
    try (eexists _, _; reflexivity).
  destruct (negb (str_is_empty cd) && negb (str_is_empty cm));
    eexists _, _; reflexivity.
Qed.

(** C6, as amended.  In the loop of [normalize_cheapest_summary_results]
    an entry is skipped, the statistics and the date's prices staying as
    they are, exactly when it is not a dictionary or its priceCents is 0 or
    its numberOfResults is 0 (an absent field counting as 0); a kept entry is
    counted and recorded under its mode.  The call returns when an entry is
    kept and every kept entry has a priceCents that converts to a float and
    an integer numberOfResults.  When the call returns, total_dates is the
    number of dates whose value is a dictionary, whether or not one of their
    entries is kept, total_modes is the number of kept (date, mode) pairs,
    and total_results is the sum of numberOfResults over the kept pairs. *)
Theorem cheapest_summary_stats (entries dates : list (string * pyval))
  (currency : string) (w : world) :
  lookup "data" entries = Some (PDict dates) ->
  (Forall (fun item => countable_date (snd item) = true) dates ->
   kept_pairs dates <> [] ->
   exists result st,
     result_of (normalize_cheapest_summary_results (PDict entries) currency w)
     = Ok (result, st)) /\
  (forall result st,
     result_of (normalize_cheapest_summary_results (PDict entries) currency w)
     = Ok (result, st) ->
     total_dates st = Z.of_nat (List.length (dict_dates dates))
     /\ total_modes st = Z.of_nat (List.length (kept_pairs dates))
     /\ sum_results (map snd (kept_pairs dates)) (NInt 0)
        = Ok (total_results st)) /\
  (forall date acc mode info w0 acc' w',
     cheapest_mode_body currency date acc (mode, info) w0 = (Ok acc', w') ->
     if no_data info then acc' = acc
     else total_modes (fst acc') = total_modes (fst acc) + 1
          /\ has_key mode (snd acc') = true).
Proof.
  intros Hd. split; [| split].
  - intros Hall Hk. exact (cheapest_summary_returns _ _ _ _ Hd Hall Hk).
  - intros result st H.
    unfold normalize_cheapest_summary_results in H.
    rewrite py_get_dict, py_get_default_dict in H. unfold field_or in H.
    rewrite Hd in H. revert H. run. intros H.
    apply bind_ok_inv in H as (? & w1 & _ & H).
    destruct dates as [| item rest].
    + revert H. run. unfold ret, result_of. cbn [fst]. intros H.
      injection H as _ <-. repeat split.
    + revert H. run. intros H.
      apply bind_ok_inv in H as ([st1 summ] & w2 & Hloop & H).
      apply (for_each_steps _ date_rel (date_body_step currency)) in Hloop.
      apply date_steps in Hloop.
      cbn [fst initial_stats total_dates total_modes total_results] in Hloop.
      apply bind_ok_inv in H as (? & w3 & _ & H).
      apply bind_ok_inv in H as (? & w4 & _ & H).
      apply bind_ok_inv in H as (? & w5 & _ & H).
      apply bind_ok_inv in H as (? & w6 & _ & H).
      unfold ret, result_of in H. cbn [fst] in H. injection H as _ <-.
      exact Hloop.
  - intros date acc mode info w0 acc' w'. apply mode_body_rule.
Qed.

End CheapestSummary.

(** Two dates: the first has one entry and it is skipped, the second has
    two entries and both are kept. *)
Definition mixed_dates : list (string * pyval) :=
  [("2024-06-01",
    PDict [("bus", PDict [("priceCents", PInt 0); ("numberOfResults", PInt 0)])]);
   ("2024-06-02",
    PDict [("bus", PDict [("priceCents", PInt 1500); ("numberOfResults", PInt 3)]);
           ("train", PDict [("priceCents", PInt 1200);
                            ("numberOfResults", PInt 2)])])].

Definition mixed_summary : list (string * pyval) := [("data", PDict mixed_dates)].

Lemma cheapest_summary_stats_witness :
  Forall (fun item => @countable_date example_interpreter (snd item) = true)
         mixed_dates /\
  exists result st,
    result_of (@normalize_cheapest_summary_results example_interpreter
                 (PDict mixed_summary) "EUR" fresh_world) = Ok (result, st)
    /\ total_dates st = 2 /\ total_modes st = 2
    /\ total_results st = NInt 5.
Proof.
  split; [repeat constructor |].
  destruct (@cheapest_summary_stats example_interpreter mixed_summary mixed_dates
              "EUR" fresh_world eq_refl) as (Hreturns & Hstats & _).
  destruct Hreturns as (result & st & Hrun); [repeat constructor | discriminate |].
  exists result, st. split; [exact Hrun |].
  destruct (Hstats result st Hrun) as (H1 & H2 & H3).
  split; [exact H1 |]. split; [exact H2 |].
  change (Ok (NInt 5) = Ok (total_results st)) in H3. congruence.
Defined.

(** C6 as stated fails: of the two dates only one has a kept entry, and
    total_dates is 2. *)
Lemma total_dates_counts_empty_dates :
  obind (result_of (@normalize_cheapest_summary_results example_interpreter
                      (PDict mixed_summary) "EUR" fresh_world))
    (fun r => Ok (total_dates (snd r))) = Ok 2 /\
  Z.of_nat (List.length (dates_with_data mixed_dates)) = 1 /\
  ~ (forall (interp : Interpreter) entries dates currency w result st,
       lookup "data" entries = Some (PDict dates) ->
       result_of (normalize_cheapest_summary_results (PDict entries) currency w)
       = Ok (result, st) ->
       total_dates st = Z.of_nat (List.length (dates_with_data dates))).
Proof.
  split; [vm_compute; reflexivity |]. split; [reflexivity |]. intros H.
  assert (E : exists result st,
             result_of (@normalize_cheapest_summary_results example_interpreter
                          (PDict mixed_summary) "EUR" fresh_world)
             = Ok (result, st) /\ total_dates st = 2).
  { eexists _, _. split; [vm_compute; reflexivity | reflexivity]. }
  destruct E as (result & st & Hrun & Hdates).
  specialize (H example_interpreter mixed_summary mixed_dates "EUR" fresh_world
                result st eq_refl Hrun).
  rewrite Hdates in H. discriminate H.
Qed.

(* ================================================================== *)
(** * Further properties of normalize_positions                       *)
(* ================================================================== *)

(** The text of an optional string field, as a payload value. *)
Definition opt_text (o : option string) : pyval :=
  match o with
  | Some s => PStr s
  | None => PNone
  end.

Lemma kept_position_fields pos p :
  verdict_of pos = Kept p ->
  exists d, pos = PDict d
            /\ truthy (first_name d) = true
            /\ first_name d = PStr (name p)
            /\ type_or_unknown d = PStr (type p)
            /\ field d "countryCode" = opt_text (country_code p).
Proof.
  unfold verdict_of. destruct (skip_rule pos) eqn:R; [discriminate |].
  destruct pos as [| | | | | | d]; try discriminate.
  unfold skip_rule in R.
  apply orb_false_elim in R as [R _]. apply orb_false_elim in R as [_ Hname].
  apply negb_false_iff in Hname.
  destruct (py_int (field d "positionId")) as [n |]; [| discriminate].
  unfold make_Position.
  destruct (first_name d) as [| | | | s | |] eqn:N; try discriminate.
  destruct (type_or_unknown d) as [| | | | t | |] eqn:T; try discriminate.
  destruct (field d "countryCode") as [| | | | c | |] eqn:C; try discriminate;
    simpl; intros H; injection H as <-; exists d; rewrite N, T, C;
    repeat split; (assumption || reflexivity).
Qed.

(** X1.  Every position that [normalize_positions] returns has a name that
    is not empty: the first of displayName, defaultName and name that holds
    a value in its record.  Its type is the record's type, ["unknown"] when
    the record has none, and its country code is the record's countryCode,
    absent when the record has none. *)
Theorem normalize_positions_fields (raw : list pyval) (w : world)
  (positions : list Position) :
  result_of (normalize_positions (PList raw) w) = Ok positions ->
  Forall (fun p =>
            name p <> ""
            /\ exists d, In (PDict d) raw
                         /\ first_name d = PStr (name p)
                         /\ type_or_unknown d = PStr (type p)
                         /\ field d "countryCode" = opt_text (country_code p))
         positions.
Proof.
  rewrite normalize_positions_result.
  destruct (first_failure raw); [discriminate |]. intros H. injection H as <-.
  apply Forall_forall. intros p Hp. unfold kept_positions in Hp.
  apply in_flat_map in Hp as (pos & Hin & Hk).
  destruct (verdict_of pos) as [| q |] eqn:V; try (destruct Hk; fail).
  destruct Hk as [<- | []].
  destruct (kept_position_fields pos q V) as (d & -> & Ht & Hn & Hty & Hc).
  split.
  - intros E. rewrite Hn, E in Ht. discriminate.
  - exists d. repeat split; assumption.
Qed.

Lemma normalize_positions_fields_witness :
  result_of (normalize_positions (PList sample_positions) fresh_world)
  = Ok [{| id := 7; name := "Berlin Hbf"; type := "station"; country_code := None |};
        {| id := 12; name := "Paris"; type := "unknown"; country_code := Some "FR" |}] /\
  Forall (fun p =>
            name p <> ""
            /\ exists d, In (PDict d) sample_positions
                         /\ first_name d = PStr (name p)
                         /\ type_or_unknown d = PStr (type p)
                         /\ field d "countryCode" = opt_text (country_code p))
         [{| id := 7; name := "Berlin Hbf"; type := "station"; country_code := None |};
          {| id := 12; name := "Paris"; type := "unknown"; country_code := Some "FR" |}].
Proof.
  split; [reflexivity |].
  apply (normalize_positions_fields sample_positions fresh_world). reflexivity.
Defined.

Lemma first_failure_app xs ys :
  first_failure (xs ++ ys)
  = match first_failure xs with
    | Some e => Some e
    | None => first_failure ys
    end.
Proof.
  induction xs as [| x xs IH]; simpl; [reflexivity |].
  destruct (verdict_of x); try exact IH. reflexivity.
Qed.

Lemma kept_positions_app xs ys :
  kept_positions (xs ++ ys) = kept_positions xs ++ kept_positions ys.
Proof. unfold kept_positions. apply flat_map_app. Qed.

(** X2.  [normalize_positions] distributes over concatenation: the call on
    two lists put end to end returns the two results put end to end when the
    two calls return, and raises what the first of them to raise does. *)
Theorem normalize_positions_app (xs ys : list pyval) (w : world) :
  result_of (normalize_positions (PList (xs ++ ys)) w)
  = match result_of (normalize_positions (PList xs) w) with
    | Ok ps =>
        match result_of (normalize_positions (PList ys) w) with
        | Ok qs => Ok (ps ++ qs)
        | Raise e => Raise e
        end
    | Raise e => Raise e
    end.
Proof.
  rewrite !normalize_positions_result, first_failure_app, kept_positions_app.
  destruct (first_failure xs); [reflexivity |].
  destruct (first_failure ys); reflexivity.
Qed.

Lemma first_failure_found before bad rest e :
  first_failure before = None -> verdict_of bad = Fails e ->
  first_failure (before ++ bad :: rest) = Some e.
Proof.
  intros Hb Hv. rewrite first_failure_app, Hb. simpl. rewrite Hv. reflexivity.
Qed.

(** A record that is a number or a boolean and is not zero. *)
Definition scalar_record (pos : pyval) : bool :=
  match pos with
  | PBool _ | PInt _ | PFloat _ => truthy pos
  | _ => false
  end.

(** X3.  One record can end the whole batch.  After any well-formed
    records, a record with a positionId that parses and a name that holds a
    value that is not text makes the call raise [ValidationError], and a
    record that is a non-zero number makes it raise [TypeError], whatever
    follows. *)
Theorem normalize_positions_aborts (before rest : list pyval) (w : world) :
  Forall (fun pos => wellformed_record pos = true) before ->
  (forall d n,
     has_key "positionId" d = true ->
     py_int (field d "positionId") = Ok n ->
     truthy (first_name d) = true -> is_str (first_name d) = false ->
     result_of (normalize_positions (PList (before ++ PDict d :: rest)) w)
     = Raise ValidationError) /\
  (forall pos,
     scalar_record pos = true ->
     result_of (normalize_positions (PList (before ++ pos :: rest)) w)
     = Raise TypeError).
Proof.
  intros Hb. apply wellformed_list_no_failure in Hb. split.
  - intros d n Hk Hi Ht Hs. rewrite normalize_positions_result.
    rewrite (first_failure_found before (PDict d) rest ValidationError Hb);
      [reflexivity |].
    unfold verdict_of, skip_rule, id_unparsable. rewrite Hk, Ht, Hi.
    destruct d as [| kv d']; [discriminate |]. cbn [truthy negb orb].
    unfold make_Position. destruct (first_name (kv :: d')); try discriminate;
      reflexivity.
  - intros pos Hs. rewrite normalize_positions_result.
    rewrite (first_failure_found before pos rest TypeError Hb); [reflexivity |].
    unfold verdict_of, skip_rule.
    destruct pos; try discriminate; simpl in Hs; cbn [truthy]; rewrite Hs;
      reflexivity.
Qed.

Definition numeric_name_record : list (string * pyval) :=
  [("positionId", PInt 3); ("name", PInt 5)].

Lemma normalize_positions_aborts_witness :
  result_of (normalize_positions
               (PList (sample_positions ++ [PDict numeric_name_record]))
               fresh_world)
  = Raise ValidationError /\
  result_of (normalize_positions (PList (sample_positions ++ [PInt 5; PDict []]))
               fresh_world)
  = Raise TypeError.
Proof.
  assert (W : Forall (fun pos => wellformed_record pos = true) sample_positions)
    by (repeat constructor).
  split.
  - apply (proj1 (normalize_positions_aborts sample_positions [] fresh_world W)
             numeric_name_record 3); reflexivity.
  - apply (proj2 (normalize_positions_aborts sample_positions [PDict []]
                    fresh_world W) (PInt 5)).
    reflexivity.
Defined.

(* ================================================================== *)
(** * Further properties of shape_day_results                         *)
(* ================================================================== *)

(** A comprehension whose element expression returns on every element
    returns. *)
Lemma ofold_returns {A S : Type} (f : S -> A -> outcome S) (good : A -> bool) :
  (forall acc x, good x = true -> exists a, f acc x = Ok a) ->
  forall xs acc, forallb good xs = true -> exists r, ofold f xs acc = Ok r.
Proof.
  intros Hf. induction xs as [| x rest IH]; intros acc Hall; simpl.
  - eexists. reflexivity.
  - simpl in Hall. apply andb_prop in Hall as [Hx Hrest].
    destruct (Hf acc x Hx) as [a ->]. simpl. apply IH. exact Hrest.
Qed.

(** A list whose elements are all dictionaries. *)
Definition list_of_dicts (v : pyval) : bool :=
  match v with
  | PList items => forallb is_dict items
  | _ => false
  end.

(** A value that [for ... in (v or [])] can go through. *)
Definition iterable_or_empty (v : pyval) : bool :=
  is_ok (py_iter (py_or v (PList []))).

(** The lookup tables of a day-results payload can be built: carriers,
    positions and segments are lists of dictionaries where present, and the
    three schedule entries are lists or hold no value. *)
Definition tables_wellformed (top : list (string * pyval)) : bool :=
  list_of_dicts (field_or top "carriers" (PList []))
  && list_of_dicts (field_or top "positions" (PList []))
  && list_of_dicts (field_or top "segments" (PList []))
  && forallb (fun key => iterable_or_empty (field_or top key (PList [])))
       schedule_keys.

(** The string ids of a schedule that the segment table knows, in order. *)
Definition known_ids (segments_map : list (string * pyval)) (sids : list pyval)
  : list string :=
  flat_map (fun sid => match sid with
                       | PStr s => if has_key s segments_map then [s] else []
                       | _ => []
                       end) sids.

(** A value that can be looked up in a dictionary. *)
Definition hashable (v : pyval) : bool :=
  match v with
  | PList _ | PDict _ => false
  | _ => true
  end.

Section ShapeDayResultsTables.
Context {interp : Interpreter}.

Lemma carriers_map_builds top :
  list_of_dicts (field_or top "carriers" (PList [])) = true ->
  exists cm, build_carriers_map (PDict top) = Ok cm.
Proof.
  intros H. unfold build_carriers_map. rewrite py_get_default_dict. cbn [obind].
  destruct (field_or top "carriers" (PList [])) as [| | | | | items |];
    try discriminate.
  cbn [py_iter obind]. apply (ofold_returns _ is_dict); [| exact H].
  intros acc c Hc. destruct c as [| | | | | | d]; try discriminate.
  rewrite !py_get_dict. cbn [obind]. unfold or_else.
  destruct (truthy (field d "name")); [eexists; reflexivity |].
  cbn [obind]. destruct (truthy (field d "code")); eexists; reflexivity.
Qed.

Lemma positions_map_builds top :
  list_of_dicts (field_or top "positions" (PList [])) = true ->
  exists pm, build_positions_map (PDict top) = Ok pm.
Proof.
  intros H. unfold build_positions_map. rewrite py_get_default_dict. cbn [obind].
  destruct (field_or top "positions" (PList [])) as [| | | | | items |];
    try discriminate.
  cbn [py_iter obind]. apply (ofold_returns _ is_dict); [| exact H].
  intros acc c Hc. destruct c as [| | | | | | d]; try discriminate.
  rewrite !py_get_dict. cbn [obind]. unfold or_else.
  destruct (truthy (field d "name")); eexists; reflexivity.
Qed.

Lemma segments_map_builds top :
  list_of_dicts (field_or top "segments" (PList [])) = true ->
  exists sm, build_segments_map (PDict top) = Ok sm.
Proof.
  intros H. unfold build_segments_map. rewrite py_get_default_dict. cbn [obind].
  destruct (field_or top "segments" (PList [])) as [| | | | | items |];
    try discriminate.
  cbn [py_iter obind]. apply (ofold_returns _ is_dict); [| exact H].
  intros acc c Hc. destruct c as [| | | | | | d]; try discriminate.
  rewrite !py_get_dict. cbn [obind]. eexists; reflexivity.
Qed.

Lemma schedules_collect top :
  forallb (fun key => iterable_or_empty (field_or top key (PList [])))
    schedule_keys = true ->
  exists all, collect_schedules (PDict top) = Ok all.
Proof.
  intros H. unfold collect_schedules.
  apply (ofold_returns _ (fun key =>
           iterable_or_empty (field_or top key (PList [])))); [| exact H].
  intros acc key Hk. rewrite py_get_default_dict. cbn [obind].
  unfold iterable_or_empty in Hk.
  destruct (py_iter (py_or (field_or top key (PList [])) (PList [])));
    [eexists; reflexivity | discriminate].
Qed.

Lemma itineraries_bounded raw_data cm pm sm all :
  (List.length (itineraries_of raw_data cm pm sm all) <= List.length all)%nat.
Proof.
  unfold itineraries_of.
  induction all as [| sched rest IH]; [apply Nat.le_refl |].
  cbn [flat_map].
  destruct (shaped_of raw_data cm pm sm sched); cbn [app List.length]; lia.
Qed.

(** X4.  No schedule can make [shape_day_results] raise.  On a payload
    whose lookup tables can be built the call returns, with at most one
    itinerary per schedule.  The error count of its last log line is the
    number of all the schedules, not of those that failed: a schedule that
    shapes is appended and then counted as an error too, because the debug
    line after the append asks the itinerary for [priceFrom], which is an
    alias and no attribute of the instance. *)
Theorem shape_day_results_isolated (top : list (string * pyval)) (w : world) :
  tables_wellformed top = true ->
  exists all shaped errors,
    collect_schedules (PDict top) = Ok all
    /\ result_of (shape_day_results_counted (PDict top) w) = Ok (shaped, errors)
    /\ result_of (shape_day_results (PDict top) w) = Ok shaped
    /\ errors = Z.of_nat (List.length all)
    /\ (List.length shaped <= List.length all)%nat.
Proof.
  unfold tables_wellformed. intros H.
  apply andb_prop in H as [H Hs]. apply andb_prop in H as [H Hseg].
  apply andb_prop in H as [Hc Hp].
  destruct (carriers_map_builds top Hc) as [cm Ecm].
  destruct (positions_map_builds top Hp) as [pm Epm].
  destruct (segments_map_builds top Hseg) as [sm Esm].
  destruct (schedules_collect top Hs) as [all Eall].
  exists all, (itineraries_of (PDict top) cm pm sm all),
    (Z.of_nat (List.length all)).
  split; [exact Eall |]. split; [| split; [| split]].
  - rewrite shape_day_results_counted_result, Ecm, Epm, Esm, Eall. reflexivity.
  - rewrite shape_day_results_result, Ecm, Epm, Esm, Eall. reflexivity.
  - reflexivity.
  - apply itineraries_bounded.
Qed.

Lemma known_ids_fold sm sids : forall acc,
  forallb hashable sids = true ->
  ofold (fun acc sid =>
           obind (dict_contains sm sid) (fun known =>
           Ok (if known then acc ++ [py_str sid] else acc)))
        sids acc
  = Ok (acc ++ known_ids sm sids).
Proof.
  unfold known_ids.
  induction sids as [| sid rest IH]; intros acc H; simpl.
  - rewrite app_nil_r. reflexivity.
  - simpl in H. apply andb_prop in H as [Hsid Hrest].
    destruct sid as [| b | n | x | s | l | d]; try discriminate;
      cbn [dict_contains obind]; rewrite ?IH by exact Hrest; try reflexivity.
    destruct (has_key s sm); cbn [py_str app].
    + rewrite <- app_assoc. reflexivity.
    + reflexivity.
Qed.

(** X5.  Segment ids are matched as they come, before they are turned into
    text, against a table keyed by text.  For a schedule whose segmentIDs
    are scalars, the resolved ids are the strings among them that are keys
    of the segment table, in order; an id that is a number resolves to
    nothing, even when a segment carries that number as its id. *)
Theorem segment_ids_resolved (segments_map d : list (string * pyval))
  (sids : list pyval) :
  field d "segmentIDs" = PList sids ->
  forallb hashable sids = true ->
  resolve_segment_ids segments_map (PDict d) = Ok (known_ids segments_map sids)
  /\ (forallb (fun sid => negb (is_str sid)) sids = true ->
      resolve_segment_ids segments_map (PDict d) = Ok []).
Proof.
  intros Hf Hh.
  assert (E : resolve_segment_ids segments_map (PDict d)
              = Ok (known_ids segments_map sids)).
  { unfold resolve_segment_ids. rewrite py_get_dict, Hf. cbn [obind].
    replace (py_iter (py_or (PList sids) (PList []))) with (Ok sids)
      by (destruct sids; reflexivity).
    cbn [obind]. rewrite known_ids_fold by exact Hh. reflexivity. }
  split; [exact E |]. intros Hn. rewrite E. f_equal.
  unfold known_ids. clear E Hf Hh.
  induction sids as [| sid rest IH]; [reflexivity |].
  simpl in Hn. apply andb_prop in Hn as [Hsid Hrest].
  destruct sid; try discriminate; simpl; apply IH; exact Hrest.
Qed.

End ShapeDayResultsTables.

(** A payload whose segment and schedule name the segment by the number 7. *)
Definition numbered_segment : list (string * pyval) :=
  [("id", PInt 7); ("departureDateTime", PStr "2024-06-01T08:00:00")].

Definition numbered_schedule : list (string * pyval) :=
  [("id", PStr "sched-7"); ("segmentIDs", PList [PInt 7])].

Definition numbered_payload : list (string * pyval) :=
  [("segments", PList [PDict numbered_segment]);
   ("outboundSchedules", PList [PDict numbered_schedule; PStr "broken"])].

(** One schedule that shapes, one that is not a dictionary. *)
Definition shaped_and_broken : list (string * pyval) :=
  [("outboundSchedules", PList [PDict unresolved_schedule; PStr "broken"])].

Lemma shape_day_results_isolated_witness :
  result_of (@shape_day_results_counted example_interpreter
               (PDict shaped_and_broken) fresh_world)
  = Ok ([unresolved_itinerary], 2)
  /\ exists all shaped errors,
       @collect_schedules (PDict shaped_and_broken) = Ok all
       /\ result_of (@shape_day_results_counted example_interpreter
                       (PDict shaped_and_broken) fresh_world) = Ok (shaped, errors)
       /\ result_of (@shape_day_results example_interpreter
                       (PDict shaped_and_broken) fresh_world) = Ok shaped
       /\ errors = Z.of_nat (List.length all)
       /\ (List.length shaped <= List.length all)%nat.
Proof.
  split; [reflexivity |].
  apply (@shape_day_results_isolated example_interpreter shaped_and_broken
           fresh_world).
  reflexivity.
Defined.

Lemma segment_ids_resolved_witness :
  @build_segments_map example_interpreter (PDict numbered_payload)
  = Ok [("7", PDict numbered_segment)] /\
  @resolve_segment_ids example_interpreter [("7", PDict numbered_segment)]
    (PDict numbered_schedule) = Ok [].
Proof.
  split; [reflexivity |].
  apply (proj2 (@segment_ids_resolved example_interpreter
                  [("7", PDict numbered_segment)] numbered_schedule [PInt 7]
                  eq_refl eq_refl)).
  reflexivity.
Defined.

(** ** The fields every shaped itinerary has *)

Lemma or_else_truthy a rest v :
  or_else a rest = Ok v ->
  (forall v', rest = Ok v' -> truthy v' = true) -> truthy v = true.
Proof.
  unfold or_else. destruct (truthy a) eqn:T; intros H Hrest.
  - injection H as <-. exact T.
  - apply Hrest. exact H.
Qed.

Lemma or_chain_truthy m1 m2 last v :
  truthy last = true ->
  obind m1 (fun a => or_else a (obind m2 (fun b => or_else b (Ok last)))) = Ok v ->
  truthy v = true.
Proof.
  intros Hlast H. destruct m1 as [a |]; [| discriminate]. cbn [obind] in H.
  apply (or_else_truthy _ _ _ H). intros v' H'.
  destruct m2 as [b |]; [| discriminate]. cbn [obind] in H'.
  apply (or_else_truthy _ _ _ H'). intros v'' E. injection E as <-. exact Hlast.
Qed.

Lemma py_or_truthy a b : truthy b = true -> truthy (py_or a b) = true.
Proof. unfold py_or. destruct (truthy a) eqn:T; auto. Qed.

Lemma validate_str_truthy v s :
  validate_str v = Ok s -> truthy v = true -> s <> "".
Proof.
  destruct v; try discriminate. intros H. injection H as ->.
  cbn [truthy]. destruct s; [discriminate | intros _; discriminate].
Qed.

Lemma validate_opt_str_truthy v o :
  validate_opt_str v = Ok o -> truthy v = true ->
  exists name, o = Some name /\ name <> "".
Proof.
  destruct v as [| | | | name | |]; try discriminate.
  cbn [validate_opt_str truthy]. intros H T. injection H as <-.
  exists name. split; [reflexivity |]. destruct name; discriminate.
Qed.

Lemma make_TimeInfo_zone d z t :
  make_TimeInfo d z = Ok t -> truthy z = true ->
  exists name, tz t = Some name /\ name <> "".
Proof.
  unfold make_TimeInfo. destruct (validate_str d); [| discriminate]. cbn [obind].
  destruct (validate_opt_str z) as [o |] eqn:V; [| discriminate]. cbn [obind].
  intros H T. injection H as <-. cbn [tz].
  exact (validate_opt_str_truthy z o V T).
Qed.

(** An itinerary with a travel mode, a currency and both time zones. *)
Definition complete (it : Itinerary) : Prop :=
  mode it <> "" /\ currency it <> ""
  /\ (exists name, tz (departure it) = Some name /\ name <> "")
  /\ (exists name, tz (arrival it) = Some name /\ name <> "").

Section CompleteItineraries.
Context {interp : Interpreter}.

Lemma shape_schedule_complete raw_data cm pm sm sched it :
  shape_schedule raw_data cm pm sm sched = Ok it -> complete it.
Proof.
  unfold shape_schedule. intros H.
  repeat match type of H with
         | obind ?m _ = Ok _ =>
             let E := fresh "E" in
             destruct m eqn:E; [cbn [obind] in H | discriminate H]
         end.
  cbv zeta in H. unfold make_Itinerary in H.
  repeat match type of H with
         | obind ?m _ = Ok _ =>
             let V := fresh "V" in
             destruct m eqn:V; [cbn [obind] in H | discriminate H]
         end.
  injection H as <-. unfold complete. cbn [mode currency departure arrival].
  repeat split.
  - match goal with
    | V : validate_str ?m = Ok ?s |- ?s <> "" =>
        apply (validate_str_truthy _ _ V)
    end.
    eapply or_chain_truthy; [| eassumption]. reflexivity.
  - match goal with
    | V : validate_str ?m = Ok ?s |- ?s <> "" =>
        apply (validate_str_truthy _ _ V)
    end.
    match goal with
    | E : obind ?m (fun a => or_else a (Ok (PStr "EUR"))) = Ok _ |- _ =>
        destruct m; [cbn [obind] in E | discriminate E];
        apply (or_else_truthy _ _ _ E)
    end.
    intros v' X. injection X as <-. reflexivity.
  - eapply make_TimeInfo_zone; [eassumption |]. apply py_or_truthy. reflexivity.
  - eapply make_TimeInfo_zone; [eassumption |]. apply py_or_truthy. reflexivity.
Qed.

Lemma itineraries_of_complete raw_data cm pm sm all :
  Forall complete (itineraries_of raw_data cm pm sm all).
Proof.
  unfold itineraries_of. induction all as [| sched rest IH]; cbn [flat_map].
  - constructor.
  - apply Forall_app. split; [| exact IH].
    unfold shaped_of. destruct (is_dict sched); [| constructor].
    destruct (shape_schedule raw_data cm pm sm sched) as [it |] eqn:E;
      [| constructor].
    constructor; [| constructor]. exact (shape_schedule_complete _ _ _ _ _ _ E).
Qed.

(** X6.  Every itinerary that [shape_day_results] returns, for any
    payload, has a non-empty travel mode and currency and a non-empty time
    zone for its departure and its arrival: the fallbacks "unknown", "EUR"
    and "UTC" replace whatever is absent or empty upstream. *)
Theorem shaped_itineraries_complete (raw_data : pyval) (w : world)
  (shaped : list Itinerary) :
  result_of (shape_day_results raw_data w) = Ok shaped ->
  Forall (fun it => mode it <> "" /\ currency it <> ""
                    /\ (exists name, tz (departure it) = Some name /\ name <> "")
                    /\ (exists name, tz (arrival it) = Some name /\ name <> ""))
         shaped.
Proof.
  rewrite shape_day_results_result. intros H.
  destruct (build_carriers_map raw_data) as [cm |]; [| discriminate].
  destruct (build_positions_map raw_data) as [pm |]; [| discriminate].
  destruct (build_segments_map raw_data) as [sm |]; [| discriminate].
  destruct (collect_schedules raw_data) as [all |]; [| discriminate].
  cbn [obind] in H. injection H as <-.
  exact (itineraries_of_complete raw_data cm pm sm all).
Qed.

End CompleteItineraries.

(** A schedule and its segment that carry empty texts where a mode, a
    currency and the time zones are expected. *)
Definition blank_segment : list (string * pyval) :=
  [("id", PStr "seg-9"); ("departureDateTime", PStr "2024-06-01T08:00:00");
   ("arrivalDateTime", PStr "2024-06-01T11:00:00");
   ("departureTimeZone", PStr ""); ("travelMode", PStr "")].

Definition blank_schedule : list (string * pyval) :=
  [("id", PStr "sched-9"); ("segmentIDs", PList [PStr "seg-9"]);
   ("currency", PStr ""); ("travelMode", PNone); ("priceCents", PInt 990)].

Definition blank_payload : list (string * pyval) :=
  [("segments", PList [PDict blank_segment]);
   ("combinedSchedules", PList [PDict blank_schedule])].

Lemma shaped_itineraries_complete_witness :
  exists shaped,
    result_of (@shape_day_results example_interpreter (PDict blank_payload)
                 fresh_world) = Ok shaped
    /\ map stable_id shaped = ["sched-9"]
    /\ Forall (fun it => mode it <> "" /\ currency it <> ""
                         /\ (exists name, tz (departure it) = Some name /\ name <> "")
                         /\ (exists name, tz (arrival it) = Some name /\ name <> ""))
              shaped.
Proof.
  assert (E : exists shaped,
             result_of (@shape_day_results example_interpreter (PDict blank_payload)
                          fresh_world) = Ok shaped
             /\ map stable_id shaped = ["sched-9"]).
  { eexists. split; [vm_compute; reflexivity | reflexivity]. }
  destruct E as (shaped & Hrun & Hids).
  exists shaped. split; [exact Hrun |]. split; [exact Hids |].
  exact (@shaped_itineraries_complete example_interpreter _ _ _ Hrun).
Defined.

(* ================================================================== *)
(** * Further properties of normalize_calendar_day_results            *)
(* ================================================================== *)

(** A day the loop can price with integers: it is skipped, or its
    priceCents is an integer that converts to a float. *)
Definition integer_day (day : pyval) : bool :=
  match day with
  | PDict d =>
      skipped_day day
      || match field d "priceCents" with
         | PInt n => negb (float_is_inf (float_of_Z n))
         | _ => false
         end
  | _ => false
  end.

(** The days that are not skipped. *)
Definition kept_days (days : list pyval) : list pyval :=
  filter (fun day => negb (skipped_day day)) days.

Definition price_of (day : pyval) : Z :=
  match day with
  | PDict d => match field d "priceCents" with PInt n => n | _ => 0 end
  | _ => 0
  end.

Definition date_of (day : pyval) : pyval :=
  match day with
  | PDict d => field d "date"
  | _ => PNone
  end.

(** The calendar entry of a kept day. *)
Definition normalized_of (currency : pyval) (day : pyval) : NormalizedDay :=
  {| nd_date := date_of day;
     nd_priceCents := float_of_Z (price_of day);
     nd_currency := currency |}.

(** The running minimum and maximum after some prices. *)
Definition lower (m : option Z) (n : Z) : option Z :=
  match m with
  | None => Some n
  | Some cur => Some (Z.min cur n)
  end.

Definition upper (m : option Z) (n : Z) : option Z :=
  match m with
  | None => Some n
  | Some cur => Some (Z.max cur n)
  end.

Definition convertible (m : option Z) : bool :=
  match m with
  | Some n => negb (float_is_inf (float_of_Z n))
  | None => true
  end.

(** [float(m) / 100 if m else None] on an integer. *)
Definition units_of (m : option Z) : option spec_float :=
  match m with
  | Some n => if n =? 0 then None else Some (cents_to_units (float_of_Z n))
  | None => None
  end.

Lemma update_min_integer m n :
  update_min (option_map PInt m) (PInt n) = Ok (option_map PInt (lower m n)).
Proof.
  destruct m as [cur |]; [| reflexivity]. simpl.
  unfold num_ltb, num_compare. destruct (Z.compare_spec n cur) as [E | L | G];
    do 3 f_equal; lia.
Qed.

Lemma update_max_integer m n :
  update_max (option_map PInt m) (PInt n) = Ok (option_map PInt (upper m n)).
Proof.
  destruct m as [cur |]; [| reflexivity]. simpl.
  unfold num_ltb, num_compare. destruct (Z.compare_spec cur n) as [E | L | G];
    do 3 f_equal; lia.
Qed.

Lemma convertible_lower m n :
  convertible m = true -> float_is_inf (float_of_Z n) = false ->
  convertible (lower m n) = true.
Proof.
  destruct m as [cur |]; simpl; intros Hm Hn; [| rewrite Hn; reflexivity].
  destruct (Z.min_spec cur n) as [[_ ->] | [_ ->]];
    [exact Hm | rewrite Hn; reflexivity].
Qed.

Lemma convertible_upper m n :
  convertible m = true -> float_is_inf (float_of_Z n) = false ->
  convertible (upper m n) = true.
Proof.
  destruct m as [cur |]; simpl; intros Hm Hn; [| rewrite Hn; reflexivity].
  destruct (Z.max_spec cur n) as [[_ ->] | [_ ->]];
    [rewrite Hn; reflexivity | exact Hm].
Qed.

Section CalendarPrices.
Context {interp : Interpreter}.

Lemma cents_stat_integer m :
  convertible m = true -> cents_stat (option_map PInt m) = Ok (units_of m).
Proof.
  destruct m as [n |]; [| reflexivity]. simpl. intros H.
  destruct (n =? 0); [reflexivity |]. cbn [negb].
  apply negb_true_iff in H. rewrite H. reflexivity.
Qed.

Lemma calendar_loop_integer currency days : forall acc lo hi w,
  forallb integer_day days = true ->
  acc_min acc = option_map PInt lo -> acc_max acc = option_map PInt hi ->
  convertible lo = true -> convertible hi = true ->
  exists w',
    for_each days (calendar_body currency) acc w
    = (Ok {| normalized_days :=
               normalized_days acc ++ map (normalized_of currency) (kept_days days);
             acc_min :=
               option_map PInt (fold_left lower (map price_of (kept_days days)) lo);
             acc_max :=
               option_map PInt (fold_left upper (map price_of (kept_days days)) hi) |},
       w')
    /\ convertible (fold_left lower (map price_of (kept_days days)) lo) = true
    /\ convertible (fold_left upper (map price_of (kept_days days)) hi) = true.
Proof.
  induction days as [| day rest IH]; intros acc lo hi w Hall Hlo Hhi Clo Chi.
  - exists w. cbn [kept_days filter map fold_left for_each]. rewrite app_nil_r.
    split; [| split; assumption].
    unfold ret. rewrite <- Hlo, <- Hhi. destruct acc; reflexivity.
  - cbn [forallb] in Hall. apply andb_prop in Hall as [Hday Hrest].
    destruct day as [| | | | | | d]; try discriminate.
    unfold kept_days. cbn [filter for_each]. fold (kept_days rest).
    unfold integer_day in Hday.
    destruct (skipped_day (PDict d)) eqn:S.
    + destruct (skipped_day_body currency acc (PDict d) w S) as [u E].
      unfold bind at 1. rewrite E. cbn [negb].
      apply IH; assumption.
    + cbn [orb negb] in Hday |- *.
      destruct (field d "priceCents") as [| | n | | | |] eqn:P; try discriminate.
      apply negb_true_iff in Hday.
      unfold bind at 1, calendar_body at 1. rewrite !py_get_dict.
      run. simpl in S. rewrite P in *. rewrite S.
      rewrite Hlo, Hhi, update_min_integer, update_max_integer. run.
      cbn [py_float]. rewrite Hday. run. unfold ret at 1. cbv beta iota.
      match goal with
      | |- context [for_each rest _ ?a ?u] =>
          destruct (IH a (lower lo n) (upper hi n) u Hrest eq_refl eq_refl
                      (convertible_lower lo n Clo Hday)
                      (convertible_upper hi n Chi Hday))
            as (w' & E & C1 & C2)
      end.
      exists w'. rewrite E. cbn [normalized_days map fold_left price_of].
      rewrite P, <- app_assoc. cbn [app].
      split; [| split; assumption].
      unfold normalized_of, date_of, price_of. rewrite P. reflexivity.
Qed.

(** X7.  A calendar payload without prices (the entry is absent, empty or
    holds no value) is answered with an empty calendar, the count 0 and no
    statistics, the currency defaulting to ["EUR"]. *)
Theorem calendar_without_price_list (entries : list (string * pyval)) (w : world) :
  truthy (field_or entries "prices" (PList [])) = false ->
  result_of (normalize_calendar_day_results (PDict entries) w)
  = Ok ({| requestId := field entries "requestId";
           fromPosId := field entries "fromPosId";
           toPosId := field entries "toPosId";
           cal_currency := field_or entries "currency" (PStr "EUR");
           calendar := [];
           stats := None |}, 0).
Proof.
  intros H. unfold normalize_calendar_day_results.
  rewrite !py_get_dict, !py_get_default_dict. run. rewrite H. run. reflexivity.
Qed.

(** X8.  On a calendar whose kept days are priced with integers,
    [normalize_calendar_day_results] keeps the days that have a date and a
    priceCents, in order and with the payload's currency, counts them, and
    reports the smallest and the largest price; it returns exactly when a
    day is kept and neither extreme is 0, and raises [TypeError] from its
    last log line otherwise. *)
Theorem calendar_integer_prices (entries : list (string * pyval))
  (days : list pyval) (w : world) :
  lookup "prices" entries = Some (PList days) ->
  days <> [] ->
  forallb integer_day days = true ->
  let kept := kept_days days in
  let prices := map price_of kept in
  let lo := fold_left lower prices None in
  let hi := fold_left upper prices None in
  let total := Z.of_nat (List.length kept) in
  result_of (normalize_calendar_day_results (PDict entries) w)
  = match units_of lo, units_of hi with
    | Some x, Some y =>
        Ok ({| requestId := field entries "requestId";
               fromPosId := field entries "fromPosId";
               toPosId := field entries "toPosId";
               cal_currency := field_or entries "currency" (PStr "EUR");
               calendar :=
                 map (normalized_of (field_or entries "currency" (PStr "EUR"))) kept;
               stats := Some {| min_price_cents := option_map PInt lo;
                                max_price_cents := option_map PInt hi;
                                min_price := Some x; max_price := Some y;
                                total_days := total |} |}, total)
    | _, _ => Raise TypeError
    end.
Proof.
  intros Hp Hne Hall kept prices lo hi total.
  unfold normalize_calendar_day_results.
  rewrite !py_get_dict, !py_get_default_dict.
  unfold field_or at 2. rewrite Hp.
  destruct days as [| day rest]; [congruence |].
  run. unfold bind at 1.
  match goal with
  | |- context [for_each ?xs ?b ?a ?u] =>
      destruct (calendar_loop_integer (field_or entries "currency" (PStr "EUR"))
                  xs a None None u Hall eq_refl eq_refl eq_refl eq_refl)
        as (w' & -> & Clo & Chi)
  end.
  cbn [normalized_days acc_min acc_max app].
  fold kept. fold prices. fold lo. fold hi.
  rewrite (cents_stat_integer lo Clo). run.
  rewrite (cents_stat_integer hi Chi). run.
  rewrite length_map. fold total.
  destruct (units_of lo) as [x |]; [| reflexivity]. cbn [format_2f]. run.
  destruct (units_of hi) as [y |]; [| reflexivity]. cbn [format_2f]. run.
  reflexivity.
Qed.

End CalendarPrices.

(** Three days, of which the second has no price. *)
Definition priced_calendar : list (string * pyval) :=
  [("requestId", PStr "r-1"); ("currency", PStr "USD");
   ("prices", PList [PDict [("date", PStr "2024-06-01"); ("priceCents", PInt 2500)];
                     PDict [("date", PStr "2024-06-02")];
                     PDict [("date", PStr "2024-06-03"); ("priceCents", PInt 1900)]])].

(** A calendar with a day that costs nothing. *)
Definition free_day_calendar : list (string * pyval) :=
  [("prices", PList [PDict [("date", PStr "2024-06-01"); ("priceCents", PInt 0)];
                     PDict [("date", PStr "2024-06-02"); ("priceCents", PInt 1900)]])].

Lemma calendar_without_price_list_witness :
  result_of (@normalize_calendar_day_results example_interpreter
               (PDict [("currency", PStr "USD"); ("prices", PNone)]) fresh_world)
  = Ok ({| requestId := PNone; fromPosId := PNone; toPosId := PNone;
           cal_currency := PStr "USD"; calendar := []; stats := None |}, 0).
Proof.
  apply (@calendar_without_price_list example_interpreter
           [("currency", PStr "USD"); ("prices", PNone)] fresh_world).
  reflexivity.
Defined.

Lemma calendar_integer_prices_witness :
  (exists result,
     result_of (@normalize_calendar_day_results example_interpreter
                  (PDict priced_calendar) fresh_world) = Ok (result, 2)
     /\ option_map min_price_cents (stats result) = Some (Some (PInt 1900))
     /\ option_map max_price_cents (stats result) = Some (Some (PInt 2500)))
  /\ result_of (@normalize_calendar_day_results example_interpreter
                  (PDict free_day_calendar) fresh_world) = Raise TypeError.
Proof.
  split.
  - eexists. split; [| split].
    + rewrite (@calendar_integer_prices example_interpreter priced_calendar _
                 fresh_world eq_refl); [| discriminate | reflexivity].
      reflexivity.
    + reflexivity.
    + reflexivity.
  - rewrite (@calendar_integer_prices example_interpreter free_day_calendar _
               fresh_world eq_refl); [| discriminate | reflexivity].
    reflexivity.
Defined.

(* ================================================================== *)
(** * The summaries: which dates they hold                            *)
(* ================================================================== *)

Lemma has_key_assign_other {A : Type} k k' (v : A) d :
  has_key k' (assign k v d) = (String.eqb k' k || has_key k' d)%bool.
Proof.
  unfold has_key. induction d as [| [k0 v0] d IH]; simpl.
  - destruct (String.eqb k' k); reflexivity.
  - destruct (String.eqb k k0) eqn:E; simpl.
    + apply String.eqb_eq in E. subst k0.
      destruct (String.eqb k' k); reflexivity.
    + destruct (String.eqb k' k0) eqn:E'.
      * rewrite orb_true_r. reflexivity.
      * exact IH.
Qed.

Lemma Forall_assign {A : Type} (P : string * A -> Prop) k v d :
  (forall k', P (k', v)) -> Forall P d -> Forall P (assign k v d).
Proof.
  intros Hv. induction 1 as [| [k0 v0] d Hx Hd IH]; simpl.
  - constructor; [apply Hv | constructor].
  - destruct (String.eqb k k0); constructor; auto.
Qed.

Lemma assign_not_nil {A : Type} k (v : A) d : assign k v d <> [].
Proof. destruct d as [| [k0 v0] d]; simpl; [| destruct (String.eqb k k0)]; discriminate. Qed.

Section SummaryDates.
Context {interp : Interpreter}.

Lemma mode_steps_prices acc entries final :
  steps mode_rel acc entries final ->
  (snd acc <> [] -> snd final <> [])
  /\ (filter (fun item => kept_entry (snd item)) entries <> [] -> snd final <> [])
  /\ (filter (fun item => kept_entry (snd item)) entries = [] -> final = acc).
Proof.
  induction 1 as [acc | acc x mid rest final Hstep _ IH]; simpl.
  - split; [auto |]. split; [congruence | reflexivity].
  - unfold mode_rel in Hstep. destruct (kept_entry (snd x)).
    + destruct Hstep as (_ & _ & _ & Hk). destruct IH as (I1 & _ & _).
      assert (N : snd mid <> []).
      { intros E. rewrite E in Hk. discriminate. }
      split; [auto |]. split; [auto | discriminate].
    + subst mid. exact IH.
Qed.

(** What one date does to [summary_by_date]. *)
Definition date_summary_rel
  (acc : CheapestStats * list (string * list (string * PriceEntry)))
  (item : string * pyval)
  (acc' : CheapestStats * list (string * list (string * PriceEntry))) : Prop :=
  match kept_of_date (snd item) with
  | [] => snd acc' = snd acc
  | _ :: _ => exists date_prices,
                date_prices <> [] /\ snd acc' = assign (fst item) date_prices (snd acc)
  end.

Lemma date_body_summary currency acc item w acc' w' :
  cheapest_date_body currency acc item w = (Ok acc', w') ->
  date_summary_rel acc item acc'.
Proof.
  destruct acc as [st summ], item as [date md]. unfold date_summary_rel.
  cbn [snd fst]. unfold cheapest_date_body.
  destruct md as [| | | | | | modes]; cbn [is_dict negb kept_of_date];
    try (rewrite run_log; unfold ret; intros H; injection H as <- _; reflexivity).
  run. intros H. apply bind_run_inv in H as ([st1 dp] & w1 & Hloop & H).
  unfold ret in H. injection H as <- _. cbn [snd].
  apply (for_each_steps _ mode_rel (mode_body_step currency date)) in Hloop.
  apply mode_steps_prices in Hloop. cbn [snd] in Hloop.
  destruct Hloop as (_ & Hkept & Hnone).
  destruct (filter (fun item => kept_entry (snd item)) modes) as [| e es].
  - specialize (Hnone eq_refl). injection Hnone as _ ->. reflexivity.
  - assert (N : dp <> []) by (apply Hkept; discriminate).
    destruct dp as [| p ps]; [congruence |].
    exists (p :: ps). split; [discriminate | reflexivity].
Qed.

Lemma date_summary_steps acc dates final :
  steps date_summary_rel acc dates final ->
  (forall date,
     has_key date (snd final) = true <->
     has_key date (snd acc) = true
     \/ exists md, In (date, md) dates /\ kept_of_date md <> [])
  /\ (Forall (fun entry => snd entry <> []) (snd acc) ->
      Forall (fun entry => snd entry <> []) (snd final)).
Proof.
  induction 1 as [acc | acc x mid rest final Hstep _ IH].
  - split; [| auto]. intros date. split; [auto |].
    intros [H | (md & [] & _)]. exact H.
  - destruct IH as [IHk IHf]. destruct x as [d md].
    unfold date_summary_rel in Hstep. cbn [fst snd] in Hstep.
    destruct (kept_of_date md) as [| e es] eqn:K.
    + rewrite Hstep in *. split; [| exact IHf].
      intros date. rewrite IHk. split.
      * intros [H | (md' & Hin & Hk)]; [left; exact H |].
        right. exists md'. split; [right; exact Hin | exact Hk].
      * intros [H | (md' & [Heq | Hin] & Hk)]; [left; exact H | |].
        -- injection Heq as -> ->. congruence.
        -- right. exists md'. split; assumption.
    + destruct Hstep as (dp & Hdp & Hmid). rewrite Hmid in *. split.
      * intros date. rewrite IHk, has_key_assign_other. split.
        -- intros [H | (md' & Hin & Hk)].
           ++ apply orb_prop in H as [H | H]; [| left; exact H].
              apply String.eqb_eq in H. subst date.
              right. exists md. split; [left; reflexivity |]. rewrite K. discriminate.
           ++ right. exists md'. split; [right; exact Hin | exact Hk].
        -- intros [H | (md' & [Heq | Hin] & Hk)].
           ++ left. rewrite H. apply orb_true_r.
           ++ injection Heq as -> ->. left. rewrite String.eqb_refl. reflexivity.
           ++ right. exists md'. split; assumption.
      * intros Hall. apply IHf. apply Forall_assign; [| exact Hall].
        intros k'. exact Hdp.
Qed.

(** X9.  The summary that [normalize_cheapest_summary_results] returns
    holds exactly the dates of the payload that have at least one kept
    entry, each with a mode map that is not empty; the result carries the
    currency it was given and the statistics it returns beside it. *)
Theorem cheapest_summary_dates (entries dates : list (string * pyval))
  (currency : string) (w : world) (result : CheapestResult) (st : CheapestStats) :
  lookup "data" entries = Some (PDict dates) ->
  dates <> [] ->
  result_of (normalize_cheapest_summary_results (PDict entries) currency w)
  = Ok (result, st) ->
  (forall date,
     has_key date (summary result) = true <->
     exists md, In (date, md) dates /\ kept_of_date md <> [])
  /\ Forall (fun entry => snd entry <> []) (summary result)
  /\ cs_currency result = currency
  /\ cs_stats result = Some st.
Proof.
  intros Hd Hne H.
  unfold normalize_cheapest_summary_results in H.
  rewrite py_get_dict, py_get_default_dict in H. unfold field_or in H.
  rewrite Hd in H. revert H. run. intros H.
  apply bind_ok_inv in H as (? & w1 & _ & H).
  destruct dates as [| item rest]; [congruence |].
  revert H. run. intros H.
  apply bind_ok_inv in H as ([st1 summ] & w2 & Hloop & H).
  apply (for_each_steps _ date_summary_rel (date_body_summary currency)) in Hloop.
  apply date_summary_steps in Hloop. cbn [snd] in Hloop.
  destruct Hloop as [Hkeys Hall].
  apply bind_ok_inv in H as (? & w3 & _ & H).
  apply bind_ok_inv in H as (? & w4 & _ & H).
  apply bind_ok_inv in H as (? & w5 & _ & H).
  apply bind_ok_inv in H as (? & w6 & _ & H).
  unfold ret, result_of in H. cbn [fst] in H. injection H as <- <-.
  cbn [summary cs_currency cs_stats]. split; [| split; [| split]].
  - intros date. rewrite Hkeys. split.
    + intros [Hk | Hx]; [discriminate | exact Hx].
    + intros Hx. right. exact Hx.
  - apply Hall. constructor.
  - reflexivity.
  - reflexivity.
Qed.

(** An entry that the fastest-summary loop skips: it is not a dictionary,
    or its numberOfResults is 0, or neither its cheapest nor its fastest
    option has a price. *)
Definition unpriced (mode_info : pyval) : bool :=
  match mode_info with
  | PDict d =>
      py_eq_int (field_or d "numberOfResults" (PInt 0)) 0
      || match field_or d "cheapest" (PDict []), field_or d "fastest" (PDict []) with
         | PDict c, PDict f =>
             py_eq_int (field_or c "priceCents" (PInt 0)) 0
             && py_eq_int (field_or f "priceCents" (PInt 0)) 0
         | _, _ => false
         end
  | _ => true
  end.

Definition date_unpriced (modes_data : pyval) : bool :=
  match modes_data with
  | PDict modes => forallb (fun item => unpriced (snd item)) modes
  | _ => true
  end.

Lemma unpriced_body currency acc item w :
  unpriced (snd item) = true ->
  exists w', fastest_mode_body currency acc item w = (Ok acc, w').
Proof.
  destruct item as [mode info]. cbn [snd]. intros H. unfold fastest_mode_body.
  destruct info as [| | | | | | d]; try (eexists; reflexivity).
  cbn [is_dict negb]. rewrite py_get_default_dict. run. simpl in H.
  destruct (py_eq_int (field_or d "numberOfResults" (PInt 0)) 0);
    [eexists; reflexivity |].
  cbn [orb] in H. rewrite !py_get_default_dict. run.
  destruct (field_or d "cheapest" (PDict [])) as [| | | | | | c]; try discriminate.
  destruct (field_or d "fastest" (PDict [])) as [| | | | | | f]; try discriminate.
  rewrite !py_get_default_dict. run. rewrite H. eexists; reflexivity.
Qed.

Lemma date_unpriced_body currency summ item w :
  date_unpriced (snd item) = true ->
  exists w', fastest_date_body currency summ item w = (Ok summ, w').
Proof.
  destruct item as [date md]. cbn [snd]. intros H. unfold fastest_date_body.
  destruct md as [| | | | | | modes]; try (eexists; reflexivity).
  run. unfold bind at 1.
  match goal with
  | |- context [for_each ?xs ?b ?a ?u] =>
      destruct (for_each_unchanged b xs) with (acc := a) (w := u) as [u' ->]
  end.
  - intros acc x w0 Hin. apply unpriced_body.
    simpl in H. rewrite forallb_forall in H. apply H. exact Hin.
  - eexists. reflexivity.
Qed.

(** X10.  [normalize_fastest_summary_results] answers a payload without
    data, and a payload whose every entry is skipped, with an empty summary
    in the given currency: unlike the cheapest summary it has no statistics
    to format and returns. *)
Theorem fastest_without_data (entries : list (string * pyval))
  (currency : string) (w : world) :
  (truthy (field_or entries "data" (PDict [])) = false
   \/ exists dates,
        lookup "data" entries = Some (PDict dates)
        /\ forallb (fun item => date_unpriced (snd item)) dates = true) ->
  result_of (normalize_fastest_summary_results (PDict entries) currency w)
  = Ok {| fs_summary := []; fs_currency := currency |}.
Proof.
  intros H. unfold normalize_fastest_summary_results.
  rewrite py_get_default_dict. run.
  destruct H as [H | (dates & Hd & Hall)].
  - rewrite H. run. reflexivity.
  - unfold field_or. rewrite Hd.
    destruct dates as [| item rest]; [run; reflexivity |].
    run. unfold bind at 1.
    match goal with
    | |- context [for_each ?xs ?b ?a ?u] =>
        destruct (for_each_unchanged b xs) with (acc := a) (w := u) as [u' ->]
    end.
    + intros acc x w0 Hin. apply date_unpriced_body.
      rewrite forallb_forall in Hall. apply Hall. exact Hin.
    + run. reflexivity.
Qed.

End SummaryDates.

Lemma cheapest_summary_dates_witness :
  exists result st,
    result_of (@normalize_cheapest_summary_results example_interpreter
                 (PDict mixed_summary) "EUR" fresh_world) = Ok (result, st)
    /\ has_key "2024-06-01" (summary result) = false
    /\ has_key "2024-06-02" (summary result) = true
    /\ Forall (fun entry => snd entry <> []) (summary result).
Proof.
  assert (E : exists result st,
             result_of (@normalize_cheapest_summary_results example_interpreter
                          (PDict mixed_summary) "EUR" fresh_world)
             = Ok (result, st)
             /\ has_key "2024-06-01" (summary result) = false).
  { eexists _, _. split; [vm_compute; reflexivity | reflexivity]. }
  destruct E as (result & st & Hrun & Hfirst).
  exists result, st.
  destruct (@cheapest_summary_dates example_interpreter mixed_summary mixed_dates
              "EUR" fresh_world result st eq_refl) as (Hkeys & Hall & _);
    [discriminate | exact Hrun |].
  split; [exact Hrun |]. split; [exact Hfirst |]. split; [| exact Hall].
  apply Hkeys. eexists. split; [right; left; reflexivity | discriminate].
Defined.

(** The payload of the cheapest summary whose entries are all skipped,
    read as a fastest summary. *)
Lemma fastest_without_data_witness :
  result_of (@normalize_fastest_summary_results example_interpreter
               (PDict summary_without_data) "EUR" fresh_world)
  = Ok {| fs_summary := []; fs_currency := "EUR" |}.
Proof.
  apply (@fastest_without_data example_interpreter summary_without_data "EUR"
           fresh_world).
  right. eexists. split; reflexivity.
Defined.

(* ================================================================== *)
(** * Invariants of the results                                       *)
(* ================================================================== *)

(** The sum of the per-mode counts. *)
Definition count_sum (by_mode : list (string * ModeStats)) : Z :=
  fold_right (fun entry total => count (snd entry) + total) 0 by_mode.

Lemma count_sum_assign mode ms by_mode :
  count_sum (assign mode ms by_mode)
  = count_sum by_mode + count ms
    - match lookup mode by_mode with
      | Some old => count old
      | None => 0
      end.
Proof.
  unfold count_sum. induction by_mode as [| [k v] d IH]; simpl; [lia |].
  destruct (String.eqb mode k); simpl; [lia | rewrite IH; lia].
Qed.

(** The counts agree: the per-mode counts add up to [total_modes]. *)
Definition counts_agree (st : CheapestStats) : Prop :=
  count_sum (by_mode st) = total_modes st.

Lemma record_price_counts date mode x n st st' :
  record_price date mode x n st = Ok st' -> counts_agree st -> counts_agree st'.
Proof.
  unfold record_price, counts_agree.
  destruct (num_add (total_results st) n); [| discriminate]. cbn [obind].
  destruct (num_add _ n); [| discriminate]. cbn [obind].
  intros H. injection H as <-. cbn [by_mode total_modes].
  rewrite count_sum_assign. cbn [count].
  destruct (lookup mode (by_mode st)); cbn [count initial_mode_stats]; lia.
Qed.

Section SummaryCounts.
Context {interp : Interpreter}.

Lemma mode_body_counts currency date acc item w acc' w' :
  cheapest_mode_body currency date acc item w = (Ok acc', w') ->
  counts_agree (fst acc) -> counts_agree (fst acc').
Proof.
  destruct acc as [st dp], item as [mode info]. cbn [fst].
  unfold cheapest_mode_body.
  destruct info as [| | | | | | d]; cbn [is_dict negb];
    try (unfold ret; intros H; injection H as <- _; auto).
  rewrite py_get_dict, !py_get_default_dict. run.
  destruct (py_eq_int (field_or d "priceCents" (PInt 0)) 0
            || py_eq_int (field_or d "numberOfResults" (PInt 0)) 0).
  - run. unfold ret. intros H. injection H as <- _. auto.
  - destruct (py_float (field_or d "priceCents" (PInt 0))) as [x |]; [| discriminate].
    run.
    destruct (record_price date mode (cents_to_units x)
                (field_or d "numberOfResults" (PInt 0)) st) as [st1 |] eqn:R;
      [| discriminate].
    run. unfold ret. intros H. injection H as <- _. cbn [fst].
    apply (record_price_counts _ _ _ _ _ _ R).
Qed.

Lemma steps_invariant {A S : Type} (P : S -> Prop) (acc : S) (xs : list A) (final : S) :
  steps (fun a _ a' => P a -> P a') acc xs final -> P acc -> P final.
Proof. induction 1; auto. Qed.

Lemma date_body_counts currency acc item w acc' w' :
  cheapest_date_body currency acc item w = (Ok acc', w') ->
  counts_agree (fst acc) -> counts_agree (fst acc').
Proof.
  destruct acc as [st summ], item as [date md]. cbn [fst].
  unfold cheapest_date_body.
  destruct md as [| | | | | | modes]; cbn [is_dict negb];
    try (rewrite run_log; unfold ret; intros H; injection H as <- _; auto).
  run. intros H. apply bind_run_inv in H as ([st1 dp] & w1 & Hloop & H).
  unfold ret in H. injection H as <- _. cbn [fst].
  apply (for_each_steps _ (fun a _ a' => counts_agree (fst a) -> counts_agree (fst a'))
           (mode_body_counts currency date)) in Hloop.
  intros Hst.
  apply (steps_invariant (fun a => counts_agree (fst a)) _ _ _ Hloop). exact Hst.
Qed.

(** X11.  In the statistics that [normalize_cheapest_summary_results]
    returns, for any payload, the counts kept per mode add up to
    total_modes. *)
Theorem cheapest_counts_add_up (data : pyval) (currency : string) (w : world)
  (result : CheapestResult) (st : CheapestStats) :
  result_of (normalize_cheapest_summary_results data currency w) = Ok (result, st) ->
  count_sum (by_mode st) = total_modes st.
Proof.
  unfold normalize_cheapest_summary_results. intros H.
  apply bind_ok_inv in H as (? & ? & _ & H).
  apply bind_ok_inv in H as (? & ? & _ & H).
  apply bind_ok_inv in H as (? & ? & _ & H).
  apply bind_ok_inv in H as (price_data & ? & _ & H).
  apply bind_ok_inv in H as (errors & ? & _ & H).
  apply bind_ok_inv in H as (? & ? & _ & H).
  destruct (negb (truthy price_data)).
  - apply bind_ok_inv in H as (? & ? & _ & H).
    unfold ret, result_of in H. cbn [fst] in H. injection H as _ <-. reflexivity.
  - apply bind_ok_inv in H as (? & ? & _ & H).
    apply bind_ok_inv in H as (? & ? & _ & H).
    apply bind_ok_inv in H as (dates & ? & _ & H).
    apply bind_ok_inv in H as ([st1 summ] & ? & Hloop & H).
    apply (for_each_steps _
             (fun a _ a' => counts_agree (fst a) -> counts_agree (fst a'))
             (date_body_counts currency)) in Hloop.
    apply (steps_invariant (fun a => counts_agree (fst a))) in Hloop;
      [| reflexivity].
    apply bind_ok_inv in H as (? & ? & _ & H).
    apply bind_ok_inv in H as (? & ? & _ & H).
    apply bind_ok_inv in H as (? & ? & _ & H).
    apply bind_ok_inv in H as (? & ? & _ & H).
    unfold ret, result_of in H. cbn [fst] in H. injection H as _ <-.
    exact Hloop.
Qed.

End SummaryCounts.

Lemma cheapest_counts_add_up_witness :
  exists result st,
    result_of (@normalize_cheapest_summary_results example_interpreter
                 (PDict mixed_summary) "EUR" fresh_world) = Ok (result, st)
    /\ map (fun entry => (fst entry, count (snd entry))) (by_mode st)
       = [("bus", 1); ("train", 1)]
    /\ count_sum (by_mode st) = total_modes st.
Proof.
  assert (E : exists result st,
             result_of (@normalize_cheapest_summary_results example_interpreter
                          (PDict mixed_summary) "EUR" fresh_world)
             = Ok (result, st)
             /\ map (fun entry => (fst entry, count (snd entry))) (by_mode st)
                = [("bus", 1); ("train", 1)]).
  { eexists _, _. split; [vm_compute; reflexivity | reflexivity]. }
  destruct E as (result & st & Hrun & Hmodes).
  exists result, st. split; [exact Hrun |]. split; [exact Hmodes |].
  exact (@cheapest_counts_add_up example_interpreter _ _ _ _ _ Hrun).
Defined.

(* ================================================================== *)
(** * Further properties of the validators                            *)
(* ================================================================== *)

Section DateRangeBounds.
Context {interp : Interpreter}.

(** X12.  The bound of [validate_date_range] is monotone: a range accepted
    under a maximum is accepted under every larger one (what passes the
    30-day limit of the summaries passes the 31-day limit of the calendar),
    and a bound that does not parse is rejected whatever the maximum. *)
Theorem date_range_monotone (start_str end_str : string) (max_days larger : Z) :
  max_days <= larger ->
  (validate_date_range start_str end_str max_days = Ok tt ->
   validate_date_range start_str end_str larger = Ok tt)
  /\ (validate_date_range start_str end_str max_days = Raise invalid_date_format ->
      validate_date_range start_str end_str larger = Raise invalid_date_format).
Proof.
  intros Hle. unfold validate_date_range, range_exceeded, invalid_date_format.
  destruct (fromisoformat start_str) as [a |]; [| split; [discriminate | reflexivity]].
  destruct (fromisoformat end_str) as [b |]; [| split; [discriminate | reflexivity]].
  destruct (timedelta_days b a) as [days | e]; cbn [obind].
  - destruct (days >? max_days) eqn:G.
    + split; discriminate.
    + split; [| discriminate]. intros _.
      destruct (days >? larger) eqn:G'; [| reflexivity].
      apply Z.gtb_lt in G'. rewrite Z.gtb_ltb in G. apply Z.ltb_ge in G. lia.
  - split; [discriminate | auto].
Qed.

End DateRangeBounds.

Lemma date_range_monotone_witness :
  @validate_date_range example_interpreter "2024-06-01" "2024-07-01" 31 = Ok tt.
Proof.
  apply (proj1 (@date_range_monotone example_interpreter
                  "2024-06-01" "2024-07-01" 30 31 ltac:(lia))).
  reflexivity.
Defined.

(* ================================================================== *)
(** * Further properties of the position service                      *)
(* ================================================================== *)

Ltac bind_inv H := apply bind_ok_inv in H as (? & ? & _ & H).

(** The candidate list of [resolve_positions]: the best guess, then the
    alternatives. *)
Definition ranked (best : option Position) (alternatives : list Position)
  : list Position :=
  match best with
  | Some b => [b]
  | None => []
  end ++ alternatives.

Lemma find_none_filter {A : Type} (f g : A -> bool) (l : list A) :
  find f l = None -> find f (filter g l) = None.
Proof.
  induction l as [| x l IH]; simpl; [reflexivity |].
  destruct (f x) eqn:F; [discriminate |]. intros H.
  destruct (g x); simpl; [rewrite F |]; apply IH; exact H.
Qed.

Lemma pick_best_none candidates : pick_best candidates = None -> candidates = [].
Proof.
  unfold pick_best. destruct (find _ candidates); [discriminate |].
  destruct candidates; [reflexivity | discriminate].
Qed.

(** The best guess stays the best of the list that starts with it. *)
Lemma pick_best_ranked candidates :
  pick_best (ranked (pick_best candidates) (others (pick_best candidates) candidates))
  = pick_best candidates
  /\ hd_error (ranked (pick_best candidates)
                 (others (pick_best candidates) candidates))
     = pick_best candidates.
Proof.
  destruct (pick_best candidates) as [b |] eqn:B.
  - split; [| reflexivity]. unfold ranked, others. cbn [app].
    unfold pick_best in *. cbn [find hd_error].
    destruct (String.eqb (type b) "location") eqn:T; [reflexivity |].
    destruct (find (fun p => String.eqb (type p) "location") candidates) as [q |] eqn:F.
    + injection B as ->. apply find_some in F as [_ F]. congruence.
    + rewrite (find_none_filter _ _ _ F). reflexivity.
  - apply pick_best_none in B. subst. split; reflexivity.
Qed.

Section PositionServiceRuns.
Variable upstream : list request -> request -> outcome pyval.

Lemma autocomplete_response params w resp :
  result_of (positions_autocomplete upstream params w) = Ok resp ->
  exists candidates,
    resp = {| best_guess := pick_best candidates;
              alternatives := others (pick_best candidates) candidates |}.
Proof.
  unfold positions_autocomplete. intros H.
  do 10 bind_inv H.
  apply bind_ok_inv in H as (candidates & ? & _ & H).
  do 5 bind_inv H.
  unfold ret, result_of in H. cbn [fst] in H. injection H as <-.
  exists candidates. reflexivity.
Qed.

(** X13.  In every answer of [positions_autocomplete] the best guess is a
    candidate of type ["location"] whenever there is one, no alternative
    carries the id of the best guess, and there is no best guess only when
    there is no alternative either. *)
Theorem autocomplete_best_guess (params : AutocompleteParams) (w : world)
  (resp : AutocompleteResponse) :
  result_of (positions_autocomplete upstream params w) = Ok resp ->
  (best_guess resp = None -> alternatives resp = [])
  /\ (forall b, best_guess resp = Some b ->
        Forall (fun p => id p <> id b) (alternatives resp)
        /\ (type b <> "location" ->
            Forall (fun p => type p <> "location") (alternatives resp))).
Proof.
  intros H. apply autocomplete_response in H as (candidates & ->).
  cbn [best_guess alternatives]. split.
  - intros B. apply pick_best_none in B. subst. reflexivity.
  - intros b B. rewrite B. unfold others. split.
    + apply Forall_forall. intros p Hp. apply filter_In in Hp as [_ Hp].
      apply negb_true_iff, Z.eqb_neq in Hp. exact Hp.
    + intros T. apply Forall_forall. intros p Hp. apply filter_In in Hp as [Hp _].
      unfold pick_best in B.
      destruct (find (fun p => String.eqb (type p) "location") candidates)
        as [q |] eqn:F.
      * injection B as ->. apply find_some in F as [_ F].
        apply String.eqb_eq in F. contradiction.
      * intros E. apply (find_none _ _ F) in Hp. rewrite E in Hp. discriminate.
Qed.

(** The request of one side of a resolution. *)
Definition side_request (term locale : string) (limit_each : Z) : request :=
  autocomplete_request {| term := term; ac_locale := locale; limit := limit_each |}.

Lemma resolve_side_cases side term locale limit_each w :
  let params := {| term := term; ac_locale := locale; limit := limit_each |} in
  let started := logged DEBUG ("[Resolve] Resolving " ++ side) w in
  (exists a u u',
     positions_autocomplete upstream params started = (Ok a, u)
     /\ resolve_side upstream side term locale limit_each w
        = (Ok (ranked (best_guess a) (alternatives a),
               pick_best (ranked (best_guess a) (alternatives a))), u')
     /\ requests u' = requests u)
  \/ (exists e u u',
        positions_autocomplete upstream params started = (Raise e, u)
        /\ resolve_side upstream side term locale limit_each w = (Raise e, u')
        /\ requests u' = requests u).
Proof.
  intros params started.
  destruct (positions_autocomplete upstream params started) as [[a | e] u] eqn:Ea.
  - left. exists a, u.
    assert (exists u',
               resolve_side upstream side term locale limit_each w
               = (Ok (ranked (best_guess a) (alternatives a),
                      pick_best (ranked (best_guess a) (alternatives a))), u')
               /\ requests u' = requests u) as (u' & H1 & H2);
      [| exists u'; auto].
    unfold resolve_side. rewrite run_log.
    fold params. fold (logged DEBUG ("[Resolve] Resolving " ++ side) w). fold started.
    unfold bind at 1, try_except, bind at 1. rewrite Ea.
    run. unfold ret at 1. cbv beta iota. run.
    fold (ranked (best_guess a) (alternatives a)).
    destruct (pick_best (ranked (best_guess a) (alternatives a)));
      run; unfold ret; eexists; (split; reflexivity).
  - right. exists e, u.
    assert (exists u',
               resolve_side upstream side term locale limit_each w = (Raise e, u')
               /\ requests u' = requests u) as (u' & H1 & H2);
      [| exists u'; auto].
    unfold resolve_side. rewrite run_log.
    fold params. fold (logged DEBUG ("[Resolve] Resolving " ++ side) w). fold started.
    unfold bind at 1, try_except, bind at 1. rewrite Ea.
    run. unfold raise. eexists. split; reflexivity.
Qed.

Lemma resolve_side_run side term locale limit_each w :
  let params := {| term := term; ac_locale := locale; limit := limit_each |} in
  (forall r, result_of (resolve_side upstream side term locale limit_each w) = Ok r ->
     validate_autocomplete_params params = Ok tt
     /\ exists candidates,
          r = (ranked (pick_best candidates)
                 (others (pick_best candidates) candidates),
               pick_best candidates))
  /\ requests (snd (resolve_side upstream side term locale limit_each w))
     = match validate_autocomplete_params params with
       | Ok _ => requests w ++ [side_request term locale limit_each]
       | Raise _ => requests w
       end.
Proof.
  intros params.
  set (started := logged DEBUG ("[Resolve] Resolving " ++ side) w).
  pose proof (autocomplete_requests upstream params started) as R.
  pose proof (autocomplete_response params started) as A.
  pose proof (fun e => autocomplete_rejected upstream params started e) as V.
  cbn [requests started logged] in R.
  destruct (resolve_side_cases side term locale limit_each w)
    as [(a & u & u' & Ea & -> & Eu) | (e & u & u' & Ea & -> & Eu)];
    fold params in Ea; fold started in Ea; rewrite Ea in *;
    cbn [snd fst result_of] in *; rewrite Eu.
  - destruct (A a eq_refl) as (candidates & ->). cbn [best_guess alternatives].
    assert (Hv : validate_autocomplete_params params = Ok tt).
    { destruct (validate_autocomplete_params params) as [[] | e] eqn:E;
        [reflexivity |].
      specialize (V e eq_refl). discriminate V. }
    rewrite Hv in *. split; [| exact R].
    intros r Hr. injection Hr as <-. split; [reflexivity |].
    exists candidates. destruct (pick_best_ranked candidates) as [-> _].
    reflexivity.
  - split; [intros r Hr; discriminate | exact R].
Qed.

Lemma resolve_positions_sent (params : ResolvePositionsParams) (w : world) :
  let origin_request :=
    side_request (rp_from_term params) (rp_locale params) (limit_each params) in
  let destination_request :=
    side_request (rp_to_term params) (rp_locale params) (limit_each params) in
  exists sent,
    requests (snd (resolve_positions upstream params w)) = requests w ++ sent
    /\ (sent = [] \/ sent = [origin_request]
        \/ sent = [origin_request; destination_request])
    /\ (forall resp,
          result_of (resolve_positions upstream params w) = Ok resp ->
          sent = [origin_request; destination_request])
    /\ (forall e,
          validate_resolve_params params = Raise e ->
          result_of (resolve_positions upstream params w) = Raise e /\ sent = []).
Proof.
  intros origin_request destination_request.
  pattern (resolve_positions upstream params w).
  match goal with |- ?P _ => set (Q := P) end.
  unfold resolve_positions. run.
  unfold bind at 1, try_except, bind at 1. cbn [lift].
  destruct (validate_resolve_params params) as [[] | e0] eqn:V.
  2:{ run. unfold raise. subst Q. cbv beta. cbn [snd requests result_of fst].
      exists []. rewrite app_nil_r. split; [reflexivity |]. split; [auto |].
      split; [intros resp H; discriminate |].
      intros e E. injection E as <-. split; reflexivity. }
  unfold log at 1. cbv beta iota. unfold bind at 1.
  match goal with
  | |- context [resolve_side upstream "origin" ?t ?l ?k ?u] =>
      destruct (resolve_side_run "origin" t l k u) as [Ok1 R1]
  end.
  cbn [requests] in R1. fold origin_request in R1.
  destruct (resolve_side upstream "origin" _ _ _ _) as [[[oc ob] | e1] u1].
  2:{ subst Q. cbv beta. cbn [snd result_of fst] in *.
      destruct (validate_autocomplete_params
                  {| term := rp_from_term params; ac_locale := rp_locale params;
                     limit := limit_each params |});
        [exists [origin_request] | exists []; rewrite app_nil_r];
        (split; [exact R1 |]); (split; [auto |]);
        (split; [intros ? H; discriminate | intros ? E; discriminate]). }
  cbn [snd] in R1. destruct (Ok1 _ eq_refl) as [V1 _]. rewrite V1 in R1.
  cbv beta iota. unfold bind at 1.
  match goal with
  | |- context [resolve_side upstream "destination" ?t ?l ?k ?u] =>
      destruct (resolve_side_run "destination" t l k u) as [Ok2 R2]
  end.
  fold destination_request in R2. rewrite R1 in R2.
  destruct (resolve_side upstream "destination" _ _ _ _) as [[[dc db] | e2] u2].
  2:{ subst Q. cbv beta. cbn [snd result_of fst] in *.
      destruct (validate_autocomplete_params
                  {| term := rp_to_term params; ac_locale := rp_locale params;
                     limit := limit_each params |});
        [exists [origin_request; destination_request];
         rewrite <- app_assoc in R2; cbn [app] in R2
        | exists [origin_request]];
        (split; [exact R2 |]); (split; [auto |]);
        (split; [intros ? H; discriminate | intros ? E; discriminate]). }
  cbn [snd] in R2. destruct (Ok2 _ eq_refl) as [V2 _]. rewrite V2 in R2.
  rewrite <- app_assoc in R2. cbn [app] in R2.
  cbv beta iota.
  destruct ob, db; run; unfold ret; subst Q; cbv beta;
    cbn [snd requests result_of fst];
    exists [origin_request; destination_request];
    (split; [exact R2 |]); (split; [auto |]);
    (split; [intros resp _; reflexivity | intros e E'; discriminate]).
Qed.

(** X14.  [resolve_positions] sends the request for the origin first and
    the request for the destination second, and no other.  A call that
    returns has sent both; a call whose terms fail the check of
    [validate_resolve_params] raises its [ValueError] and has sent
    nothing. *)
Theorem resolve_positions_requests (params : ResolvePositionsParams) (w : world) :
  let origin_request :=
    side_request (rp_from_term params) (rp_locale params) (limit_each params) in
  let destination_request :=
    side_request (rp_to_term params) (rp_locale params) (limit_each params) in
  (exists sent,
     requests (snd (resolve_positions upstream params w)) = requests w ++ sent
     /\ (sent = [] \/ sent = [origin_request]
         \/ sent = [origin_request; destination_request]))
  /\ (forall resp,
        result_of (resolve_positions upstream params w) = Ok resp ->
        requests (snd (resolve_positions upstream params w))
        = requests w ++ [origin_request; destination_request])
  /\ (forall e,
        validate_resolve_params params = Raise e ->
        result_of (resolve_positions upstream params w) = Raise e
        /\ requests (snd (resolve_positions upstream params w)) = requests w).
Proof.
  intros origin_request destination_request.
  destruct (resolve_positions_sent params w) as (sent & E & Hs & Hok & Hv).
  split; [exists sent; split; [exact E | exact Hs] |]. split.
  - intros resp H. rewrite E. f_equal. exact (Hok resp H).
  - intros e V. destruct (Hv e V) as [R Hnil]. split; [exact R |].
    rewrite E, Hnil. apply app_nil_r.
Qed.

(** X15.  In every answer of [resolve_positions] the best match of a side
    is the first of its ranked candidates (there is none exactly when the
    list is empty), the suggested id is the id of the best match, and the
    user's terms are echoed. *)
Theorem resolve_positions_best_first (params : ResolvePositionsParams) (w : world)
  (resp : ResolvePositionsResponse) :
  result_of (resolve_positions upstream params w) = Ok resp ->
  best_match (origin resp) = hd_error (ranked_candidates (origin resp))
  /\ best_match (destination resp) = hd_error (ranked_candidates (destination resp))
  /\ sg_from_id (suggestion resp) = option_map id (best_match (origin resp))
  /\ sg_to_id (suggestion resp) = option_map id (best_match (destination resp))
  /\ user_term (origin resp) = rp_from_term params
  /\ user_term (destination resp) = rp_to_term params.
Proof.
  unfold resolve_positions. intros H.
  bind_inv H. bind_inv H.
  apply bind_ok_inv in H as ([oc ob] & u1 & H1 & H).
  apply bind_ok_inv in H as ([dc db] & u2 & H2 & H).
  bind_inv H. bind_inv H.
  unfold ret, result_of in H. cbn [fst] in H. injection H as <-.
  cbn [origin destination suggestion best_match ranked_candidates user_term
       sg_from_id sg_to_id].
  match type of H1 with
  | resolve_side _ ?s ?t ?l ?k ?u = _ =>
      destruct (resolve_side_run s t l k u) as [Ok1 _];
      destruct (Ok1 (oc, ob)) as (_ & c1 & E1); [rewrite H1; reflexivity |]
  end.
  match type of H2 with
  | resolve_side _ ?s ?t ?l ?k ?u = _ =>
      destruct (resolve_side_run s t l k u) as [Ok2 _];
      destruct (Ok2 (dc, db)) as (_ & c2 & E2); [rewrite H2; reflexivity |]
  end.
  injection E1 as -> ->. injection E2 as -> ->.
  destruct (pick_best_ranked c1) as [_ ->].
  destruct (pick_best_ranked c2) as [_ ->].
  repeat split; reflexivity.
Qed.

End PositionServiceRuns.

Lemma autocomplete_best_guess_witness :
  exists resp,
    result_of (positions_autocomplete one_location_upstream
                 {| term := "Gare"; ac_locale := "en"; limit := 20 |} fresh_world)
    = Ok resp
    /\ option_map id (best_guess resp) = Some 42
    /\ map id (alternatives resp) = [7]
    /\ (forall b, best_guess resp = Some b ->
          Forall (fun p => id p <> id b) (alternatives resp)).
Proof.
  eexists. split; [vm_compute; reflexivity |].
  split; [reflexivity |]. split; [reflexivity |].
  intros b B.
  apply (proj1 (proj2 (autocomplete_best_guess one_location_upstream
                         {| term := "Gare"; ac_locale := "en"; limit := 20 |}
                         fresh_world _ eq_refl) b B)).
Defined.

Definition paris_berlin : ResolvePositionsParams :=
  {| rp_from_term := "Paris"; rp_to_term := "Berlin"; rp_locale := "en";
     limit_each := 20 |}.

Lemma resolve_positions_requests_witness :
  requests (snd (resolve_positions one_location_upstream paris_berlin fresh_world))
  = [side_request "Paris" "en" 20; side_request "Berlin" "en" 20].
Proof.
  destruct (resolve_positions_requests one_location_upstream paris_berlin
              fresh_world) as (_ & H & _).
  assert (E : exists resp,
             result_of (resolve_positions one_location_upstream paris_berlin
                          fresh_world) = Ok resp)
    by (eexists; vm_compute; reflexivity).
  destruct E as [resp E]. exact (H resp E).
Defined.

Lemma resolve_positions_best_first_witness :
  exists resp,
    result_of (resolve_positions one_location_upstream paris_berlin fresh_world)
    = Ok resp
    /\ best_match (origin resp) = hd_error (ranked_candidates (origin resp))
    /\ sg_from_id (suggestion resp) = Some 42.
Proof.
  eexists. split; [vm_compute; reflexivity |].
  destruct (resolve_positions_best_first one_location_upstream paris_berlin
              fresh_world _ eq_refl) as (H1 & _).
  split; [exact H1 | reflexivity].
Defined.

(* ================================================================== *)
(** * search_day_results by ids                                       *)
(* ================================================================== *)

(** The one request of a day search. *)
Definition day_results_request (params : SearchDayResultsParams) (f t : Z) : request :=
  {| endpoint := Settings.SEARCH_DAY_RESULTS_ENDPOINT;
     query := day_results_query params f t |}.

Section SearchByIds.
Context {interp : Interpreter}.
Variable upstream : list request -> request -> outcome pyval.

Lemma search_by_ids_run params w :
  given_id (from_id (base params)) && given_id (to_id (base params)) = true ->
  let f := id_value (from_id (base params)) in
  let t := id_value (to_id (base params)) in
  exists u,
    requests u = requests w ++ [day_results_request params f t]
    /\ search_day_results upstream params w
       = match upstream (requests w) (day_results_request params f t) with
         | Ok raw_data =>
             bind (shape_day_results raw_data) (fun results =>
               log INFO "[Search] Retrieved {n}";;
               _ <- lift (match results with
                          | first :: _ => Ok first
                          | [] => Raise IndexError
                          end);;
               log INFO "[Search] Retrieved {first}";;
               ret {| resolved_from_id := f; resolved_to_id := t;
                      results := results; note := estimate_note |}) u
         | Raise e =>
             (Raise e,
              match e with
              | UpstreamApiError _ => logged ERROR "[Search] Upstream API error" u
              | _ => u
              end)
         end.
Proof.
  intros Hids f t. unfold search_day_results. run.
  unfold _ensure_position_ids at 1. rewrite Hids. run.
  unfold prepare_common_api_params. repeat (rewrite run_assoc; run).
  unfold bind at 1, try_except, bind at 1, log at 1, DiscoveryClient.get.
  cbn [requests logs]. fold f. fold t.
  change (assign "outboundDate" _ _) with
    (assign "outboundDate" (PStr (date_out params))
       [("fromId", PInt f); ("toId", PInt t);
        ("adults", PStr (adults (base params)));
        ("children", PStr (children (base params)));
        ("infants", PStr (infants (base params)));
        ("travelModes", PStr (join "," (modes (base params))));
        ("locale", PStr (locale (base params)));
        ("currency", PStr (sp_currency (base params)))]).
  match goal with
  | |- context [upstream (requests w) ?r] =>
      change r with (day_results_request params f t)
  end.
  eexists. split; [| destruct (upstream (requests w) (day_results_request params f t))
                       as [raw | e]; [reflexivity |]].
  - reflexivity.
  - destruct e; reflexivity.
Qed.

Lemma offline_shape_day_results raw_data : offline (shape_day_results raw_data).
Proof.
  unfold shape_day_results, shape_day_results_counted. offline_auto.
  unfold shape_day_results_body. offline_auto.
Qed.

(** X16.  A day search that is given both ids sends exactly one request,
    whatever the upstream answers: a GET of the day-results endpoint whose
    query carries the two ids, the outbound date, the travel modes joined
    by commas, and an inbound date exactly when a return date is given. *)
Theorem search_by_ids_request (params : SearchDayResultsParams) (w : world) :
  given_id (from_id (base params)) && given_id (to_id (base params)) = true ->
  let f := id_value (from_id (base params)) in
  let t := id_value (to_id (base params)) in
  let q := day_results_query params f t in
  requests (snd (search_day_results upstream params w))
  = requests w ++ [{| endpoint := "/v2/discovery/results"; query := q |}]
  /\ lookup "fromId" q = Some (PInt f)
  /\ lookup "toId" q = Some (PInt t)
  /\ lookup "outboundDate" q = Some (PStr (date_out params))
  /\ lookup "travelModes" q = Some (PStr (join "," (modes (base params))))
  /\ lookup "inboundDate" q
     = match date_return params with
       | Some d => if str_is_empty d then None else Some (PStr d)
       | None => None
       end.
Proof.
  intros Hids f t q.
  destruct (search_by_ids_run params w Hids) as (u & Hu & ->).
  fold f. fold t. split.
  - fold (day_results_request params f t) in *.
    destruct (upstream (requests w) (day_results_request params f t)) as [raw | e].
    + assert (O : offline (bind (shape_day_results raw) (fun results =>
                    log INFO "[Search] Retrieved {n}";;
                    _ <- lift (match results with
                               | first :: _ => Ok first
                               | [] => Raise IndexError
                               end);;
                    log INFO "[Search] Retrieved {first}";;
                    ret {| resolved_from_id := f; resolved_to_id := t;
                           results := results; note := estimate_note |}))).
      { apply offline_bind; [apply offline_shape_day_results |].
        intros results. offline_auto. }
      rewrite O. exact Hu.
    + destruct e; exact Hu.
  - unfold q, day_results_query.
    destruct (date_return params) as [d |]; cbn [given_term];
      [destruct (str_is_empty d) |]; repeat split; reflexivity.
Qed.

(** X17.  What a day search that is given both ids returns.  An error of
    the upstream is raised as it is.  An answer is shaped by
    [shape_day_results]: the response carries the two ids as given, the
    itineraries and the note on estimates when there is an itinerary, and the
    call ends with [IndexError] when there is none. *)
Theorem search_by_ids_result (params : SearchDayResultsParams) (w : world) :
  given_id (from_id (base params)) && given_id (to_id (base params)) = true ->
  let f := id_value (from_id (base params)) in
  let t := id_value (to_id (base params)) in
  result_of (search_day_results upstream params w)
  = match upstream (requests w) (day_results_request params f t) with
    | Ok raw_data =>
        match result_of (shape_day_results raw_data w) with
        | Ok [] => Raise IndexError
        | Ok results =>
            Ok {| resolved_from_id := f; resolved_to_id := t;
                  results := results; note := estimate_note |}
        | Raise e => Raise e
        end
    | Raise e => Raise e
    end.
Proof.
  intros Hids f t.
  destruct (search_by_ids_run params w Hids) as (u & Hu & ->).
  fold f. fold t.
  destruct (upstream (requests w) (day_results_request params f t)) as [raw | e];
    [| reflexivity].
  rewrite (wi_shape_day_results raw w u). unfold bind at 1, result_of.
  destruct (shape_day_results raw u) as [[results | e] u']; [| reflexivity].
  cbn [fst]. destruct results; reflexivity.
Qed.

End SearchByIds.

Definition failing_upstream (history : list request) (r : request) : outcome pyval :=
  Raise (UpstreamApiError "HTTP error 503").

Lemma search_by_ids_request_witness :
  requests (snd (@search_day_results example_interpreter failing_upstream
                   search_by_ids fresh_world))
  = [{| endpoint := "/v2/discovery/results";
        query := [("fromId", PInt 1); ("toId", PInt 2); ("adults", PStr "1");
                  ("children", PStr "0"); ("infants", PStr "0");
                  ("travelModes", PStr "bus,train,flight"); ("locale", PStr "en");
                  ("currency", PStr "EUR"); ("outboundDate", PStr "2024-06-01")] |}].
Proof.
  apply (proj1 (@search_by_ids_request example_interpreter failing_upstream
                  search_by_ids fresh_world eq_refl)).
Defined.

Lemma search_by_ids_result_witness :
  result_of (@search_day_results example_interpreter failing_upstream
               search_by_ids fresh_world)
  = Raise (UpstreamApiError "HTTP error 503").
Proof.
  apply (@search_by_ids_result example_interpreter failing_upstream
           search_by_ids fresh_world eq_refl).
Defined.

Import RangeSearches.

(* ================================================================== *)
(** * Properties of the searches over a date range                    *)
(* ================================================================== *)

(** The calendar loop adds entries that carry the payload's currency. *)
Definition calendar_rel (currency : pyval) (acc : CalendarAcc) (day : pyval)
  (acc' : CalendarAcc) : Prop :=
  exists added,
    normalized_days acc' = normalized_days acc ++ added
    /\ Forall (fun d => nd_currency d = currency) added.

Section RangeSearchRuns.
Context {interp : Interpreter}.
Variable upstream : list request -> request -> outcome pyval.
Variable fixed2 : spec_float -> string.

Lemma calendar_body_rel currency acc day w acc' w' :
  calendar_body currency acc day w = (Ok acc', w') ->
  calendar_rel currency acc day acc'.
Proof.
  unfold calendar_body, calendar_rel. intros H.
  apply bind_run_inv in H as (date & w1 & _ & H).
  apply bind_run_inv in H as (price_cents & w2 & _ & H).
  destruct (is_none date || is_none price_cents).
  - revert H. run. unfold ret. intros H. injection H as <- _.
    exists []. rewrite app_nil_r. split; [reflexivity | constructor].
  - apply bind_run_inv in H as (new_min & w3 & _ & H).
    apply bind_run_inv in H as (new_max & w4 & _ & H).
    apply bind_run_inv in H as (price & w5 & _ & H).
    revert H. run. unfold ret. intros H. injection H as <- _.
    eexists. split; [reflexivity |]. repeat constructor.
Qed.

Lemma calendar_steps currency acc days final :
  steps (calendar_rel currency) acc days final ->
  exists added,
    normalized_days final = normalized_days acc ++ added
    /\ Forall (fun d => nd_currency d = currency) added.
Proof.
  induction 1 as [acc | acc x mid rest final Hstep _ IH].
  - exists []. rewrite app_nil_r. split; [reflexivity | constructor].
  - destruct Hstep as (a1 & E1 & F1). destruct IH as (a2 & E2 & F2).
    exists (a1 ++ a2). rewrite E2, E1, app_assoc. split; [reflexivity |].
    apply Forall_app. split; assumption.
Qed.

(** What [normalize_calendar_day_results] returns: its count is the length
    of its calendar, and every entry carries the currency of the result. *)
Lemma calendar_result_shape data w normalized count :
  result_of (normalize_calendar_day_results data w) = Ok (normalized, count) ->
  count = Z.of_nat (List.length (calendar normalized))
  /\ Forall (fun d => nd_currency d = cal_currency normalized) (calendar normalized).
Proof.
  unfold normalize_calendar_day_results. intros H.
  do 2 (apply bind_ok_inv in H as (? & ? & _ & H)).
  apply bind_ok_inv in H as (? & ? & _ & H).
  apply bind_ok_inv in H as (request_id & ? & _ & H).
  apply bind_ok_inv in H as (from_pos_id & ? & _ & H).
  apply bind_ok_inv in H as (to_pos_id & ? & _ & H).
  apply bind_ok_inv in H as (currency & ? & _ & H).
  apply bind_ok_inv in H as (? & ? & _ & H).
  apply bind_ok_inv in H as (price_days & ? & _ & H).
  destruct (negb (truthy price_days)).
  - apply bind_ok_inv in H as (? & ? & _ & H).
    unfold ret, result_of in H. cbn [fst] in H. injection H as <- <-.
    split; [reflexivity | constructor].
  - apply bind_ok_inv in H as (? & ? & _ & H).
    apply bind_ok_inv in H as (? & ? & _ & H).
    apply bind_ok_inv in H as (days & ? & _ & H).
    apply bind_ok_inv in H as (acc & ? & Hloop & H).
    apply (for_each_steps _ (calendar_rel currency) (calendar_body_rel currency))
      in Hloop.
    apply calendar_steps in Hloop as (added & E & F). cbn [normalized_days app] in E.
    apply bind_ok_inv in H as (lo & ? & _ & H).
    apply bind_ok_inv in H as (hi & ? & _ & H).
    apply bind_ok_inv in H as (? & ? & _ & H).
    apply bind_ok_inv in H as (? & ? & _ & H).
    apply bind_ok_inv in H as (? & ? & _ & H).
    unfold ret, result_of in H. cbn [fst] in H. injection H as <- <-.
    cbn [calendar cal_currency]. rewrite E. split; [reflexivity | exact F].
Qed.

(** X18.  The three searches over a date range check the range before
    anything else: a range that [validate_date_range] rejects (under the
    maximum of 31 days for the calendar and 30 for the two summaries) ends the
    call with that error, no location is resolved and nothing is sent
    upstream. *)
Theorem range_checked_first (e : exn) (w : world) :
  (forall params,
     validate_date_range (cp_date_start params) (cp_date_end params) 31 = Raise e ->
     result_of (search_calendar_prices upstream fixed2 params w) = Raise e
     /\ requests (snd (search_calendar_prices upstream fixed2 params w)) = requests w)
  /\ (forall params,
        validate_date_range (ss_date_start params) (ss_date_end params) 30 = Raise e ->
        (result_of (search_cheapest_summary upstream fixed2 params w) = Raise e
         /\ requests (snd (search_cheapest_summary upstream fixed2 params w))
            = requests w)
        /\ (result_of (search_fastest_summary upstream params w) = Raise e
            /\ requests (snd (search_fastest_summary upstream params w))
               = requests w)).
Proof.
  split.
  - intros params V. unfold search_calendar_prices. run. rewrite V. split; reflexivity.
  - intros params V. split.
    + unfold search_cheapest_summary. run. rewrite V. split; reflexivity.
    + unfold search_fastest_summary. run. rewrite V. split; reflexivity.
Qed.

(** The query of the calendar search. *)
Definition calendar_query (params : SearchCalendarPricesParams) (f t : Z)
  : list (string * pyval) :=
  [("fromId", PInt f); ("toId", PInt t);
   ("adults", PStr (adults (cp_base params)));
   ("children", PStr (children (cp_base params)));
   ("infants", PStr (infants (cp_base params)));
   ("travelModes", PStr (join "," (modes (cp_base params))));
   ("locale", PStr (locale (cp_base params)));
   ("currency", PStr (sp_currency (cp_base params)));
   ("calendarDateStart", PStr (cp_date_start params));
   ("calendarDateEnd", PStr (cp_date_end params));
   ("journeyType", PStr (value (journey_type params)))].

Definition calendar_request (params : SearchCalendarPricesParams) (f t : Z) : request :=
  {| endpoint := SEARCH_CALENDAR_PRICES_ENDPOINT;
     query := calendar_query params f t |}.

(** The calendar days of the response: the entries whose date is text and
    whose currency is text or absent. *)
Definition calendar_days_of (normalized : CalendarResult) : list CalendarDay :=
  flat_map (fun item =>
              match make_CalendarDay (nd_date item) (nd_priceCents item)
                      (nd_currency item) with
              | Ok d => [d]
              | Raise _ => []
              end) (calendar normalized).

(** The note of the response. *)
Definition calendar_note (normalized : CalendarResult) : string :=
  match stats normalized with
  | Some s =>
      match min_price s, max_price s with
      | Some lo, Some hi =>
          if negb (float_is_zero lo) && negb (float_is_zero hi)
          then (plain_note ++ " Range: " ++ fixed2 lo ++ " - " ++ fixed2 hi ++ " "
                ++ py_str (cal_currency normalized))%string
          else plain_note
      | _, _ => plain_note
      end
  | None => plain_note
  end.

Lemma calendar_days_loop items : forall acc w,
  exists w',
    for_each items calendar_day_body acc w
    = (Ok (acc ++ flat_map (fun item =>
                              match make_CalendarDay (nd_date item)
                                      (nd_priceCents item) (nd_currency item) with
                              | Ok d => [d]
                              | Raise _ => []
                              end) items), w')
    /\ requests w' = requests w.
Proof.
  induction items as [| item rest IH]; intros acc w.
  - exists w. cbn [for_each flat_map]. rewrite app_nil_r. split; reflexivity.
  - cbn [for_each flat_map]. unfold bind at 1, calendar_day_body at 1, try_except.
    unfold bind at 1. cbn [lift].
    destruct (make_CalendarDay (nd_date item) (nd_priceCents item) (nd_currency item))
      as [d | e].
    + unfold ret at 1. cbv beta iota.
      destruct (IH (acc ++ [d]) w) as (w' & -> & R). exists w'.
      rewrite <- app_assoc. split; [reflexivity | exact R].
    + run. unfold ret at 1. cbv beta iota.
      match goal with
      | |- context [for_each rest _ acc ?u] => destruct (IH acc u) as (w' & -> & R)
      end.
      exists w'. split; [reflexivity | exact R].
Qed.

Lemma offline_normalize_calendar data : offline (normalize_calendar_day_results data).
Proof.
  unfold normalize_calendar_day_results. offline_auto.
  unfold calendar_body. offline_auto.
Qed.

Lemma calendar_by_ids params w raw_data normalized count :
  given_id (from_id (cp_base params)) && given_id (to_id (cp_base params)) = true ->
  validate_date_range (cp_date_start params) (cp_date_end params) 31 = Ok tt ->
  let f := id_value (from_id (cp_base params)) in
  let t := id_value (to_id (cp_base params)) in
  upstream (requests w) (calendar_request params f t) = Ok raw_data ->
  result_of (normalize_calendar_day_results raw_data w) = Ok (normalized, count) ->
  result_of (search_calendar_prices upstream fixed2 params w)
  = Ok {| cr_resolved_from_id := f; cr_resolved_to_id := t;
          cr_calendar := calendar_days_of normalized;
          cr_note := calendar_note normalized |}
  /\ requests (snd (search_calendar_prices upstream fixed2 params w))
     = requests w ++ [calendar_request params f t].
Proof.
  intros Hids V f t Hup Hnorm.
  pattern (search_calendar_prices upstream fixed2 params w).
  match goal with |- ?P _ => set (Q := P) end.
  unfold search_calendar_prices. run. rewrite V. run.
  unfold _ensure_position_ids at 1. rewrite Hids. run.
  unfold prepare_common_api_params. repeat (rewrite run_assoc; run).
  fold f. fold t.
  unfold bind at 1, fetch, try_except, bind at 1, log at 1. cbv beta iota.
  unfold bind at 1, DiscoveryClient.get. cbn [requests logs].
  change (assign "journeyType" _ _) with (calendar_query params f t).
  fold (calendar_request params f t). rewrite Hup. run.
  unfold ret at 1. cbv beta iota.
  match goal with
  | |- Q (bind (normalize_calendar_day_results raw_data) _ ?u) =>
      pose proof (wi_normalize_calendar_day_results raw_data u w) as E;
      rewrite Hnorm in E; apply result_ok_run in E as [u' E];
      pose proof (offline_normalize_calendar raw_data u) as O;
      rewrite E in O; cbn [snd requests] in O
  end.
  erewrite run_bind_eq; [| exact E]. cbv beta iota. run.
  unfold bind at 1.
  match goal with
  | |- context [for_each ?xs calendar_day_body [] ?u] =>
      destruct (calendar_days_loop xs [] u) as (u2 & -> & R2)
  end.
  cbn [app requests] in R2 |- *. run.
  fold (calendar_days_of normalized).
  assert (N : (if price_truthy
                    match stats normalized with
                    | Some s => min_price s
                    | None => None
                    end
                  && price_truthy
                       match stats normalized with
                       | Some s => max_price s
                       | None => None
                       end
               then
                 obind (format_fixed2 fixed2
                          match stats normalized with
                          | Some s => min_price s
                          | None => None
                          end) (fun lo =>
                 obind (format_fixed2 fixed2
                          match stats normalized with
                          | Some s => max_price s
                          | None => None
                          end) (fun hi =>
                 Ok (plain_note ++ " Range: " ++ lo ++ " - " ++ hi ++ " "
                     ++ py_str (cal_currency normalized))%string))
               else Ok plain_note)
              = Ok (calendar_note normalized)).
  { unfold calendar_note. destruct (stats normalized) as [s |]; [| reflexivity].
    destruct (min_price s) as [lo |], (max_price s) as [hi |]; cbn [price_truthy];
      try reflexivity; [| rewrite andb_false_r; reflexivity].
    destruct (negb (float_is_zero lo) && negb (float_is_zero hi)); reflexivity. }
  rewrite N. run. unfold ret. subst Q. cbv beta.
  cbn [result_of fst snd requests]. split; [reflexivity |].
  rewrite R2, O. reflexivity.
Qed.

Lemma calendar_days_bound normalized :
  (List.length (calendar_days_of normalized) <= List.length (calendar normalized))%nat.
Proof.
  unfold calendar_days_of. induction (calendar normalized) as [| item rest IH];
    [apply le_n |].
  cbn [flat_map List.length].
  destruct (make_CalendarDay _ _ _); cbn [app List.length]; lia.
Qed.

Lemma calendar_days_currency normalized :
  Forall (fun d => nd_currency d = cal_currency normalized) (calendar normalized) ->
  is_opt_str (cal_currency normalized) = false ->
  calendar_days_of normalized = [].
Proof.
  unfold calendar_days_of. intros Hall Hc.
  induction Hall as [| item rest Hitem _ IH]; [reflexivity |].
  cbn [flat_map]. rewrite IH, app_nil_r. unfold make_CalendarDay. rewrite Hitem.
  destruct (validate_str (nd_date item)); [| reflexivity]. cbn [obind].
  destruct (cal_currency normalized); try discriminate; reflexivity.
Qed.

(** X19.  A calendar search that is given both ids and an accepted range
    sends one request to the price-calendar endpoint and, when the answer
    normalises, returns: its calendar holds the normalised days whose date is
    text and whose currency is text or absent, in order, so it has at most as
    many days as were counted, and none at all when the payload's currency is
    not text (a number, say); its note quotes the price range when both
    extremes are set and not zero. *)
Theorem calendar_search_by_ids (params : SearchCalendarPricesParams) (w : world)
  (raw_data : pyval) (normalized : CalendarResult) (count : Z) :
  given_id (from_id (cp_base params)) && given_id (to_id (cp_base params)) = true ->
  validate_date_range (cp_date_start params) (cp_date_end params) 31 = Ok tt ->
  let f := id_value (from_id (cp_base params)) in
  let t := id_value (to_id (cp_base params)) in
  upstream (requests w) (calendar_request params f t) = Ok raw_data ->
  result_of (normalize_calendar_day_results raw_data w) = Ok (normalized, count) ->
  exists resp,
    result_of (search_calendar_prices upstream fixed2 params w) = Ok resp
    /\ requests (snd (search_calendar_prices upstream fixed2 params w))
       = requests w ++ [calendar_request params f t]
    /\ cr_resolved_from_id resp = f /\ cr_resolved_to_id resp = t
    /\ cr_calendar resp = calendar_days_of normalized
    /\ Z.of_nat (List.length (cr_calendar resp)) <= count
    /\ (is_opt_str (cal_currency normalized) = false -> cr_calendar resp = [])
    /\ cr_note resp = calendar_note normalized.
Proof.
  intros Hids V f t Hup Hnorm.
  destruct (calendar_by_ids params w raw_data normalized count Hids V Hup Hnorm)
    as [Hres Hreq].
  destruct (calendar_result_shape raw_data w normalized count Hnorm) as [Hc Hall].
  eexists. split; [exact Hres |]. split; [exact Hreq |].
  cbn [cr_resolved_from_id cr_resolved_to_id cr_calendar cr_note].
  repeat split.
  - rewrite Hc. apply inj_le. apply calendar_days_bound.
  - intros Hcur. apply calendar_days_currency; assumption.
Qed.

(** X20.  A calendar search whose answer has no prices returns normally,
    with an empty calendar and the plain note (the day search, in the same
    situation, ends with [IndexError]). *)
Theorem calendar_search_without_prices (params : SearchCalendarPricesParams)
  (w : world) (entries : list (string * pyval)) :
  given_id (from_id (cp_base params)) && given_id (to_id (cp_base params)) = true ->
  validate_date_range (cp_date_start params) (cp_date_end params) 31 = Ok tt ->
  let f := id_value (from_id (cp_base params)) in
  let t := id_value (to_id (cp_base params)) in
  upstream (requests w) (calendar_request params f t) = Ok (PDict entries) ->
  truthy (field_or entries "prices" (PList [])) = false ->
  result_of (search_calendar_prices upstream fixed2 params w)
  = Ok {| cr_resolved_from_id := f; cr_resolved_to_id := t;
          cr_calendar := []; cr_note := plain_note |}.
Proof.
  intros Hids V f t Hup Hp.
  assert (N : result_of (normalize_calendar_day_results (PDict entries) w)
              = Ok ({| requestId := field entries "requestId";
                       fromPosId := field entries "fromPosId";
                       toPosId := field entries "toPosId";
                       cal_currency := field_or entries "currency" (PStr "EUR");
                       calendar := []; stats := None |}, 0)).
  { unfold normalize_calendar_day_results.
    rewrite !py_get_dict, !py_get_default_dict. run. rewrite Hp. run. reflexivity. }
  destruct (calendar_by_ids params w _ _ _ Hids V Hup N) as [Hres _].
  exact Hres.
Qed.

(** The query of the two summaries. *)
Definition summary_query (params : SearchSummaryParams) (f t : Z)
  : list (string * pyval) :=
  [("fromId", PInt f); ("toId", PInt t);
   ("adults", PStr (adults (ss_base params)));
   ("children", PStr (children (ss_base params)));
   ("infants", PStr (infants (ss_base params)));
   ("travelModes", PStr (join "," (modes (ss_base params))));
   ("locale", PStr (locale (ss_base params)));
   ("currency", PStr (sp_currency (ss_base params)));
   ("outboundDateStart", PStr (ss_date_start params));
   ("inboundDateEnd", PStr (ss_date_end params))].

(** X21.  The two summary searches, given both ids and an accepted range,
    answer a payload without data with an empty summary: the cheapest
    summary with the insight that no pricing data is available, the fastest
    summary with its note.  Each sends its one request, with the range under
    outboundDateStart and inboundDateEnd. *)
Theorem summaries_without_data (params : SearchSummaryParams) (w : world)
  (entries : list (string * pyval)) :
  given_id (from_id (ss_base params)) && given_id (to_id (ss_base params)) = true ->
  validate_date_range (ss_date_start params) (ss_date_end params) 30 = Ok tt ->
  truthy (field_or entries "data" (PDict [])) = false ->
  let f := id_value (from_id (ss_base params)) in
  let t := id_value (to_id (ss_base params)) in
  let q := summary_query params f t in
  (upstream (requests w)
     {| endpoint := "/v2/discovery/results/summary/cheapest"; query := q |}
   = Ok (PDict entries) ->
   result_of (search_cheapest_summary upstream fixed2 params w)
   = Ok {| sc_resolved_from_id := f; sc_resolved_to_id := t;
           sc_summary := []; insight := Some no_pricing_data |}
   /\ requests (snd (search_cheapest_summary upstream fixed2 params w))
      = requests w
        ++ [{| endpoint := "/v2/discovery/results/summary/cheapest"; query := q |}])
  /\ (upstream (requests w)
        {| endpoint := "/v2/discovery/results/summary/fastest"; query := q |}
      = Ok (PDict entries) ->
      result_of (search_fastest_summary upstream params w)
      = Ok {| sf_resolved_from_id := f; sf_resolved_to_id := t;
              sf_summary := []; sf_note := trade_off_note |}
      /\ requests (snd (search_fastest_summary upstream params w))
         = requests w
           ++ [{| endpoint := "/v2/discovery/results/summary/fastest"; query := q |}]).
Proof.
  intros Hids V Hd f t q. split; intros Hup.
  - pattern (search_cheapest_summary upstream fixed2 params w).
    match goal with |- ?P _ => set (Q := P) end.
    unfold search_cheapest_summary. run. rewrite V. run.
    unfold _ensure_position_ids at 1. rewrite Hids. run.
    unfold prepare_common_api_params. repeat (rewrite run_assoc; run).
    fold f. fold t.
    unfold bind at 1, fetch, try_except, bind at 1, log at 1. cbv beta iota.
    unfold bind at 1, DiscoveryClient.get. cbn [requests logs].
    change (assign "inboundDateEnd" _ _) with q.
    change DISCOVERY_CHEAPEST_SUMMARY_ENDPOINT
      with "/v2/discovery/results/summary/cheapest".
    rewrite Hup. cbn [py_keys]. run. unfold ret at 1. cbv beta iota.
    unfold normalize_cheapest_summary_results. rewrite run_assoc. run.
    rewrite py_get_dict, py_get_default_dict.
    repeat (rewrite run_assoc; run). rewrite Hd.
    destruct (truthy (field entries "errors"));
      repeat (rewrite run_assoc; run); unfold ret; subst Q; cbv beta;
      unfold result_of; cbn [snd fst requests]; split; reflexivity.
  - pattern (search_fastest_summary upstream params w).
    match goal with |- ?P _ => set (Q := P) end.
    unfold search_fastest_summary. run. rewrite V. run.
    unfold _ensure_position_ids at 1. rewrite Hids. run.
    unfold prepare_common_api_params. repeat (rewrite run_assoc; run).
    fold f. fold t.
    unfold bind at 1, fetch, try_except, bind at 1, log at 1. cbv beta iota.
    unfold bind at 1, DiscoveryClient.get. cbn [requests logs].
    change (assign "inboundDateEnd" _ _) with q.
    change DISCOVERY_FASTEST_SUMMARY_ENDPOINT
      with "/v2/discovery/results/summary/fastest".
    rewrite Hup. cbn [py_keys]. run. unfold ret at 1. cbv beta iota.
    unfold normalize_fastest_summary_results. rewrite run_assoc. run.
    rewrite py_get_default_dict.
    repeat (rewrite run_assoc; run). rewrite Hd.
    repeat (rewrite run_assoc; run). unfold ret. subst Q. cbv beta.
    unfold result_of. cbn [snd fst requests]. split; reflexivity.
Qed.

End RangeSearchRuns.

(** A formatter for closed examples. *)
Definition example_fixed2 (x : spec_float) : string := "0.00".

Definition june_calendar : SearchCalendarPricesParams :=
  {| cp_base := base search_by_ids; cp_date_start := "2024-06-01";
     cp_date_end := "2024-07-05"; journey_type := ONE_WAY |}.

Definition june_summary : SearchSummaryParams :=
  {| ss_base := by_terms; ss_date_start := "2024-06-01";
     ss_date_end := "2024-07-02" |}.

Lemma range_checked_first_witness :
  (result_of (@search_calendar_prices example_interpreter failing_upstream
                example_fixed2 june_calendar fresh_world)
   = Raise (range_exceeded 31)
   /\ requests (snd (@search_calendar_prices example_interpreter failing_upstream
                       example_fixed2 june_calendar fresh_world)) = [])
  /\ (result_of (@search_fastest_summary example_interpreter failing_upstream
                   june_summary fresh_world)
      = Raise (range_exceeded 30)
      /\ requests (snd (@search_fastest_summary example_interpreter failing_upstream
                          june_summary fresh_world)) = []).
Proof.
  split.
  - apply (proj1 (@range_checked_first example_interpreter failing_upstream
                    example_fixed2 (range_exceeded 31) fresh_world) june_calendar).
    reflexivity.
  - apply (proj2 (@range_checked_first example_interpreter failing_upstream
                    example_fixed2 (range_exceeded 30) fresh_world) june_summary).
    reflexivity.
Defined.

(** An upstream that answers with the priced calendar, and one whose
    calendar names its currency by a number. *)
Definition calendar_upstream (history : list request) (r : request) : outcome pyval :=
  Ok (PDict priced_calendar).

Definition numeric_currency_calendar : list (string * pyval) :=
  [("currency", PInt 978);
   ("prices", PList [PDict [("date", PStr "2024-06-01"); ("priceCents", PInt 2500)];
                     PDict [("date", PStr "2024-06-03"); ("priceCents", PInt 1900)]])].

Definition numeric_currency_upstream (history : list request) (r : request)
  : outcome pyval :=
  Ok (PDict numeric_currency_calendar).

Definition june_week : SearchCalendarPricesParams :=
  {| cp_base := base search_by_ids; cp_date_start := "2024-06-01";
     cp_date_end := "2024-06-07"; journey_type := ROUND_TRIP |}.

Lemma calendar_search_by_ids_witness :
  (exists resp,
     result_of (@search_calendar_prices example_interpreter calendar_upstream
                  example_fixed2 june_week fresh_world) = Ok resp
     /\ map cd_date (cr_calendar resp) = ["2024-06-01"; "2024-06-03"]
     /\ map cd_currency (cr_calendar resp) = [Some "USD"; Some "USD"])
  /\ (exists resp,
        result_of (@search_calendar_prices example_interpreter
                     numeric_currency_upstream example_fixed2 june_week fresh_world)
        = Ok resp
        /\ cr_calendar resp = []).
Proof.
  split.
  - edestruct (@calendar_search_by_ids example_interpreter calendar_upstream
                 example_fixed2 june_week fresh_world)
      as (resp & Hres & _ & _ & _ & Hcal & _);
      [reflexivity | reflexivity | reflexivity | vm_compute; reflexivity |].
    exists resp. split; [exact Hres |]. rewrite Hcal. split; reflexivity.
  - edestruct (@calendar_search_by_ids example_interpreter numeric_currency_upstream
                 example_fixed2 june_week fresh_world)
      as (resp & Hres & _ & _ & _ & _ & _ & Hcur & _);
      [reflexivity | reflexivity | reflexivity | vm_compute; reflexivity |].
    exists resp. split; [exact Hres |]. apply Hcur. reflexivity.
Defined.

Definition no_price_upstream (history : list request) (r : request) : outcome pyval :=
  Ok (PDict [("requestId", PStr "r-2"); ("prices", PList [])]).

Lemma calendar_search_without_prices_witness :
  result_of (@search_calendar_prices example_interpreter no_price_upstream
               example_fixed2 june_week fresh_world)
  = Ok {| cr_resolved_from_id := 1; cr_resolved_to_id := 2;
          cr_calendar := []; cr_note := plain_note |}.
Proof.
  apply (@calendar_search_without_prices example_interpreter no_price_upstream
           example_fixed2 june_week fresh_world
           [("requestId", PStr "r-2"); ("prices", PList [])]);
    reflexivity.
Defined.

Definition june_by_ids : SearchSummaryParams :=
  {| ss_base := base search_by_ids; ss_date_start := "2024-06-01";
     ss_date_end := "2024-06-30" |}.

Definition no_data_upstream (history : list request) (r : request) : outcome pyval :=
  Ok (PDict [("data", PDict [])]).

Lemma summaries_without_data_witness :
  result_of (@search_cheapest_summary example_interpreter no_data_upstream
               example_fixed2 june_by_ids fresh_world)
  = Ok {| sc_resolved_from_id := 1; sc_resolved_to_id := 2;
          sc_summary := []; insight := Some no_pricing_data |}
  /\ result_of (@search_fastest_summary example_interpreter no_data_upstream
                  june_by_ids fresh_world)
     = Ok {| sf_resolved_from_id := 1; sf_resolved_to_id := 2;
             sf_summary := []; sf_note := trade_off_note |}.
Proof.
  destruct (@summaries_without_data example_interpreter no_data_upstream
              example_fixed2 june_by_ids fresh_world [("data", PDict [])]
              eq_refl eq_refl eq_refl) as [Hc Hf].
  split; [apply Hc | apply Hf]; reflexivity.
Defined.

(* ================================================================== *)
(** * search_day_results by terms                                     *)
(* ================================================================== *)

Section SearchByTerms.
Context {interp : Interpreter}.
Variable upstream : list request -> request -> outcome pyval.

Lemma search_day_results_run params w f t w2 :
  _ensure_position_ids upstream (base params)
    (logged INFO "[Search] Starting 'search_day_results'" w) = (Ok (f, t), w2) ->
  exists u,
    requests u = requests w2 ++ [day_results_request params f t]
    /\ search_day_results upstream params w
       = match upstream (requests w2) (day_results_request params f t) with
         | Ok raw_data =>
             bind (shape_day_results raw_data) (fun results =>
               log INFO "[Search] Retrieved {n}";;
               _ <- lift (match results with
                          | first :: _ => Ok first
                          | [] => Raise IndexError
                          end);;
               log INFO "[Search] Retrieved {first}";;
               ret {| resolved_from_id := f; resolved_to_id := t;
                      results := results; note := estimate_note |}) u
         | Raise e =>
             (Raise e,
              match e with
              | UpstreamApiError _ => logged ERROR "[Search] Upstream API error" u
              | _ => u
              end)
         end.
Proof.
  intros Hids. unfold search_day_results. run.
  erewrite run_bind_eq; [| exact Hids]. cbv beta iota. run.
  unfold prepare_common_api_params. repeat (rewrite run_assoc; run).
  unfold bind at 1, try_except, bind at 1, log at 1, DiscoveryClient.get.
  cbn [requests logs].
  change (assign "outboundDate" _ _) with
    (assign "outboundDate" (PStr (date_out params))
       [("fromId", PInt f); ("toId", PInt t);
        ("adults", PStr (adults (base params)));
        ("children", PStr (children (base params)));
        ("infants", PStr (infants (base params)));
        ("travelModes", PStr (join "," (modes (base params))));
        ("locale", PStr (locale (base params)));
        ("currency", PStr (sp_currency (base params)))]).
  match goal with
  | |- context [upstream (requests w2) ?r] =>
      change r with (day_results_request params f t)
  end.
  eexists. split; [| destruct (upstream (requests w2) (day_results_request params f t))
                       as [raw | e]; [reflexivity |]].
  - reflexivity.
  - destruct e; reflexivity.
Qed.

Lemma resolve_by_terms_sent params w f t w2 :
  resolve_by_terms upstream params w = (Ok (f, t), w2) ->
  requests w2
  = requests w ++ [side_request (text (sp_from_term params)) (locale params) 20;
                   side_request (text (sp_to_term params)) (locale params) 20].
Proof.
  unfold resolve_by_terms. rewrite run_log. unfold try_except, bind at 1.
  match goal with
  | |- context [resolve_positions upstream ?p ?u] =>
      destruct (resolve_positions_sent upstream p u) as (sent & E & _ & Hok & _);
      destruct (resolve_positions upstream p u) as [[resolved | e] u1]
  end.
  - cbn [snd requests rp_from_term rp_to_term rp_locale limit_each] in E, Hok.
    rewrite (Hok resolved eq_refl) in E. cbv zeta.
    destruct (negb (given_id (sg_from_id (suggestion resolved)))
              || negb (given_id (sg_to_id (suggestion resolved)))).
    + unfold raise. rewrite run_log. unfold raise. discriminate.
    + rewrite run_log. unfold ret. intros H. injection H as _ _ <-. exact E.
  - rewrite run_log. unfold raise. discriminate.
Qed.

(** X22.  A day search that is given two terms and no ids, and returns,
    has sent three requests in this order: the autocomplete of the origin,
    the autocomplete of the destination (each with a limit of 20), and the
    day search with the ids its response names as resolved. *)
Theorem search_by_terms_requests (params : SearchDayResultsParams) (w : world)
  (resp : SearchDayResultsResponse) :
  given_id (from_id (base params)) && given_id (to_id (base params)) = false ->
  given_term (sp_from_term (base params)) && given_term (sp_to_term (base params))
  = true ->
  result_of (search_day_results upstream params w) = Ok resp ->
  requests (snd (search_day_results upstream params w))
  = requests w
    ++ [side_request (text (sp_from_term (base params))) (locale (base params)) 20;
        side_request (text (sp_to_term (base params))) (locale (base params)) 20;
        day_results_request params (resolved_from_id resp) (resolved_to_id resp)].
Proof.
  intros Hids Hterms Hres.
  destruct (_ensure_position_ids upstream (base params)
              (logged INFO "[Search] Starting 'search_day_results'" w))
    as [[[f t] | e] w2] eqn:E.
  2:{ unfold search_day_results in Hres. revert Hres. run.
      unfold bind at 1. unfold logged in E. rewrite E. discriminate. }
  destruct (search_day_results_run params w f t w2 E) as (u & Hu & Hrun).
  rewrite Hrun in *. clear Hrun.
  unfold _ensure_position_ids in E. rewrite Hids, Hterms in E.
  apply resolve_by_terms_sent in E. cbn [requests logged] in E.
  destruct (upstream (requests w2) (day_results_request params f t)) as [raw | e];
    [| discriminate Hres].
  assert (O : offline (bind (shape_day_results raw) (fun results =>
                log INFO "[Search] Retrieved {n}";;
                _ <- lift (match results with
                           | first :: _ => Ok first
                           | [] => Raise IndexError
                           end);;
                log INFO "[Search] Retrieved {first}";;
                ret {| resolved_from_id := f; resolved_to_id := t;
                       results := results; note := estimate_note |}))).
  { apply offline_bind; [apply offline_shape_day_results |].
    intros results. offline_auto. }
  rewrite O, Hu, E, <- app_assoc. cbn [app].
  apply bind_ok_inv in Hres as (results & u1 & _ & Hres).
  revert Hres. run. destruct results as [| first rest]; [discriminate |].
  run. unfold ret, result_of. cbn [fst]. intros H. injection H as <-.
  reflexivity.
Qed.

End SearchByTerms.

(** An upstream that knows one location and one schedule. *)
Definition routing_upstream (history : list request) (r : request) : outcome pyval :=
  if String.eqb (endpoint r) Settings.POSITION_ENDPOINT
  then one_location_upstream history r
  else Ok (PDict unresolved_payload).

Definition paris_to_berlin : SearchDayResultsParams :=
  {| base := by_terms; date_out := "2024-06-01"; date_return := Some "2024-06-08" |}.

Lemma search_by_terms_requests_witness :
  map endpoint
    (requests (snd (@search_day_results example_interpreter routing_upstream
                      paris_to_berlin fresh_world)))
  = ["/nemo/position/suggest"; "/nemo/position/suggest"; "/v2/discovery/results"].
Proof.
  assert (E : exists resp,
             result_of (@search_day_results example_interpreter routing_upstream
                          paris_to_berlin fresh_world) = Ok resp)
    by (eexists; vm_compute; reflexivity).
  destruct E as [resp E].
  rewrite (@search_by_terms_requests example_interpreter routing_upstream
             paris_to_berlin fresh_world resp eq_refl eq_refl E).
  reflexivity.
Defined.

Import Metrics.
Import RangeSearches.

Section TraceTool.
Variable insert_one : list metric -> metric -> outcome unit.
Variable message_text : exn -> string.

(** X23.  A traced tool raises only what the database raises.  When the
    database takes every document, the traced call returns: the tool's
    result when the tool returns, and otherwise an error envelope that names
    the class of the exception; it stores exactly one document, a success
    or a failure accordingly, and sends nothing upstream beyond what the
    tool sent.  When the database refuses the document of a success, the
    tool's result is dropped and the call answers as for a failure with the
    database's exception. *)
Theorem trace_tool_outcome (tool_name : string) (context_dict : pyval)
  (fn : Py pyval) (w : world) (collection : list metric) :
  let run := trace_tool insert_one message_text tool_name context_dict fn
               (w, collection) in
  ((forall docs m, insert_one docs m = Ok tt) ->
   requests (fst (snd run)) = requests (snd (fn w))
   /\ match result_of (fn w) with
      | Ok result =>
          fst run = Ok result
          /\ snd (snd run)
             = collection
               ++ [Success tool_name context_dict (result_count_of result)]
      | Raise exc =>
          fst run = Ok (envelope message_text exc)
          /\ snd (snd run)
             = collection
               ++ [Failure tool_name context_dict (class_name exc)
                     (message_text exc)]
      end)
  /\ (forall result refused,
        result_of (fn w) = Ok result ->
        insert_one collection
          (Success tool_name context_dict (result_count_of result))
        = Raise refused ->
        fst run
        = match insert_one collection
                  (Failure tool_name context_dict (class_name refused)
                     (message_text refused)) with
          | Ok _ => Ok (envelope message_text refused)
          | Raise e => Raise e
          end).
Proof.
  intros run. subst run. unfold trace_tool, on_failure, save_metric_to_mongo, result_of.
  cbn [fst snd]. destruct (fn w) as [[result | exc] w1]; cbn [fst snd].
  - split.
    + intros Hdb. rewrite Hdb. cbn [fst snd logged requests]. auto.
    + intros r refused E Hrefused. injection E as <-. rewrite Hrefused.
      cbn [fst snd].
      destruct (insert_one collection
                  (Failure tool_name context_dict (class_name refused)
                     (message_text refused))); reflexivity.
  - split.
    + intros Hdb. rewrite Hdb. cbn [fst snd logged requests]. auto.
    + intros r refused E. discriminate E.
Qed.

Lemma trace_tool_raised tool_name context_dict (fn : Py pyval) w collection exc w1 :
  (forall docs m, insert_one docs m = Ok tt) ->
  fn w = (Raise exc, w1) ->
  trace_tool insert_one message_text tool_name context_dict fn (w, collection)
  = (Ok (envelope message_text exc),
     (logged ERROR "[MCP TOOL FAILURE]" w1,
      collection ++ [Failure tool_name context_dict (class_name exc)
                       (message_text exc)])).
Proof.
  intros Hdb E. unfold trace_tool, on_failure, save_metric_to_mongo.
  cbn [fst snd]. rewrite E. cbn [fst snd]. rewrite Hdb. reflexivity.
Qed.

Section TracedCalendarTool.
Context {interp : Interpreter}.
Variable upstream : list request -> request -> outcome pyval.
Variable fixed2 : spec_float -> string.
Variable model_dump : SearchCalendarPricesResponse -> pyval.

(** X24.  The traced calendar tool, called with a range that
    [validate_date_range] rejects, answers with an error envelope, sends
    nothing upstream and stores one failure.  The envelope names the class
    of the exception: for the two errors of the range check it says
    ["InvalidInputError"], not the ["bad_input"] that [to_dict] reports nor
    any error type that the docstrings of the tools announce. *)
Theorem traced_calendar_range_error (params : SearchCalendarPricesParams)
  (context_dict : pyval) (e : exn) (w : world) (collection : list metric) :
  (forall docs m, insert_one docs m = Ok tt) ->
  validate_date_range (cp_date_start params) (cp_date_end params) 31 = Raise e ->
  let run := trace_tool insert_one message_text "search_calendar_prices" context_dict
               (tool (search_calendar_prices upstream fixed2 params) model_dump)
               (w, collection) in
  fst run = Ok (envelope message_text e)
  /\ requests (fst (snd run)) = requests w
  /\ snd (snd run)
     = collection ++ [Failure "search_calendar_prices" context_dict (class_name e)
                        (message_text e)]
  /\ (e = invalid_date_format \/ e = range_exceeded 31 ->
      class_name e = "InvalidInputError"
      /\ ~ In (class_name e) documented_error_types
      /\ exists body, to_dict e = Some body
                      /\ lookup "error_type" body = Some (PStr "bad_input")).
Proof.
  intros Hdb V run.
  assert (E : exists w1,
             tool (search_calendar_prices upstream fixed2 params) model_dump w
             = (Raise e, w1) /\ requests w1 = requests w).
  { unfold tool, search_calendar_prices. run. rewrite V. run.
    eexists. split; reflexivity. }
  destruct E as (w1 & E & R). subst run.
  rewrite (trace_tool_raised _ _ _ _ _ _ _ Hdb E). cbn [fst snd logged requests].
  split; [reflexivity |]. split; [exact R |]. split; [reflexivity |].
  intros [-> | ->]; (split; [reflexivity |]); (split;
    [unfold documented_error_types; cbn; intros H;
     repeat (destruct H as [H | H]; [discriminate H |]); exact H
    | eexists; split; reflexivity]).
Qed.

End TracedCalendarTool.

End TraceTool.

(** A database that takes every document, one that is down, and the text
    of an exception as far as the examples need it. *)
Definition accepting (docs : list metric) (m : metric) : outcome unit := Ok tt.

Definition unreachable (docs : list metric) (m : metric) : outcome unit :=
  Raise (UpstreamApiError "connection refused").

Definition example_message (e : exn) : string :=
  match e with
  | InvalidInputError m _ | UpstreamApiError m | LocationResolutionError m => m
  | _ => ""
  end.

Lemma trace_tool_outcome_witness :
  fst (trace_tool accepting example_message "search_day_results" PNone
         (tool (@search_day_results example_interpreter failing_upstream
                  search_by_ids) (fun _ => PNone))
         (fresh_world, []))
  = Ok (PDict [("error", PDict [("type", PStr "UpstreamApiError");
                                ("message", PStr "HTTP error 503")])])
  /\ fst (trace_tool unreachable example_message "resolve_positions" PNone
            (ret (PDict [("result_count", PInt 2)])) (fresh_world, []))
     = Raise (UpstreamApiError "connection refused").
Proof.
  split.
  - destruct (proj1 (trace_tool_outcome accepting example_message
                       "search_day_results" PNone
                       (tool (@search_day_results example_interpreter
                                failing_upstream search_by_ids) (fun _ => PNone))
                       fresh_world []) (fun _ _ => eq_refl)) as [_ H].
    vm_compute in H. vm_compute. exact (proj1 H).
  - apply (proj2 (trace_tool_outcome unreachable example_message "resolve_positions"
                    PNone (ret (PDict [("result_count", PInt 2)])) fresh_world [])
             (PDict [("result_count", PInt 2)])
             (UpstreamApiError "connection refused")); reflexivity.
Defined.

Lemma traced_calendar_range_error_witness :
  fst (trace_tool accepting example_message "search_calendar_prices" PNone
         (tool (@search_calendar_prices example_interpreter calendar_upstream
                  example_fixed2 june_calendar) (fun _ => PNone))
         (fresh_world, []))
  = Ok (PDict [("error",
                PDict [("type", PStr "InvalidInputError");
                       ("message",
                        PStr "Date range exceeds the maximum of 31 days.")])]).
Proof.
  apply (@traced_calendar_range_error accepting example_message example_interpreter
           calendar_upstream example_fixed2 (fun _ => PNone) june_calendar PNone
           (range_exceeded 31) fresh_world []).
  - reflexivity.
  - reflexivity.
Defined.
